(** * AwsSessionHandler: the token lifecycle of [awssessionhandler.py]

    A shallow embedding of the class [AwsSessionHandler]
    (src/aws_session_handler/awssessionhandler.py).  The handler object is a
    record of its attributes, the outside world (botocore's profile map, the
    file system, the clock, standard input and the STS token service) is a
    second record, and every method is a computation over both in a small
    monad that keeps the attribute updates made before an exception was
    raised, as Python does, and that logs the calls made to the outside. *)

From Stdlib Require Import ZArith String Ascii List Lia.
From stdpp Require Import base option gmap strings list fin_maps.
Import ListNotations.

Local Open Scope string_scope.
Local Open Scope Z_scope.
#[local] Set Warnings "-register-all".

(** ** Python values *)

(** The values that [json.load] yields and [json.dump] accepts.  A dict is
    kept as the list of its items in insertion order; [json.load] never yields
    two items with one key.  JSON numbers are kept as integers: the handler
    only ever tests a number for truth or fails on it. *)
Inductive pyval : Type :=
| PNone
| PBool (b : bool)
| PInt (z : Z)
| PStr (s : string)
| PList (l : list pyval)
| PDict (d : list (string * pyval)).

(** [None] or a [str], the type of the profile and region selectors. *)
Definition of_optstr (o : option string) : pyval :=
  match o with
  | Some s => PStr s
  | None => PNone
  end.

(** [bool(v)] *)
Definition truthy (v : pyval) : bool :=
  match v with
  | PNone => false
  | PBool b => b
  | PInt z => negb (z =? 0)
  | PStr s => negb (bool_decide (s = EmptyString))
  | PList l => match l with [] => false | _ => true end
  | PDict d => match d with [] => false | _ => true end
  end.

(** The exceptions that the handler and the libraries under it raise. *)
Inductive exn : Type :=
| Exception (msg : string)        (* raised by the handler itself *)
| ProfileNotFound (profile : string)
| KeyError (key : string)
| TypeError
| AttributeError
| ValueError
| JSONDecodeError
| EOFError
| OSError (path : string)
| ServiceError (msg : string).    (* whatever the token service raises *)

Inductive result (A : Type) : Type :=
| Ok (a : A)
| Raise (e : exn).
Arguments Ok {A} a.
Arguments Raise {A} e.

Definition is_ok {A} (r : result A) : bool :=
  match r with Ok _ => true | Raise _ => false end.

(** [d.get(k)] on the items of a dict *)
Fixpoint items_get (d : list (string * pyval)) (k : string) : option pyval :=
  match d with
  | [] => None
  | (k', v) :: d' => if decide (k' = k) then Some v else items_get d' k
  end.

(** [v[k]] for a [str] key [k]: a dict is looked up, everything else refuses a
    string subscript. *)
Definition getitem (v : pyval) (k : string) : result pyval :=
  match v with
  | PDict d => match items_get d k with
               | Some x => Ok x
               | None => Raise (KeyError k)
               end
  | _ => Raise TypeError
  end.

(** [k in v] for a [str] [k]: key membership for a dict, element membership for
    a list, substring test for a str, [TypeError] otherwise. *)
Definition is_PStr (k : string) (v : pyval) : bool :=
  match v with PStr s => bool_decide (s = k) | _ => false end.

Definition is_substring (k s : string) : bool :=
  match String.index 0 k s with Some _ => true | None => false end.

Definition contains (v : pyval) (k : string) : result bool :=
  match v with
  | PDict d => Ok (bool_decide (is_Some (items_get d k)))
  | PList l => Ok (existsb (is_PStr k) l)
  | PStr s => Ok (is_substring k s)
  | _ => Raise TypeError
  end.

(** [v != s] for a [str] [s] *)
Definition ne_str (v : pyval) (s : string) : bool := negb (is_PStr s v).

(** [v != o] for [o] a [str] or [None] *)
Definition ne_optstr (v : pyval) (o : option string) : bool :=
  match o with
  | Some s => ne_str v s
  | None => match v with PNone => false | _ => true end
  end.

(** [''.join(s.rsplit(':', 1))]: [s] without its last colon. *)
Fixpoint drop_first_colon (l : list ascii) : list ascii :=
  match l with
  | [] => []
  | c :: l' => if decide (c = ":"%char) then l' else c :: drop_first_colon l'
  end.

Definition join_rsplit_colon (s : string) : string :=
  string_of_list_ascii
    (rev (drop_first_colon (rev (list_ascii_of_string s)))).

(** [os.path.dirname] of posixpath: the part up to the last slash, without
    its trailing slashes unless it consists of slashes only. *)
Fixpoint drop_until_slash (l : list ascii) : list ascii :=
  match l with
  | [] => []
  | c :: l' => if decide (c = "/"%char) then l else drop_until_slash l'
  end.

Fixpoint lstrip_slash (l : list ascii) : list ascii :=
  match l with
  | [] => []
  | c :: l' => if decide (c = "/"%char) then lstrip_slash l' else l
  end.

Definition dirname (p : string) : string :=
  let head := drop_until_slash (rev (list_ascii_of_string p)) in
  string_of_list_ascii
    (rev (match lstrip_slash head with
          | [] => head
          | stripped => stripped
          end)).

(** ** The outside world *)

(** A profile section of the AWS config, as [get_scoped_config] returns it:
    the keys of the section with their values. *)
Abbreviation Config := (gmap string string).

(** The content of a file, as [json.load] sees it: a text that decodes to a
    value, or a text that is not JSON, on which [json.load] raises.  What
    [json.dump] writes is a text of the first kind, and it decodes to the
    value that was dumped; this much is taken from the [json] library. *)
Inductive file_data : Type :=
| Garbled (text : string)
| Json (v : pyval).

Inductive node : Type :=
| Dir (writable : bool)
| File (readable writable : bool) (data : file_data).

(** The credentials bundle of an STS response, [resp['Credentials']].
    [Expiration] is an aware datetime, kept as microseconds since the epoch. *)
Record Credentials : Type := {
  AccessKeyId : string;
  SecretAccessKey : string;
  SessionToken : string;
  Expiration : Z
}.

(** [boto3.Session(profile_name, region_name).client('sts').get_session_token(...)] *)
Record GetSessionTokenRequest : Type := {
  gst_profile_name : string;
  gst_region_name : option string;
  gst_DurationSeconds : Z;
  gst_SerialNumber : string;
  gst_TokenCode : string
}.

(** [boto3.Session(aws_access_key_id, ...).client('sts').assume_role(...)] *)
Record AssumeRoleRequest : Type := {
  ar_aws_access_key_id : pyval;
  ar_aws_secret_access_key : pyval;
  ar_aws_session_token : pyval;
  ar_RoleArn : string;
  ar_RoleSessionName : string;
  ar_DurationSeconds : Z
}.

Record World : Type := {
  profile_map : gmap string Config;     (* botocore's view of ~/.aws/config *)
  fs : gmap string node;                (* the file system, by path *)
  home : string;                        (* what [~] expands to *)
  utcnow : Z;                           (* the clock, microseconds since the epoch *)
  stdin : list string;                  (* the lines [input] will read *)
  sts_get_session_token : GetSessionTokenRequest -> result Credentials;
  sts_assume_role : AssumeRoleRequest -> result Credentials
}.

Definition set_fs (f : gmap string node) (w : World) : World :=
  {| profile_map := profile_map w; fs := f; home := home w; utcnow := utcnow w;
     stdin := stdin w; sts_get_session_token := sts_get_session_token w;
     sts_assume_role := sts_assume_role w |}.

Definition set_stdin (l : list string) (w : World) : World :=
  {| profile_map := profile_map w; fs := fs w; home := home w; utcnow := utcnow w;
     stdin := l; sts_get_session_token := sts_get_session_token w;
     sts_assume_role := sts_assume_role w |}.

(** What a call does to the outside, in the order it does it. *)
Inductive event : Type :=
| MfaPrompt (prompt : string)
| GetSessionTokenCall (req : GetSessionTokenRequest)
| AssumeRoleCall (req : AssumeRoleRequest)
| CacheWrite (path : string) (data : pyval).

(** The datetime library: [datetime.strptime(s, fmt)] ([None] for its
    [ValueError]) and [isoformat()] of an aware datetime.  The handler is
    verified against this interface; [Iso8601] below implements it. *)
Class DateTimeLib : Type := {
  strptime : string -> string -> option Z;
  isoformat : Z -> string
}.

(** [timedelta(seconds=n)] *)
Definition timedelta_seconds (n : Z) : Z := n * 1000000.

(** ** The handler object *)

(** A botocore session with its [profile] config variable. *)
Record LookupSession : Type := { ls_profile : option string }.

(** A [boto3.Session]: built from explicit credentials, or on top of a
    botocore session (the default credential chain of its profile). *)
Inductive Session : Type :=
| SessionFromCredentials (region_name : option string)
    (aws_access_key_id aws_secret_access_key aws_session_token : pyval)
| SessionFromBotocore (botocore_session : option LookupSession).

Record Handler : Type := {
  _profile : option string;
  _region : option string;
  _config : option Config;
  _lookup_session : option LookupSession;
  _session : option Session;
  _disk_cache_disable : bool;
  _long_session_token : pyval;
  _long_session_duration : Z;
  _short_session_token : pyval;
  _short_session_duration : Z;
  _cache_file : option string
}.

(** Attribute assignment, [self.<attribute> = v]. *)
Definition set_profile (v : option string) (h : Handler) : Handler :=
  {| _profile := v; _region := _region h; _config := _config h;
     _lookup_session := _lookup_session h; _session := _session h;
     _disk_cache_disable := _disk_cache_disable h; _long_session_token :=
     _long_session_token h; _long_session_duration := _long_session_duration h;
     _short_session_token := _short_session_token h; _short_session_duration :=
     _short_session_duration h; _cache_file := _cache_file h |}.

Definition set_region (v : option string) (h : Handler) : Handler :=
  {| _profile := _profile h; _region := v; _config := _config h;
     _lookup_session := _lookup_session h; _session := _session h;
     _disk_cache_disable := _disk_cache_disable h; _long_session_token :=
     _long_session_token h; _long_session_duration := _long_session_duration h;
     _short_session_token := _short_session_token h; _short_session_duration :=
     _short_session_duration h; _cache_file := _cache_file h |}.

Definition set_config (v : option Config) (h : Handler) : Handler :=
  {| _profile := _profile h; _region := _region h; _config := v;
     _lookup_session := _lookup_session h; _session := _session h;
     _disk_cache_disable := _disk_cache_disable h; _long_session_token :=
     _long_session_token h; _long_session_duration := _long_session_duration h;
     _short_session_token := _short_session_token h; _short_session_duration :=
     _short_session_duration h; _cache_file := _cache_file h |}.

Definition set_lookup_session (v : option LookupSession) (h : Handler) : Handler :=
  {| _profile := _profile h; _region := _region h; _config := _config h;
     _lookup_session := v; _session := _session h; _disk_cache_disable :=
     _disk_cache_disable h; _long_session_token := _long_session_token h;
     _long_session_duration := _long_session_duration h; _short_session_token :=
     _short_session_token h; _short_session_duration := _short_session_duration
     h; _cache_file := _cache_file h |}.

Definition set_session (v : option Session) (h : Handler) : Handler :=
  {| _profile := _profile h; _region := _region h; _config := _config h;
     _lookup_session := _lookup_session h; _session := v; _disk_cache_disable :=
     _disk_cache_disable h; _long_session_token := _long_session_token h;
     _long_session_duration := _long_session_duration h; _short_session_token :=
     _short_session_token h; _short_session_duration := _short_session_duration
     h; _cache_file := _cache_file h |}.

Definition set_disk_cache_disable (v : bool) (h : Handler) : Handler :=
  {| _profile := _profile h; _region := _region h; _config := _config h;
     _lookup_session := _lookup_session h; _session := _session h;
     _disk_cache_disable := v; _long_session_token := _long_session_token h;
     _long_session_duration := _long_session_duration h; _short_session_token :=
     _short_session_token h; _short_session_duration := _short_session_duration
     h; _cache_file := _cache_file h |}.

Definition set_long_session_token (v : pyval) (h : Handler) : Handler :=
  {| _profile := _profile h; _region := _region h; _config := _config h;
     _lookup_session := _lookup_session h; _session := _session h;
     _disk_cache_disable := _disk_cache_disable h; _long_session_token := v;
     _long_session_duration := _long_session_duration h; _short_session_token :=
     _short_session_token h; _short_session_duration := _short_session_duration
     h; _cache_file := _cache_file h |}.

Definition set_long_session_duration (v : Z) (h : Handler) : Handler :=
  {| _profile := _profile h; _region := _region h; _config := _config h;
     _lookup_session := _lookup_session h; _session := _session h;
     _disk_cache_disable := _disk_cache_disable h; _long_session_token :=
     _long_session_token h; _long_session_duration := v; _short_session_token :=
     _short_session_token h; _short_session_duration := _short_session_duration
     h; _cache_file := _cache_file h |}.

Definition set_short_session_token (v : pyval) (h : Handler) : Handler :=
  {| _profile := _profile h; _region := _region h; _config := _config h;
     _lookup_session := _lookup_session h; _session := _session h;
     _disk_cache_disable := _disk_cache_disable h; _long_session_token :=
     _long_session_token h; _long_session_duration := _long_session_duration h;
     _short_session_token := v; _short_session_duration :=
     _short_session_duration h; _cache_file := _cache_file h |}.

Definition set_short_session_duration (v : Z) (h : Handler) : Handler :=
  {| _profile := _profile h; _region := _region h; _config := _config h;
     _lookup_session := _lookup_session h; _session := _session h;
     _disk_cache_disable := _disk_cache_disable h; _long_session_token :=
     _long_session_token h; _long_session_duration := _long_session_duration h;
     _short_session_token := _short_session_token h; _short_session_duration :=
     v; _cache_file := _cache_file h |}.

Definition set_cache_file (v : option string) (h : Handler) : Handler :=
  {| _profile := _profile h; _region := _region h; _config := _config h;
     _lookup_session := _lookup_session h; _session := _session h;
     _disk_cache_disable := _disk_cache_disable h; _long_session_token :=
     _long_session_token h; _long_session_duration := _long_session_duration h;
     _short_session_token := _short_session_token h; _short_session_duration :=
     _short_session_duration h; _cache_file := v |}.

(** ** The monad of method bodies *)

(** A method runs on the object and the world.  It returns or raises, and
    either way leaves the object and the world as it changed them, together
    with the events it caused. *)
Record Run (A : Type) : Type := mkRun {
  value : result A;
  self_after : Handler;
  world_after : World;
  emitted : list event
}.
Arguments mkRun {A} _ _ _ _.
Arguments value {A} _.
Arguments self_after {A} _.
Arguments world_after {A} _.
Arguments emitted {A} _.

Definition M (A : Type) : Type := Handler -> World -> Run A.

Definition ret {A} (a : A) : M A := fun h w => mkRun (Ok a) h w [].

Definition raise {A} (e : exn) : M A := fun h w => mkRun (Raise e) h w [].

(** [r] with [evs] before its events. *)
Definition prepend {A} (evs : list event) (r : Run A) : Run A :=
  match r with
  | mkRun v h w evs' => mkRun v h w (evs ++ evs')
  end.

Definition bind {A B} (c : M A) (k : A -> M B) : M B := fun h w =>
  match c h w with
  | mkRun (Ok a) h1 w1 evs1 => prepend evs1 (k a h1 w1)
  | mkRun (Raise e) h1 w1 evs1 => mkRun (Raise e) h1 w1 evs1
  end.

Declare Scope py_scope.
Delimit Scope py_scope with py.
Notation "x <- c ;; k" := (bind c (fun x => k))
  (at level 100, c at next level, right associativity) : py_scope.
Notation "c ;;; k" := (bind c (fun _ => k))
  (at level 100, k at level 200, right associativity) : py_scope.
Local Open Scope py_scope.

Definition self : M Handler := fun h w => mkRun (Ok h) h w [].
Definition assign (f : Handler -> Handler) : M unit := fun h w => mkRun (Ok tt) (f h) w [].
Definition the_world : M World := fun h w => mkRun (Ok w) h w [].
Definition change_world (f : World -> World) : M unit := fun h w => mkRun (Ok tt) h (f w) [].
Definition emit (e : event) : M unit := fun h w => mkRun (Ok tt) h w [e].
Definition lift {A} (r : result A) : M A := fun h w => mkRun r h w [].
Definition when (b : bool) (c : M unit) : M unit := if b then c else ret tt.

(** ** The libraries the handler calls *)

(** [botocore_session.get_scoped_config()]: the section of the session's
    profile; with no profile, the [default] section or an empty dict. *)
Definition get_scoped_config (pm : gmap string Config) (ls : LookupSession)
  : result Config :=
  match ls_profile ls with
  | None => Ok (default ∅ (pm !! "default"))
  | Some p => match pm !! p with
              | Some c => Ok c
              | None => Raise (ProfileNotFound p)
              end
  end.

(** [boto3.Session(profile_name=p, ...)] fails on an unknown profile.  Making
    a session out of explicit credentials, or a client out of a session, is
    taken to succeed. *)
Definition boto3_Session_profile (p : string) : M unit :=
  w <- the_world ;;
  match profile_map w !! p with
  | Some _ => ret tt
  | None => raise (ProfileNotFound p)
  end.

(** [os.path.exists(p)] and [os.access(p, os.W_OK)] *)
Definition os_path_exists (w : World) (p : string) : bool :=
  negb (bool_decide (p = EmptyString)) && bool_decide (is_Some (fs w !! p)).

Definition os_access_W_OK (w : World) (p : string) : bool :=
  negb (bool_decide (p = EmptyString)) &&
  match fs w !! p with
  | Some (Dir wr) => wr
  | Some (File _ wr _) => wr
  | None => false
  end.

(** [os.makedirs(p, exist_ok=True)] on a path [p] whose parent directory is in
    place: a directory at [p] is left alone, a file at [p] is an error, and
    if nothing is there the directory is made.  The ancestors of [p] are not
    tracked: the call is not modelled where it would have to make them, or
    would fail on them. *)
Definition os_makedirs (p : string) : M unit :=
  w <- the_world ;;
  match fs w !! p with
  | Some (Dir _) => ret tt
  | Some (File _ _ _) => raise (OSError p)
  | None => change_world (set_fs (<[p := Dir true]> (fs w)))
  end.

(** [with open(p, 'r') as f: json.load(f)] *)
Definition json_load_file (p : string) : M pyval :=
  w <- the_world ;;
  match fs w !! p with
  | Some (File true _ (Json v)) => ret v
  | Some (File true _ (Garbled _)) => raise JSONDecodeError
  | _ => raise (OSError p)
  end.

(** [with open(p, 'w') as f: json.dump(v, f)]: the file is created in a
    writable directory or truncated if it is writable, and gets the
    serialisation of [v]. *)
Definition json_dump_file (v : pyval) (p : string) : M unit :=
  w <- the_world ;;
  match fs w !! p with
  | Some (File r true _) =>
      change_world (set_fs (<[p := File r true (Json v)]> (fs w))) ;;;
      emit (CacheWrite p v)
  | Some _ => raise (OSError p)
  | None =>
      match fs w !! dirname p with
      | Some (Dir true) =>
          change_world (set_fs (<[p := File true true (Json v)]> (fs w))) ;;;
          emit (CacheWrite p v)
      | _ => raise (OSError p)
      end
  end.

(** [str(input(prompt))] *)
Definition input (prompt : string) : M string :=
  emit (MfaPrompt prompt) ;;;
  w <- the_world ;;
  match stdin w with
  | line :: rest => change_world (set_stdin rest) ;;; ret line
  | [] => raise EOFError
  end.

(** The two calls to the token service.  The request is sent, then the
    service answers: with credentials, or with whatever it raises. *)
Definition get_session_token (req : GetSessionTokenRequest) : M Credentials :=
  emit (GetSessionTokenCall req) ;;;
  w <- the_world ;;
  lift (sts_get_session_token w req).

Definition assume_role (req : AssumeRoleRequest) : M Credentials :=
  emit (AssumeRoleCall req) ;;;
  w <- the_world ;;
  lift (sts_assume_role w req).

(** boto3's factories [Session.client] and [Session.resource] are library
    code: they hand out a handle for their positional and keyword arguments,
    or refuse them with an exception of their own (no service name, a service
    that is not known, no region to be found).  [None] says that the call is
    granted.  The handler is verified against this interface; [Boto3] below
    implements it. *)
Class Boto3Lib : Type := {
  client_refused :
    World -> Session -> list pyval -> list (string * pyval) -> option exn;
  resource_refused :
    World -> Session -> list pyval -> list (string * pyval) -> option exn
}.

(** ** The class [AwsSessionHandler] *)

Section AwsSessionHandler.
Context `{DateTimeLib}.
Context `{Boto3Lib}.

(** The keyword arguments of the constructor. *)
Record InitArgs : Type := {
  profile : option string;
  region : option string;
  cache_file : option string;
  disable_file_cache : bool;
  long_session_duration : option Z;
  short_session_duration : option Z
}.

(** The constructor's defaults. *)
Definition default_args : InitArgs :=
  {| profile := Some "default"; region := None; cache_file := None;
     disable_file_cache := false; long_session_duration := None;
     short_session_duration := None |}.

(** [d if d else dflt] *)
Definition or_default (d : option Z) (dflt : Z) : Z :=
  match d with
  | Some z => if z =? 0 then dflt else z
  | None => dflt
  end.

(** [self._config], a dict once [_config_lookup] has run *)
Definition config : M Config :=
  h <- self ;;
  match _config h with
  | Some c => ret c
  | None => raise TypeError
  end.

(** [self._config[k]] *)
Definition config_item (k : string) : M string :=
  c <- config ;;
  match c !! k with
  | Some v => ret v
  | None => raise (KeyError k)
  end.

(** [_config_lookup], lines 116-123 *)
Definition _config_lookup : M unit :=
  h <- self ;;
  let lookup_session := {| ls_profile := _profile h |} in
  assign (set_lookup_session (Some lookup_session)) ;;;
  w <- the_world ;;
  c <- lift (get_scoped_config (profile_map w) lookup_session) ;;
  assign (set_config (Some c)) ;;;
  h <- self ;;
  when (bool_decide (is_Some (c !! "region")) && negb (truthy (of_optstr (_region h))))
       (assign (set_region (c !! "region"))).

(** The preload of the cached tokens, lines 62-71. *)
Definition preload_cache_tokens : M unit :=
  h <- self ;;
  w <- the_world ;;
  match _cache_file h with
  | None => raise AttributeError
  | Some cf =>
      when (os_path_exists w cf && os_access_W_OK w cf)
        (cache_tokens <- json_load_file cf ;;
         has_long <- lift (contains cache_tokens "long_session_token") ;;
         when has_long
           (v <- lift (getitem cache_tokens "long_session_token") ;;
            assign (set_long_session_token v)) ;;;
         has_short <- lift (contains cache_tokens "short_session_token") ;;
         when has_short
           (v <- lift (getitem cache_tokens "short_session_token") ;;
            assign (set_short_session_token v)))
  end.

(** An explicit [cache_file], lines 43-53 *)
Definition explicit_cache_file (cf : string) : M unit :=
  let dir := dirname cf in
  w <- the_world ;;
  if negb (os_path_exists w dir) then
    raise (Exception ("Directory dos not exists: " ++ dir))
  else if negb (os_access_W_OK w dir) then
    raise (Exception ("Directory not readable " ++ dir))
  else if os_path_exists w cf && negb (os_access_W_OK w cf) then
    raise (Exception ("CacheFile is not writable " ++ cf))
  else assign (set_cache_file (Some cf)).

(** The cache file under the home directory, lines 55-60 *)
Definition default_cache_file : M unit :=
  w <- the_world ;;
  let cache_dir := (home w ++ "/.aws/app/cache")%string in
  os_makedirs cache_dir ;;;
  assign (set_cache_file (Some (cache_dir ++ "/AwsSessionHandler.json")%string)).

(** [if cache_file: ... else: ...], lines 42-60 *)
Definition select_cache_file (a : InitArgs) : M unit :=
  match cache_file a with
  | Some cf => if truthy (PStr cf) then explicit_cache_file cf else default_cache_file
  | None => default_cache_file
  end.

(** [__init__], lines 10-71 *)
Definition __init__ (a : InitArgs) : M unit :=
  assign (set_profile (profile a)) ;;;
  assign (set_region (region a)) ;;;
  assign (set_config None) ;;;
  assign (set_lookup_session None) ;;;
  _config_lookup ;;;
  assign (set_session None) ;;;
  assign (set_disk_cache_disable (disable_file_cache a)) ;;;
  assign (set_long_session_token PNone) ;;;
  assign (set_long_session_duration (or_default (long_session_duration a) 43200)) ;;;
  assign (set_short_session_token PNone) ;;;
  assign (set_short_session_duration (or_default (short_session_duration a) 900)) ;;;
  h <- self ;;
  when (negb (_disk_cache_disable h))
    (select_cache_file a ;;;
     preload_cache_tokens).

(** An object before [__init__] has run. *)
Definition blank : Handler :=
  {| _profile := None; _region := None; _config := None; _lookup_session := None;
     _session := None; _disk_cache_disable := false; _long_session_token := PNone;
     _long_session_duration := 0; _short_session_token := PNone;
     _short_session_duration := 0; _cache_file := None |}.

(** The constructor call: the new object is [self_after] of the run when
    its [value] is [Ok]; when it is [Raise] the caller gets no object. *)
Definition AwsSessionHandler (a : InitArgs) (w : World) : Run unit :=
  __init__ a blank w.

(** [set], lines 73-82 *)
Definition set (profile region : option string) : M unit :=
  when (truthy (of_optstr profile)) (assign (set_profile profile)) ;;;
  when (truthy (of_optstr region)) (assign (set_region region)).


(** The expiry of a cached token, as lines 137-138 and 150-151 read it:
    [datetime.strptime(''.join(tok['expire'].rsplit(':', 1)), '%Y-%m-%dT%H:%M:%S%z')] *)
Definition token_expire (tok : pyval) : result Z :=
  match getitem tok "expire" with
  | Raise e => Raise e
  | Ok (PStr s) =>
      match strptime (join_rsplit_colon s) "%Y-%m-%dT%H:%M:%S%z" with
      | Some t => Ok t
      | None => Raise ValueError
      end
  | Ok _ => Raise AttributeError
  end.

(** Lines 136-147: the check of the long token.  The value is what the block
    leaves in [token_changed]. *)
Definition check_long_session_token (now : Z) (token_changed : bool) : M bool :=
  h <- self ;;
  if truthy (_long_session_token h) then
    long_expire <- lift (token_expire (_long_session_token h)) ;;
    if long_expire <=? now then
      assign (set_long_session_token PNone) ;;;
      assign (set_short_session_token PNone) ;;;
      ret true
    else
      source_profile <- lift (getitem (_long_session_token h) "source_profile") ;;
      config_source_profile <- config_item "source_profile" ;;
      if ne_str source_profile config_source_profile then
        assign (set_long_session_token PNone) ;;;
        assign (set_short_session_token PNone) ;;;
        ret token_changed
      else ret token_changed
  else ret token_changed.

(** Lines 149-156: the check of the short token. *)
Definition check_short_session_token (now : Z) : M unit :=
  h <- self ;;
  when (truthy (_short_session_token h))
    (short_expire <- lift (token_expire (_short_session_token h)) ;;
     if short_expire <=? now then
       assign (set_short_session_token PNone)
     else
       token_profile <- lift (getitem (_short_session_token h) "profile") ;;
       when (ne_optstr token_profile (_profile h))
         (assign (set_short_session_token PNone))).

(** Lines 158-174: a new long token, after an MFA prompt. *)
Definition new_long_session_token : M unit :=
  h <- self ;;
  when (negb (truthy (_long_session_token h)))
    (source_profile <- config_item "source_profile" ;;
     boto3_Session_profile source_profile ;;;
     token <- input "MFA_Token: " ;;
     mfa_serial <- config_item "mfa_serial" ;;
     cred <- get_session_token
               {| gst_profile_name := source_profile;
                  gst_region_name := _region h;
                  gst_DurationSeconds := _long_session_duration h;
                  gst_SerialNumber := mfa_serial;
                  gst_TokenCode := token |} ;;
     source_profile' <- config_item "source_profile" ;;
     assign (set_long_session_token
               (PDict [("aws_access_key_id", PStr (AccessKeyId cred));
                       ("aws_secret_access_key", PStr (SecretAccessKey cred));
                       ("aws_session_token", PStr (SessionToken cred));
                       ("expire", PStr (isoformat (Expiration cred)));
                       ("source_profile", PStr source_profile');
                       ("region", of_optstr (_region h))]))).

(** Lines 176-196: a new short token, by assuming the role with the long
    token.  The value is what the block leaves in [token_changed]. *)
Definition new_short_session_token (token_changed : bool) : M bool :=
  h <- self ;;
  if negb (truthy (_short_session_token h)) then
    key <- lift (getitem (_long_session_token h) "aws_access_key_id") ;;
    secret <- lift (getitem (_long_session_token h) "aws_secret_access_key") ;;
    session_token <- lift (getitem (_long_session_token h) "aws_session_token") ;;
    role_arn <- config_item "role_arn" ;;
    resp <- assume_role
              {| ar_aws_access_key_id := key;
                 ar_aws_secret_access_key := secret;
                 ar_aws_session_token := session_token;
                 ar_RoleArn := role_arn;
                 ar_RoleSessionName := "SessionHandlerAssumeRole";
                 ar_DurationSeconds := _short_session_duration h |} ;;
     assign (set_short_session_token
               (PDict [("aws_access_key_id", PStr (AccessKeyId resp));
                       ("aws_secret_access_key", PStr (SecretAccessKey resp));
                       ("aws_session_token", PStr (SessionToken resp));
                       ("expire", PStr (isoformat (Expiration resp)));
                       ("profile", of_optstr (_profile h));
                       ("region", of_optstr (_region h))])) ;;;
     ret true
  else ret token_changed.

(** Lines 198-204: the session out of the short token. *)
Definition session_from_short_token : M unit :=
  h <- self ;;
  key <- lift (getitem (_short_session_token h) "aws_access_key_id") ;;
  secret <- lift (getitem (_short_session_token h) "aws_secret_access_key") ;;
  session_token <- lift (getitem (_short_session_token h) "aws_session_token") ;;
  assign (set_session (Some (SessionFromCredentials (_region h) key secret session_token))).

(** [_write_cache_file], lines 214-220 *)
Definition _write_cache_file : M unit :=
  h <- self ;;
  when (negb (_disk_cache_disable h))
    (let cache_tokens := PDict [("long_session_token", _long_session_token h);
                                ("short_session_token", _short_session_token h)] in
     match _cache_file h with
     | Some cf => json_dump_file cache_tokens cf
     | None => raise AttributeError
     end).

(** [all(key in self._config for key in ('role_arn', 'mfa_serial', 'source_profile'))] *)
Definition needs_assume_role (c : Config) : bool :=
  forallb (fun key => bool_decide (is_Some (c !! key)))
          ["role_arn"; "mfa_serial"; "source_profile"]%string.

(** The branch of line 130 that assumes a role, lines 131-208. *)
Definition assume_role_session : M unit :=
  let token_changed := false in
  w <- the_world ;;
  let now := utcnow w + timedelta_seconds 10 in
  token_changed <- check_long_session_token now token_changed ;;
  check_short_session_token now ;;;
  new_long_session_token ;;;
  token_changed <- new_short_session_token token_changed ;;
  session_from_short_token ;;;
  when token_changed _write_cache_file.

(** [_get_session], lines 125-212 *)
Definition _get_session : M unit :=
  _config_lookup ;;;
  c <- config ;;
  if needs_assume_role c then assume_role_session
  else
    h <- self ;;
    assign (set_session (Some (SessionFromBotocore (_lookup_session h)))).

(** [get_session], lines 112-114 *)
Definition get_session : M (option Session) :=
  _get_session ;;;
  h <- self ;;
  ret (_session h).

(** What the [client] and [resource] factories of a session hand out: the
    handle made of the session for the positional and the keyword arguments
    of the call. *)
Inductive Handle : Type :=
| ClientOf (s : Session) (args : list pyval) (kwargs : list (string * pyval))
| ResourceOf (s : Session) (args : list pyval) (kwargs : list (string * pyval)).

(** [self._session.client(...)], line 96: what the factory raises leaves the
    method. *)
Definition session_client (s : option Session) (args : list pyval)
    (kwargs : list (string * pyval)) : M Handle :=
  match s with
  | Some s =>
      w <- the_world ;;
      match client_refused w s args kwargs with
      | Some e => raise e
      | None => ret (ClientOf s args kwargs)
      end
  | None => raise AttributeError
  end.

(** [self._session.resource(...)], line 110 *)
Definition session_resource (s : option Session) (args : list pyval)
    (kwargs : list (string * pyval)) : M Handle :=
  match s with
  | Some s =>
      w <- the_world ;;
      match resource_refused w s args kwargs with
      | Some e => raise e
      | None => ret (ResourceOf s args kwargs)
      end
  | None => raise AttributeError
  end.

(** [client], lines 84-96, called with the positional arguments [args] and
    the keyword arguments [kwargs] *)
Definition client (args : list pyval) (kwargs : list (string * pyval)) : M Handle :=
  h <- self ;;
  if negb (truthy (of_optstr (_profile h))) && negb (truthy (of_optstr (_region h))) then
    raise (Exception "ERROR: missing region and profile (use self.set(profile_name=None, region=None)")
  else
    _get_session ;;;
    h <- self ;;
    session_client (_session h) args kwargs.

(** [resource], lines 98-110 *)
Definition resource (args : list pyval) (kwargs : list (string * pyval)) : M Handle :=
  h <- self ;;
  if negb (truthy (of_optstr (_profile h))) && negb (truthy (of_optstr (_region h))) then
    raise (Exception "ERROR: missing region and profile (use self.set(profile_name=None, region=None)")
  else
    _get_session ;;;
    h <- self ;;
    session_resource (_session h) args kwargs.

End AwsSessionHandler.

(** ** An implementation of the datetime interface *)

Module Iso8601.

(** Days since 1970-01-01 of a date of the proleptic Gregorian calendar. *)
Definition days_from_civil (y m d : Z) : Z :=
  let y' := if m <=? 2 then y - 1 else y in
  let era := y' / 400 in
  let yoe := y' - era * 400 in
  let mp := if m <=? 2 then m + 9 else m - 3 in
  let doy := (153 * mp + 2) / 5 + d - 1 in
  let doe := yoe * 365 + yoe / 4 - yoe / 100 + doy in
  era * 146097 + doe - 719468.

(** The date of a day number, the inverse of [days_from_civil]. *)
Definition civil_from_days (z : Z) : Z * Z * Z :=
  let z' := z + 719468 in
  let era := z' / 146097 in
  let doe := z' - era * 146097 in
  let yoe := (doe - doe / 1460 + doe / 36524 - doe / 146096) / 365 in
  let doy := doe - (365 * yoe + yoe / 4 - yoe / 100) in
  let mp := (5 * doy + 2) / 153 in
  let d := doy - (153 * mp + 2) / 5 + 1 in
  let m := if mp <? 10 then mp + 3 else mp - 9 in
  let y := yoe + era * 400 in
  (if m <=? 2 then y + 1 else y, m, d).

Definition is_leap (y : Z) : bool :=
  ((y mod 4 =? 0) && negb (y mod 100 =? 0)) || (y mod 400 =? 0).

Definition days_in_month (y m : Z) : Z :=
  if m =? 2 then (if is_leap y then 29 else 28)
  else if (m =? 4) || (m =? 6) || (m =? 9) || (m =? 11) then 30 else 31.

Definition digit (c : ascii) : option Z :=
  let n := Z.of_nat (nat_of_ascii c) in
  if (48 <=? n) && (n <=? 57) then Some (n - 48) else None.

(** The number written by a run of decimal digits. *)
Fixpoint number (acc : Z) (l : list ascii) : option Z :=
  match l with
  | [] => Some acc
  | c :: l' => match digit c with
               | Some d => number (acc * 10 + d) l'
               | None => None
               end
  end.

Definition sign (c : ascii) : option Z :=
  if decide (c = "+"%char) then Some 1
  else if decide (c = "-"%char) then Some (-1)
  else None.

(** The fixed-width form [YYYY-MM-DDTHH:MM:SS+HHMM].  Python's [strptime] also
    takes fields without their leading zero and a few more spellings of the
    offset; they are a [ValueError] here. *)
Definition parse (s : string) : option Z :=
  match list_ascii_of_string s with
  | [y1; y2; y3; y4; c1; m1; m2; c2; d1; d2; c3; h1; h2; c4; n1; n2; c5; s1; s2;
     sg; o1; o2; o3; o4] =>
      if bool_decide ([c1; c2; c3; c4; c5] = ["-"; "-"; "T"; ":"; ":"]%char) then
        y ← number 0 [y1; y2; y3; y4];
        m ← number 0 [m1; m2];
        d ← number 0 [d1; d2];
        hh ← number 0 [h1; h2];
        mm ← number 0 [n1; n2];
        ss ← number 0 [s1; s2];
        sgn ← sign sg;
        oh ← number 0 [o1; o2];
        om ← number 0 [o3; o4];
        if (1 <=? y) && (1 <=? m) && (m <=? 12) && (1 <=? d) && (d <=? days_in_month y m)
           && (hh <? 24) && (mm <? 60) && (ss <? 60) && (om <? 60)
        then Some ((days_from_civil y m d * 86400 + hh * 3600 + mm * 60 + ss
                    - sgn * (oh * 3600 + om * 60)) * 1000000)
        else None
      else None
  | _ => None
  end.

Definition strptime (s fmt : string) : option Z :=
  if decide (fmt = "%Y-%m-%dT%H:%M:%S%z") then parse s else None.

(** [width] decimal digits of [n], zero padded. *)
Fixpoint digits (width : nat) (n : Z) (acc : list ascii) : list ascii :=
  match width with
  | O => acc
  | S width' => digits width' (n / 10) (ascii_of_nat (Z.to_nat (48 + n mod 10)) :: acc)
  end.

(** [isoformat()] of a datetime in UTC: [YYYY-MM-DDTHH:MM:SS+00:00], with
    [.ffffff] after the seconds when the microseconds are not zero. *)
Definition isoformat (t : Z) : string :=
  let us := t mod 1000000 in
  let secs := t / 1000000 in
  let '(y, m, d) := civil_from_days (secs / 86400) in
  let rem := secs mod 86400 in
  string_of_list_ascii
    (digits 4 y [] ++ "-"%char :: digits 2 m [] ++ "-"%char :: digits 2 d [] ++
     "T"%char :: digits 2 (rem / 3600) [] ++ ":"%char ::
     digits 2 (rem mod 3600 / 60) [] ++ ":"%char :: digits 2 (rem mod 60) [] ++
     (if us =? 0 then [] else "."%char :: digits 6 us []) ++
     list_ascii_of_string "+00:00").

Definition lib : DateTimeLib := Build_DateTimeLib strptime isoformat.

End Iso8601.

(** ** An implementation of the factory interface *)

Module Boto3.

(** The service name of a call: the first positional argument, or the
    keyword [service_name]. *)
Definition service_name_of (args : list pyval) (kwargs : list (string * pyval))
  : option pyval :=
  match args with
  | v :: _ => Some v
  | [] => items_get kwargs "service_name"
  end.

(** A call without a service name is refused with [TypeError]; every other
    call is granted. *)
Definition refused (w : World) (s : Session) (args : list pyval)
    (kwargs : list (string * pyval)) : option exn :=
  match service_name_of args kwargs with
  | Some _ => None
  | None => Some TypeError
  end.

Definition lib : Boto3Lib := Build_Boto3Lib refused refused.

End Boto3.

(** ** Vocabulary of the properties *)

Definition is_mfa_prompt (e : event) : bool :=
  match e with MfaPrompt _ => true | _ => false end.
Definition is_get_session_token_call (e : event) : bool :=
  match e with GetSessionTokenCall _ => true | _ => false end.
Definition is_assume_role_call (e : event) : bool :=
  match e with AssumeRoleCall _ => true | _ => false end.
Definition is_cache_write (e : event) : bool :=
  match e with CacheWrite _ _ => true | _ => false end.

(** How many events of a kind a call caused. *)
Definition count (kind : event -> bool) (evs : list event) : nat :=
  length (filter (fun e => kind e = true) evs).

(** A call to the token service, of either kind. *)
Definition is_token_call (e : event) : bool :=
  is_get_session_token_call e || is_assume_role_call e.

Section Vocabulary.
Context `{DateTimeLib}.

(** The long token passes the check of lines 136-147 at [now]: its expiry
    parses and lies after [now], and it was issued for [source_profile]. *)
Definition valid_long_token (now : Z) (source_profile : string) (tok : pyval) : bool :=
  match token_expire tok, getitem tok "source_profile" with
  | Ok t, Ok sp => (now <? t) && negb (ne_str sp source_profile)
  | _, _ => false
  end.

(** The short token passes the check of lines 149-156 at [now]. *)
Definition valid_short_token (now : Z) (profile : option string) (tok : pyval) : bool :=
  match token_expire tok, getitem tok "profile" with
  | Ok t, Ok p => (now <? t) && negb (ne_optstr p profile)
  | _, _ => false
  end.

(** The short token of lines 189-196. *)
Definition short_token_of (h : Handler) (resp : Credentials) : pyval :=
  PDict [("aws_access_key_id", PStr (AccessKeyId resp));
         ("aws_secret_access_key", PStr (SecretAccessKey resp));
         ("aws_session_token", PStr (SessionToken resp));
         ("expire", PStr (isoformat (Expiration resp)));
         ("profile", of_optstr (_profile h));
         ("region", of_optstr (_region h))].

(** Lines 149-208, what follows the check of the long token. *)
Definition after_long_check (now : Z) (token_changed : bool) : M unit :=
  check_short_session_token now ;;;
  new_long_session_token ;;;
  token_changed <- new_short_session_token token_changed ;;
  session_from_short_token ;;;
  when token_changed _write_cache_file.

(** Lines 198-208, what follows the two refreshes. *)
Definition finish_session (token_changed : bool) : M unit :=
  session_from_short_token ;;;
  when token_changed _write_cache_file.

End Vocabulary.

(** The token carries the three credential fields a session is built from. *)
Definition has_credentials (tok : pyval) : bool :=
  is_ok (getitem tok "aws_access_key_id") &&
  is_ok (getitem tok "aws_secret_access_key") &&
  is_ok (getitem tok "aws_session_token").

(** A short token is held only together with a long token. *)
Definition tokens_paired (h : Handler) : bool :=
  implb (truthy (_short_session_token h)) (truthy (_long_session_token h)).

(** The selectors that [client] and [resource] insist on. *)
Definition selectors_unset (h : Handler) : bool :=
  negb (truthy (of_optstr (_profile h))) && negb (truthy (of_optstr (_region h))).

(** The handler once [_config_lookup] has found the section [c]. *)
Definition looked_up (c : Config) (h : Handler) : Handler :=
  let h1 := set_config (Some c)
              (set_lookup_session (Some {| ls_profile := _profile h |}) h) in
  if bool_decide (is_Some (c !! "region")) && negb (truthy (of_optstr (_region h)))
  then set_region (c !! "region") h1
  else h1.

(** The handler once both tokens are dropped, lines 141-142 and 146-147. *)
Definition clear_tokens (h : Handler) : Handler :=
  set_short_session_token PNone (set_long_session_token PNone h).

(** [boto3.Session(...)] out of credentials is what the role path leaves in
    [self._session]. *)
Definition is_credential_session (s : option Session) : bool :=
  match s with
  | Some (SessionFromCredentials _ _ _ _) => true
  | _ => false
  end.

(** The request that line 184 sends. *)
Definition assume_role_request (h : Handler) (key secret token : pyval)
    (role_arn : string) : AssumeRoleRequest :=
  {| ar_aws_access_key_id := key;
     ar_aws_secret_access_key := secret;
     ar_aws_session_token := token;
     ar_RoleArn := role_arn;
     ar_RoleSessionName := "SessionHandlerAssumeRole";
     ar_DurationSeconds := _short_session_duration h |}.

(** What [_write_cache_file] dumps. *)
Definition cache_tokens_of (h : Handler) : pyval :=
  PDict [("long_session_token", _long_session_token h);
         ("short_session_token", _short_session_token h)].

(** Written if and only if issued: the call writes the cache file once if it
    made a call to the token service, and not at all otherwise. *)
Definition written_iff_issued (r : Run unit) : Prop :=
  count is_cache_write (emitted r)
  = if (0 <? count is_token_call (emitted r))%nat then 1%nat else 0%nat.

(** The cache file under the home directory. *)
Definition default_cache_path (w : World) : string :=
  ((home w ++ "/.aws/app/cache") ++ "/AwsSessionHandler.json")%string.

(** The cache file that lines 42-60 settle on, when they do not raise. *)
Definition selected_cache_file (a : InitArgs) (w : World) : option string :=
  let default :=
    match fs w !! (home w ++ "/.aws/app/cache")%string with
    | Some (File _ _ _) => None
    | _ => Some (default_cache_path w)
    end in
  match cache_file a with
  | Some cf =>
      if truthy (PStr cf) then
        if os_path_exists w (dirname cf) && os_access_W_OK w (dirname cf)
           && negb (os_path_exists w cf && negb (os_access_W_OK w cf))
        then Some cf else None
      else default
  | None => default
  end.

(** The attributes after lines 28-39, for a profile that resolves to [c]. *)
Definition attributes_of (a : InitArgs) (c : Config) : Handler :=
  {| _profile := profile a;
     _region := if bool_decide (is_Some (c !! "region"))
                   && negb (truthy (of_optstr (region a)))
                then c !! "region" else region a;
     _config := Some c;
     _lookup_session := Some {| ls_profile := profile a |};
     _session := None;
     _disk_cache_disable := disable_file_cache a;
     _long_session_token := PNone;
     _long_session_duration := or_default (long_session_duration a) 43200;
     _short_session_token := PNone;
     _short_session_duration := or_default (short_session_duration a) 900;
     _cache_file := None |}.


(** The token that lines 67-71 take out of a JSON object. *)
Definition cached_token (d : list (string * pyval)) (key : string) : pyval :=
  default PNone (items_get d key).

(** A machine without any AWS configuration, and a handler made on it with
    neither a profile nor a region. *)
Definition bare_world : World :=
  {| profile_map := ∅; fs := ∅; home := "/home/user"; utcnow := 0; stdin := [];
     sts_get_session_token := fun _ => Raise (ServiceError "unreachable");
     sts_assume_role := fun _ => Raise (ServiceError "unreachable") |}.

Definition no_selector_args : InitArgs :=
  {| profile := None; region := None; cache_file := None; disable_file_cache := true;
     long_session_duration := None; short_session_duration := None |}.

(** ** A concrete machine *)

(** The scenario of the specification: profile [dev] assumes a role through
    the source profile [base] with an MFA device; profile [prod] does the
    same; profile [plain] has plain credentials.  It is midnight UTC on
    2030-01-01, one MFA code is waiting on standard input, and the token
    service answers every request. *)
Module Scenario.

Definition midnight : Z := 1893456000 * 1000000.

Definition role_config (role : string) : Config :=
  <["region" := "eu-west-1"]>
    (<["role_arn" := role]>
       (<["mfa_serial" := "arn:aws:iam::123:mfa/user"]>
          (<["source_profile" := "base"]> ∅))).

Definition plain_config : Config := <["region" := "eu-west-1"]> ∅.

Definition profiles : gmap string Config :=
  <["dev" := role_config "arn:aws:iam::123:role/X"]>
    (<["prod" := role_config "arn:aws:iam::123:role/Y"]>
       (<["base" := plain_config]> (<["plain" := plain_config]> ∅))).

Definition cache_dir : string := "/home/user/.aws/app/cache".
Definition cache_path : string := "/home/user/.aws/app/cache/AwsSessionHandler.json".

Definition token_service_long (req : GetSessionTokenRequest) : result Credentials :=
  Ok {| AccessKeyId := "ASIALONG"; SecretAccessKey := "long-secret";
        SessionToken := "long-session";
        Expiration := midnight + timedelta_seconds (gst_DurationSeconds req) |}.

Definition token_service_short (req : AssumeRoleRequest) : result Credentials :=
  Ok {| AccessKeyId := "ASIASHORT"; SecretAccessKey := "short-secret";
        SessionToken := "short-session";
        Expiration := midnight + timedelta_seconds (ar_DurationSeconds req) |}.

(** The machine, with the given content of the file system. *)
Definition machine (files : gmap string node) : World :=
  {| profile_map := profiles; fs := files; home := "/home/user";
     utcnow := midnight; stdin := ["123456"];
     sts_get_session_token := token_service_long;
     sts_assume_role := token_service_short |}.

(** A long token of source profile [sp] and a short token of profile [p], as
    the handler writes them. *)
Definition long_token (expire sp : string) : pyval :=
  PDict [("aws_access_key_id", PStr "ASIAOLDLONG");
         ("aws_secret_access_key", PStr "old-long-secret");
         ("aws_session_token", PStr "old-long-session");
         ("expire", PStr expire);
         ("source_profile", PStr sp);
         ("region", PStr "eu-west-1")].

Definition short_token (expire p : string) : pyval :=
  PDict [("aws_access_key_id", PStr "ASIAOLDSHORT");
         ("aws_secret_access_key", PStr "old-short-secret");
         ("aws_session_token", PStr "old-short-session");
         ("expire", PStr expire);
         ("profile", PStr p);
         ("region", PStr "eu-west-1")].

(** The long token expires at 06:00, the short token at 00:20. *)
Definition long_6h : pyval := long_token "2030-01-01T06:00:00+00:00" "base".
Definition short_20m : pyval := short_token "2030-01-01T00:20:00+00:00" "dev".

(** No cache file yet. *)
Definition no_cache : World := machine (<[cache_dir := Dir true]> ∅).

(** A cache file with the given JSON value, or with something else. *)
Definition cached (v : pyval) : World :=
  machine (<[cache_path := File true true (Json v)]> (<[cache_dir := Dir true]> ∅)).


Definition both_tokens : pyval :=
  PDict [("long_session_token", long_6h); ("short_session_token", short_20m)].

(** A cache file that has the short token but, for the long token, [null]. *)
Definition short_token_only : pyval :=
  PDict [("long_session_token", PNone); ("short_session_token", short_20m)].

(** A long token of another source profile that expires in the year 2099. *)
Definition foreign_long_token : pyval :=
  PDict [("long_session_token", long_token "2099-12-31T23:59:59+00:00" "other");
         ("short_session_token", short_20m)].

Definition args_of (p : string) : InitArgs :=
  {| profile := Some p; region := None; cache_file := None;
     disable_file_cache := false; long_session_duration := None;
     short_session_duration := None |}.

Definition args_without_disk_cache (p : string) : InitArgs :=
  {| profile := Some p; region := None; cache_file := None;
     disable_file_cache := true; long_session_duration := None;
     short_session_duration := None |}.

(** The handler that the constructor makes. *)
Definition handler (a : InitArgs) (w : World) : Handler :=
  self_after (AwsSessionHandler a w).

(** The first call of a handler on profile [dev], and what it leaves. *)
Definition first_call (w : World) : Run unit :=
  @_get_session Iso8601.lib (handler (args_of "dev") w) w.

Definition after_first_call (w : World) : Handler := self_after (first_call w).

Definition world_after_first_call (w : World) : World := world_after (first_call w).

End Scenario.

(** ** What a call may change *)

(** The specification of a run: how the handler, the world and the events
    after it relate to the handler and the world before it. *)
Definition Spec : Type := Handler -> World -> list event -> Handler -> World -> Prop.

(** Every run of [c] meets [R], whether it returns or raises. *)
Definition satisfies {A} (R : Spec) (c : M A) : Prop :=
  forall h w, R h w (emitted (c h w)) (self_after (c h w)) (world_after (c h w)).

(** The frame of [_get_session]: the settings of the handler stay, and so
    does a region that is set; of the world, only standard input and the cache
    file may change: one line is read per prompt, and with the disk cache
    disabled no file is written at all. *)
Record frame (h : Handler) (w : World) (evs : list event)
    (h' : Handler) (w' : World) : Prop := {
  frame_profile : _profile h' = _profile h;
  frame_region : truthy (of_optstr (_region h)) = true -> _region h' = _region h;
  frame_disk_cache_disable : _disk_cache_disable h' = _disk_cache_disable h;
  frame_long_session_duration : _long_session_duration h' = _long_session_duration h;
  frame_short_session_duration : _short_session_duration h' = _short_session_duration h;
  frame_cache_file : _cache_file h' = _cache_file h;
  frame_profile_map : profile_map w' = profile_map w;
  frame_home : home w' = home w;
  frame_utcnow : utcnow w' = utcnow w;
  frame_sts_get_session_token : sts_get_session_token w' = sts_get_session_token w;
  frame_sts_assume_role : sts_assume_role w' = sts_assume_role w;
  frame_stdin : stdin w' = drop (count is_mfa_prompt evs) (stdin w);
  frame_fs : forall p, _cache_file h <> Some p -> fs w' !! p = fs w !! p;
  frame_disabled : _disk_cache_disable h = true ->
                   fs w' = fs w /\ count is_cache_write evs = 0%nat
}.

Section VocabularyOfRefresh.
Context `{DateTimeLib}.

(** The request that lines 162-166 send, for the MFA code [code]. *)
Definition get_session_token_request (h : Handler) (source_profile mfa_serial code : string)
  : GetSessionTokenRequest :=
  {| gst_profile_name := source_profile;
     gst_region_name := _region h;
     gst_DurationSeconds := _long_session_duration h;
     gst_SerialNumber := mfa_serial;
     gst_TokenCode := code |}.

(** The long token of lines 167-174. *)
Definition long_token_of (h : Handler) (source_profile : string) (cred : Credentials)
  : pyval :=
  PDict [("aws_access_key_id", PStr (AccessKeyId cred));
         ("aws_secret_access_key", PStr (SecretAccessKey cred));
         ("aws_session_token", PStr (SessionToken cred));
         ("expire", PStr (isoformat (Expiration cred)));
         ("source_profile", PStr source_profile);
         ("region", of_optstr (_region h))].

(** The request that lines 178-188 send with the credentials of a long token
    made of [cred]. *)
Definition assume_role_request_of (h : Handler) (cred : Credentials) (role_arn : string)
  : AssumeRoleRequest :=
  assume_role_request h (PStr (AccessKeyId cred)) (PStr (SecretAccessKey cred))
                      (PStr (SessionToken cred)) role_arn.

(** The session of lines 199-204 for a short token made of [resp]. *)
Definition session_of (h : Handler) (resp : Credentials) : Session :=
  SessionFromCredentials (_region h) (PStr (AccessKeyId resp))
                         (PStr (SecretAccessKey resp)) (PStr (SessionToken resp)).

End VocabularyOfRefresh.

(** The handler holds no token. *)
Definition no_tokens (h : Handler) : bool :=
  negb (truthy (_long_session_token h)) && negb (truthy (_short_session_token h)).

(** The cache directory under the home directory, line 57. *)
Definition default_cache_dir (w : World) : string := (home w ++ "/.aws/app/cache")%string.

(** The directories above the cache directory are in place: the home
    directory and [.aws] in it are directories, and [.aws/app] is a directory
    that may be written.  This is what [os.makedirs] needs to create the cache
    directory, and it alone. *)
Definition is_dir (w : World) (p : string) : bool :=
  match fs w !! p with
  | Some (Dir _) => true
  | _ => false
  end.

Definition cache_parent_ready (w : World) : bool :=
  is_dir w (home w) && is_dir w (home w ++ "/.aws")
  && match fs w !! (home w ++ "/.aws/app")%string with
     | Some (Dir true) => true
     | _ => false
     end.

(** What the constructor may do: it causes no event and leaves the world
    alone but for the cache directory, which it may create. *)
Record init_frame (h : Handler) (w : World) (evs : list event)
    (h' : Handler) (w' : World) : Prop := {
  init_emitted : evs = [];
  init_profile_map : profile_map w' = profile_map w;
  init_home : home w' = home w;
  init_utcnow : utcnow w' = utcnow w;
  init_stdin : stdin w' = stdin w;
  init_sts_get_session_token : sts_get_session_token w' = sts_get_session_token w;
  init_sts_assume_role : sts_assume_role w' = sts_assume_role w;
  init_fs : fs w' = fs w \/
            (fs w !! default_cache_dir w = None /\
             fs w' = <[default_cache_dir w := Dir true]> (fs w))
}.

(** ** The machine when things go wrong *)

Module Incidents.
Import Scenario.

(** Nothing is waiting on standard input. *)
Definition no_input : World := set_stdin [] no_cache.

(** The token service grants the session token but refuses to assume the
    role. *)
Definition role_refused : World :=
  {| profile_map := profiles; fs := <[cache_dir := Dir true]> ∅; home := "/home/user";
     utcnow := midnight; stdin := ["123456"];
     sts_get_session_token := token_service_long;
     sts_assume_role := fun _ => Raise (ServiceError "AccessDenied") |}.

(** The home directory has [.aws/app], and no cache directory yet. *)
Definition fresh_home : World :=
  machine (<["/home/user/.aws/app" := Dir true]>
             (<["/home/user/.aws" := Dir true]> (<["/home/user" := Dir true]> ∅))).

(** What the token service hands to a handler that has the default
    durations. *)
Definition long_credentials : Credentials :=
  {| AccessKeyId := "ASIALONG"; SecretAccessKey := "long-secret";
     SessionToken := "long-session";
     Expiration := midnight + timedelta_seconds 43200 |}.

Definition short_credentials : Credentials :=
  {| AccessKeyId := "ASIASHORT"; SecretAccessKey := "short-secret";
     SessionToken := "short-session";
     Expiration := midnight + timedelta_seconds 900 |}.

(** Cache files whose long token, or short token, expires ten seconds after
    midnight, and one whose long token has lost its [expire] field. *)
Definition expiring_long : pyval :=
  PDict [("long_session_token", long_token "2030-01-01T00:00:10+00:00" "base");
         ("short_session_token", short_20m)].

Definition expiring_short : pyval :=
  PDict [("long_session_token", long_6h);
         ("short_session_token", short_token "2030-01-01T00:00:10+00:00" "dev")].

Definition long_without_expire : pyval :=
  PDict [("long_session_token", PDict [("aws_access_key_id", PStr "ASIAOLDLONG")]);
         ("short_session_token", short_20m)].

Definition args_with_cache_file (p cf : string) : InitArgs :=
  {| profile := Some p; region := None; cache_file := Some cf;
     disable_file_cache := false; long_session_duration := None;
     short_session_duration := None |}.

End Incidents.

(** ** Tactics *)

(** Symbolic execution of a method body: unfold the monad, then split on
    every test the body makes. *)
Ltac unfold_run :=
  cbv [check_long_session_token check_short_session_token
       new_long_session_token new_short_session_token session_from_short_token
       _write_cache_file json_dump_file input get_session_token assume_role
       boto3_Session_profile config_item config _config_lookup
       bind prepend ret raise self assign the_world change_world emit lift when] in *.

Ltac atomic x :=
  lazymatch x with
  | context [match _ with _ => _ end] => fail
  | _ => idtac
  end.

Ltac run_step :=
  match goal with
  | |- context [match ?x with _ => _ end] => atomic x; destruct x eqn:?
  end; cbn in *.

Ltac run_all := repeat (run_step; try discriminate; try congruence; auto).

Ltac finish :=
  try discriminate; try congruence; simplify_eq;
  repeat match goal with
         | H : negb _ = true |- _ => apply negb_true_iff in H
         | H : negb _ = false |- _ => apply negb_false_iff in H
         end;
  try congruence; eauto 10.

(** Discharges the premises of [T] by computation. *)
Ltac by_computation T :=
  repeat match type of T with
         | ?P -> _ =>
             let HP := fresh in
             assert (HP : P) by (vm_compute; reflexivity);
             specialize (T HP); clear HP
         end;
  cbv zeta in T.

(** A leaf of a frame proof, after symbolic execution. *)
Ltac frame_leaf :=
  cbn in *; constructor; cbn; intros; simplify_eq; auto;
  try congruence.

(** Discharges the premises of [T] by evaluation. *)
Ltac evaluate :=
  lazymatch goal with
  | |- is_Some _ => eexists; vm_compute; reflexivity
  | |- _ \/ _ => left; vm_compute; reflexivity
  | |- (_ <= _)%Z => vm_compute; discriminate
  | |- _ => vm_compute; reflexivity
  end.

Ltac by_evaluation T :=
  repeat match type of T with
         | ?P -> _ =>
             let HP := fresh in
             assert (HP : P) by evaluate;
             specialize (T HP); clear HP
         end;
  cbv zeta in T.

(** * Properties *)

(** ** The string helpers and the datetime implementation, on examples *)

Example dirname_ex1 : dirname "/home/u/.aws/cache.json" = "/home/u/.aws".
Proof. reflexivity. Qed.
Example dirname_ex2 : dirname "cache.json" = EmptyString /\ dirname "/cache.json" = "/" /\ dirname "//a//b" = "//a".
Proof. repeat split. Qed.
Example join_rsplit_ex : join_rsplit_colon "2030-01-01T00:00:00+00:00" = "2030-01-01T00:00:00+0000".
Proof. reflexivity. Qed.

Example iso_ex1 : Iso8601.isoformat 1893456000000000 = "2030-01-01T00:00:00+00:00".
Proof. vm_compute. reflexivity. Qed.
Example iso_ex2 : Iso8601.parse (join_rsplit_colon "2030-01-01T00:00:00+00:00") = Some 1893456000000000.
Proof. vm_compute. reflexivity. Qed.
Example iso_ex3 : Iso8601.parse (join_rsplit_colon "2024-02-29T23:59:59+02:00") = Some ((1709251199 - 7200) * 1000000).
Proof. vm_compute. reflexivity. Qed.
Example iso_ex4 : Iso8601.isoformat 1709251199000001 = "2024-02-29T23:59:59.000001+00:00".
Proof. vm_compute. reflexivity. Qed.

(** ** Properties of [set] *)

(** C10. [set(profile, region)] replaces a selector by its argument exactly
    when the argument is truthy and leaves it alone otherwise, so a selector
    that is set stays set; nothing else of the handler or of the world
    changes, and the call returns. *)
Theorem set_replaces_by_truthy_only (p r : option string) (h : Handler) (w : World) :
  let run := set p r h w in
  value run = Ok tt /\ emitted run = [] /\ world_after run = w /\
  _profile (self_after run) = (if truthy (of_optstr p) then p else _profile h) /\
  _region (self_after run) = (if truthy (of_optstr r) then r else _region h) /\
  implb (truthy (of_optstr (_profile h)))
        (truthy (of_optstr (_profile (self_after run)))) = true /\
  implb (truthy (of_optstr (_region h)))
        (truthy (of_optstr (_region (self_after run)))) = true /\
  _long_session_token (self_after run) = _long_session_token h /\
  _short_session_token (self_after run) = _short_session_token h.
Proof.
  unfold set, bind, when, assign, ret.
  destruct (truthy (of_optstr p)) eqn:Hp, (truthy (of_optstr r)) eqn:Hr;
    cbn; rewrite ?Hp, ?Hr;
    repeat split; try reflexivity;
    destruct (truthy (of_optstr (_profile h)));
    destruct (truthy (of_optstr (_region h))); reflexivity.
Qed.

(** ** Running a sequence *)

Lemma prepend_nil {A} (r : Run A) : prepend [] r = r.
Proof. destruct r; reflexivity. Qed.

Lemma prepend_fields {A} evs (r : Run A) :
  value (prepend evs r) = value r /\
  self_after (prepend evs r) = self_after r /\
  world_after (prepend evs r) = world_after r /\
  emitted (prepend evs r) = (evs ++ emitted r)%list.
Proof. destruct r; repeat split. Qed.

Lemma bind_run {A B} (c : M A) (k : A -> M B) h w :
  bind c k h w =
  match c h w with
  | mkRun (Ok a) h1 w1 evs1 => prepend evs1 (k a h1 w1)
  | mkRun (Raise e) h1 w1 evs1 => mkRun (Raise e) h1 w1 evs1
  end.
Proof. reflexivity. Qed.

Lemma bind_ok {A B} (c : M A) (k : A -> M B) h w a h' w' evs :
  c h w = mkRun (Ok a) h' w' evs ->
  bind c k h w = prepend evs (k a h' w').
Proof. intros E. rewrite bind_run, E. reflexivity. Qed.

Lemma bind_raise {A B} (c : M A) (k : A -> M B) h w e h' w' evs :
  c h w = mkRun (Raise e) h' w' evs ->
  bind c k h w = mkRun (Raise e) h' w' evs.
Proof. intros E. rewrite bind_run, E. reflexivity. Qed.

Lemma bind_the_world {B} (k : World -> M B) h w : bind the_world k h w = k w h w.
Proof. rewrite bind_run. apply prepend_nil. Qed.

Lemma bind_self {B} (k : Handler -> M B) h w : bind self k h w = k h h w.
Proof. rewrite bind_run. apply prepend_nil. Qed.

Lemma bind_assign {B} f (k : unit -> M B) h w : bind (assign f) k h w = k tt (f h) w.
Proof. rewrite bind_run. apply prepend_nil. Qed.

(** ** The selector guard *)

Section Guard.
Context `{DateTimeLib}.
Context `{Boto3Lib}.

(** X26.  [client] refuses to run without a profile and without a region:
    it raises its own exception before it looks anything up, and leaves the
    handler and the world as they are. *)
Lemma client_requires_selector (args : list pyval) (kwargs : list (string * pyval))
    (h : Handler) (w : World) :
  selectors_unset h = true ->
  client args kwargs h w =
  mkRun (Raise (Exception "ERROR: missing region and profile (use self.set(profile_name=None, region=None)"))
        h w [].
Proof.
  unfold selectors_unset, client, bind, self, raise. cbn. intros ->. reflexivity.
Qed.

(** X27.  So does [resource]. *)
Lemma resource_requires_selector (args : list pyval) (kwargs : list (string * pyval))
    (h : Handler) (w : World) :
  selectors_unset h = true ->
  resource args kwargs h w =
  mkRun (Raise (Exception "ERROR: missing region and profile (use self.set(profile_name=None, region=None)"))
        h w [].
Proof.
  unfold selectors_unset, resource, bind, self, raise. cbn. intros ->. reflexivity.
Qed.

End Guard.

(** ** The blocks of [_get_session], one by one *)

Section Blocks.
Context `{DateTimeLib}.
Implicit Types (h : Handler) (w : World) (c : Config).

Lemma looked_up_fields c h :
  _profile (looked_up c h) = _profile h /\
  _config (looked_up c h) = Some c /\
  _lookup_session (looked_up c h) = Some {| ls_profile := _profile h |} /\
  _session (looked_up c h) = _session h /\
  _disk_cache_disable (looked_up c h) = _disk_cache_disable h /\
  _long_session_token (looked_up c h) = _long_session_token h /\
  _long_session_duration (looked_up c h) = _long_session_duration h /\
  _short_session_token (looked_up c h) = _short_session_token h /\
  _short_session_duration (looked_up c h) = _short_session_duration h /\
  _cache_file (looked_up c h) = _cache_file h.
Proof. unfold looked_up. destruct (_ && _); cbn; repeat split. Qed.

Lemma _config_lookup_ok h w c :
  get_scoped_config (profile_map w) {| ls_profile := _profile h |} = Ok c ->
  _config_lookup h w = mkRun (Ok tt) (looked_up c h) w [].
Proof.
  intros E. unfold_run. cbn. rewrite E. cbn. unfold looked_up.
  destruct (_ && _); reflexivity.
Qed.

Lemma _config_lookup_raise h w e :
  get_scoped_config (profile_map w) {| ls_profile := _profile h |} = Raise e ->
  _config_lookup h w =
  mkRun (Raise e) (set_lookup_session (Some {| ls_profile := _profile h |}) h) w [].
Proof. intros E. unfold_run. cbn. rewrite E. reflexivity. Qed.

(** A token whose expiry can be read is a non-empty dict. *)
Lemma token_expire_truthy tok t : token_expire tok = Ok t -> truthy tok = true.
Proof.
  unfold token_expire, getitem. destruct tok as [| | | | |d]; try discriminate.
  destruct d; [discriminate | reflexivity].
Qed.

Lemma getitem_truthy tok k v : getitem tok k = Ok v -> truthy tok = true.
Proof.
  unfold getitem. destruct tok as [| | | | |d]; try discriminate.
  destruct d; [discriminate | reflexivity].
Qed.

(** *** Lines 136-147 *)

(** The check of the long token touches neither the world nor anything but
    the two tokens; it drops both tokens or none. *)
Lemma check_long_shape now tc h w :
  let r := check_long_session_token now tc h w in
  world_after r = w /\ emitted r = [] /\
  ((self_after r = h /\ (value r = Ok tc \/ exists e, value r = Raise e)) \/
   (truthy (_long_session_token h) = true /\ self_after r = clear_tokens h /\
    exists b, value r = Ok b)).
Proof.
  unfold_run. cbn. run_all; repeat split; eauto 6.
Qed.

(** A long token that is valid is kept. *)
Lemma check_long_valid now tc h w c sp :
  _config h = Some c -> c !! "source_profile" = Some sp ->
  valid_long_token now sp (_long_session_token h) = true ->
  check_long_session_token now tc h w = mkRun (Ok tc) h w [].
Proof.
  intros Hc Hsp Hv. unfold valid_long_token in Hv.
  destruct (token_expire (_long_session_token h)) as [t|] eqn:Et; [|discriminate].
  destruct (getitem (_long_session_token h) "source_profile") as [s|] eqn:Es; [|discriminate].
  apply andb_prop in Hv as [Hlt Hne]. apply negb_true_iff in Hne.
  apply Z.ltb_lt in Hlt.
  unfold_run. cbn. rewrite (token_expire_truthy _ _ Et), Et. cbn.
  destruct (Z.leb_spec t now); [lia|]. rewrite Es. cbn. rewrite Hc. cbn.
  rewrite Hsp. cbn. rewrite Hne. reflexivity.
Qed.

(** A long token of another source profile is dropped with the short token,
    whatever its expiry. *)
Lemma check_long_switch now tc h w c csp sp t :
  _config h = Some c -> c !! "source_profile" = Some csp ->
  token_expire (_long_session_token h) = Ok t ->
  getitem (_long_session_token h) "source_profile" = Ok sp ->
  ne_str sp csp = true ->
  check_long_session_token now tc h w =
  mkRun (Ok (if t <=? now then true else tc)) (clear_tokens h) w [].
Proof.
  intros Hc Hsp Et Es Hne.
  unfold_run. cbn. rewrite (token_expire_truthy _ _ Et), Et. cbn.
  destruct (t <=? now); [reflexivity|]. rewrite Es. cbn. rewrite Hc. cbn.
  rewrite Hsp. cbn. rewrite Hne. reflexivity.
Qed.

(** Without a long token there is nothing to check. *)
Lemma check_long_absent now tc h w :
  truthy (_long_session_token h) = false ->
  check_long_session_token now tc h w = mkRun (Ok tc) h w [].
Proof. intros E. unfold_run. cbn. rewrite E. reflexivity. Qed.

(** *** Lines 149-156 *)

Lemma check_short_shape now h w :
  let r := check_short_session_token now h w in
  world_after r = w /\ emitted r = [] /\
  (self_after r = h \/
   (self_after r = set_short_session_token PNone h /\ value r = Ok tt)).
Proof.
  unfold_run. cbn. run_all; repeat split; eauto.
Qed.

Lemma check_short_valid now h w :
  valid_short_token now (_profile h) (_short_session_token h) = true ->
  check_short_session_token now h w = mkRun (Ok tt) h w [].
Proof.
  intros Hv. unfold valid_short_token in Hv.
  destruct (token_expire (_short_session_token h)) as [t|] eqn:Et; [|discriminate].
  destruct (getitem (_short_session_token h) "profile") as [p|] eqn:Ep; [|discriminate].
  apply andb_prop in Hv as [Hlt Hne]. apply negb_true_iff in Hne.
  apply Z.ltb_lt in Hlt.
  unfold_run. cbn. rewrite (token_expire_truthy _ _ Et), Et. cbn.
  destruct (Z.leb_spec t now); [lia|]. rewrite Ep. cbn. rewrite Hne. reflexivity.
Qed.

(** A short token of another profile is dropped, and it alone. *)
Lemma check_short_switch now h w t p :
  token_expire (_short_session_token h) = Ok t ->
  getitem (_short_session_token h) "profile" = Ok p ->
  ne_optstr p (_profile h) = true ->
  check_short_session_token now h w =
  mkRun (Ok tt) (set_short_session_token PNone h) w [].
Proof.
  intros Et Ep Hne.
  unfold_run. cbn. rewrite (token_expire_truthy _ _ Et), Et. cbn.
  destruct (t <=? now); [reflexivity|]. rewrite Ep. cbn. rewrite Hne. reflexivity.
Qed.

Lemma check_short_absent now h w :
  truthy (_short_session_token h) = false ->
  check_short_session_token now h w = mkRun (Ok tt) h w [].
Proof. intros E. unfold_run. cbn. rewrite E. reflexivity. Qed.


(** *** Lines 158-174 *)

(** With a long token at hand there is no prompt and no request. *)
Lemma new_long_present h w :
  truthy (_long_session_token h) = true ->
  new_long_session_token h w = mkRun (Ok tt) h w [].
Proof. intros E. unfold_run. cbn. rewrite E. reflexivity. Qed.

(** Without one, the block prompts, requests a session token and stores it;
    it never assumes a role or writes the cache, and it leaves the files and
    the short token alone. *)
Lemma new_long_shape h w :
  let r := new_long_session_token h w in
  fs (world_after r) = fs w /\
  _short_session_token (self_after r) = _short_session_token h /\
  count is_assume_role_call (emitted r) = 0%nat /\
  count is_cache_write (emitted r) = 0%nat /\
  (value r = Ok tt -> truthy (_long_session_token h) = false ->
   exists req cred tok,
     emitted r = [MfaPrompt "MFA_Token: "; GetSessionTokenCall req] /\
     self_after r = set_long_session_token tok h /\
     sts_get_session_token w req = Ok cred /\
     truthy tok = true) /\
  (forall e, value r = Raise e -> self_after r = h).
Proof.
  unfold_run. cbn. run_all; repeat split; intros; finish.
Qed.

(** *** Lines 176-196 *)

Lemma new_short_present tc h w :
  truthy (_short_session_token h) = true ->
  new_short_session_token tc h w = mkRun (Ok tc) h w [].
Proof. intros E. unfold_run. cbn. rewrite E. reflexivity. Qed.

(** Without a short token the role is assumed once, with the credentials of
    the long token. *)
Lemma new_short_absent tc h w c key secret token role_arn :
  truthy (_short_session_token h) = false ->
  getitem (_long_session_token h) "aws_access_key_id" = Ok key ->
  getitem (_long_session_token h) "aws_secret_access_key" = Ok secret ->
  getitem (_long_session_token h) "aws_session_token" = Ok token ->
  _config h = Some c -> c !! "role_arn" = Some role_arn ->
  new_short_session_token tc h w =
  match sts_assume_role w (assume_role_request h key secret token role_arn) with
  | Ok resp =>
      mkRun (Ok true) (set_short_session_token (short_token_of h resp) h) w
            [AssumeRoleCall (assume_role_request h key secret token role_arn)]
  | Raise e =>
      mkRun (Raise e) h w
            [AssumeRoleCall (assume_role_request h key secret token role_arn)]
  end.
Proof.
  intros E Hk Hs Ht Hc Hr. unfold_run. cbn. rewrite E, Hk. cbn. rewrite Hs. cbn.
  rewrite Ht. cbn. rewrite Hc. cbn. rewrite Hr. cbn.
  unfold assume_role_request.
  destruct (sts_assume_role w _); reflexivity.
Qed.

Lemma new_short_shape tc h w :
  let r := new_short_session_token tc h w in
  world_after r = w /\
  count is_mfa_prompt (emitted r) = 0%nat /\
  count is_get_session_token_call (emitted r) = 0%nat /\
  count is_cache_write (emitted r) = 0%nat /\
  (truthy (_short_session_token h) = true -> r = mkRun (Ok tc) h w []) /\
  (forall b, value r = Ok b -> truthy (_short_session_token h) = false ->
   exists req resp,
     b = true /\
     emitted r = [AssumeRoleCall req] /\
     sts_assume_role w req = Ok resp /\
     self_after r = set_short_session_token (short_token_of h resp) h) /\
  (forall e, value r = Raise e -> self_after r = h).
Proof.
  unfold_run. cbn. run_all; repeat split; intros; finish.
Qed.

(** *** Lines 214-220 *)

Lemma _write_cache_file_disabled h w :
  _disk_cache_disable h = true ->
  _write_cache_file h w = mkRun (Ok tt) h w [].
Proof. intros E. unfold_run. cbn. rewrite E. reflexivity. Qed.

(** With the disk cache enabled a write that returns has overwritten the
    cache file with both tokens, once. *)
Lemma _write_cache_file_shape h w :
  let r := _write_cache_file h w in
  self_after r = h /\
  (forall e, value r = Raise e -> emitted r = [] /\ world_after r = w) /\
  (value r = Ok tt -> _disk_cache_disable h = false ->
   exists cf rd,
     _cache_file h = Some cf /\
     emitted r = [CacheWrite cf (cache_tokens_of h)] /\
     fs (world_after r) = <[cf := File rd true (Json (cache_tokens_of h))]> (fs w) /\
     ((fs w !! cf = None /\ rd = true) \/
      exists d, fs w !! cf = Some (File rd true d))).
Proof.
  unfold_run. cbn. run_all; repeat split; intros; finish;
    eexists _, _; repeat split; eauto.
Qed.

End Blocks.

(** ** The two branches of [_get_session] *)

Section Branches.
Context `{DateTimeLib}.
Implicit Types (h : Handler) (w : World) (c : Config).

Lemma assume_role_session_run h w :
  assume_role_session h w =
  bind (check_long_session_token (utcnow w + timedelta_seconds 10) false)
       (after_long_check (utcnow w + timedelta_seconds 10)) h w.
Proof. unfold assume_role_session. rewrite bind_the_world. reflexivity. Qed.

Lemma needs_assume_role_spec c :
  needs_assume_role c = true <->
  is_Some (c !! "role_arn") /\ is_Some (c !! "mfa_serial") /\
  is_Some (c !! "source_profile").
Proof.
  unfold needs_assume_role. cbn. rewrite !andb_true_iff, !bool_decide_eq_true.
  tauto.
Qed.

(** With the three keys in the profile, [_get_session] is the role branch run
    after the lookup. *)
Lemma _get_session_role_branch h w c :
  get_scoped_config (profile_map w) {| ls_profile := _profile h |} = Ok c ->
  needs_assume_role c = true ->
  _get_session h w = assume_role_session (looked_up c h) w.
Proof.
  intros Hc Hn. unfold _get_session.
  rewrite (bind_ok _ _ _ _ _ _ _ _ (_config_lookup_ok _ _ _ Hc)), prepend_nil.
  unfold config. rewrite bind_run, bind_self.
  destruct (looked_up_fields c h) as (_ & -> & _).
  unfold ret. cbn [prepend]. rewrite Hn. apply prepend_nil.
Qed.

(** With one of them missing it is the default credential chain of the
    profile: no event, no change to the world or to the tokens. *)
Lemma _get_session_default_branch h w c :
  get_scoped_config (profile_map w) {| ls_profile := _profile h |} = Ok c ->
  needs_assume_role c = false ->
  _get_session h w =
  mkRun (Ok tt)
        (set_session (Some (SessionFromBotocore (Some {| ls_profile := _profile h |})))
                     (looked_up c h))
        w [].
Proof.
  intros Hc Hn. unfold _get_session.
  rewrite (bind_ok _ _ _ _ _ _ _ _ (_config_lookup_ok _ _ _ Hc)), prepend_nil.
  unfold config. rewrite bind_run, bind_self.
  destruct (looked_up_fields c h) as (_ & -> & Hl & _).
  unfold ret. cbn [prepend]. rewrite Hn, bind_self. unfold assign. rewrite Hl.
  reflexivity.
Qed.

(** An unknown profile stops the call before anything happens. *)
Lemma _get_session_unknown_profile h w e :
  get_scoped_config (profile_map w) {| ls_profile := _profile h |} = Raise e ->
  _get_session h w =
  mkRun (Raise e) (set_lookup_session (Some {| ls_profile := _profile h |}) h) w [].
Proof.
  intros Hc. unfold _get_session.
  apply bind_raise, _config_lookup_raise, Hc.
Qed.

(** Dropping the tokens and looking the profile up commute. *)
Lemma looked_up_clear_tokens c h :
  looked_up c (clear_tokens h) = clear_tokens (looked_up c h).
Proof. unfold looked_up, clear_tokens. cbn. destruct (_ && _); reflexivity. Qed.

(** Without a short token, [token_changed] comes out [True] whatever it was. *)
Lemma new_short_forgets_flag tc tc' h w :
  truthy (_short_session_token h) = false ->
  new_short_session_token tc h w = new_short_session_token tc' h w.
Proof. intros E. unfold_run. cbn. rewrite E. reflexivity. Qed.

(** So the rest of the branch does not depend on [token_changed] when it
    starts without a short token. *)
Lemma after_long_check_forgets_flag now tc tc' h w :
  truthy (_short_session_token h) = false ->
  after_long_check now tc h w = after_long_check now tc' h w.
Proof.
  intros Es. unfold after_long_check.
  rewrite !(bind_ok _ _ _ _ _ _ _ _ (check_short_absent now _ _ Es)).
  f_equal. rewrite !(bind_run new_long_session_token).
  pose proof (new_long_shape h w) as (_ & Hs & _).
  destruct (new_long_session_token h w) as [[[]|e] h1 w1 evs1]; cbn in Hs;
    [|reflexivity].
  f_equal. rewrite <- Hs in Es.
  rewrite !(bind_run (new_short_session_token _)).
  rewrite (new_short_forgets_flag tc tc') by exact Es. reflexivity.
Qed.

Lemma after_long_check_run now tc h w :
  after_long_check now tc h w =
  (check_short_session_token now ;;;
   new_long_session_token ;;;
   tc' <- new_short_session_token tc ;;
   finish_session tc') h w.
Proof. reflexivity. Qed.

(** A sequence that returns: its first part returned, and the rest ran from
    there. *)
Lemma bind_ok_inv {A B} (c : M A) (k : A -> M B) h w b :
  value (bind c k h w) = Ok b ->
  exists a h1 w1 evs1,
    c h w = mkRun (Ok a) h1 w1 evs1 /\
    bind c k h w = prepend evs1 (k a h1 w1) /\
    value (k a h1 w1) = Ok b.
Proof.
  rewrite bind_run. destruct (c h w) as [[a|e] h1 w1 evs1]; [|discriminate].
  intros Hv. exists a, h1, w1, evs1. repeat split.
  destruct (prepend_fields evs1 (k a h1 w1)) as (<- & _). exact Hv.
Qed.

(** Lines 198-208 set [self._session] and nothing else of the handler; they
    write the cache at most once, and only if [token_changed] is set and the
    disk cache is enabled. *)
Lemma finish_session_shape tc h w :
  let r := finish_session tc h w in
  (self_after r = h \/ exists s, self_after r = set_session s h) /\
  (value r = Ok tt -> is_credential_session (_session (self_after r)) = true) /\
  (tc = false \/ _disk_cache_disable h = true -> emitted r = [] /\ world_after r = w) /\
  (forall e, value r = Raise e -> emitted r = [] /\ world_after r = w) /\
  (tc = true -> _disk_cache_disable h = false -> value r = Ok tt ->
   exists cf rd,
     _cache_file h = Some cf /\
     emitted r = [CacheWrite cf (cache_tokens_of h)] /\
     fs (world_after r) = <[cf := File rd true (Json (cache_tokens_of h))]> (fs w)).
Proof.
  unfold finish_session. unfold_run. cbn.
  run_all; repeat split; intros; finish;
    try (destruct_or!; congruence);
    try (eexists _, _; repeat split; intros; congruence).
Qed.

(** Whether lines 198-204 return depends on the short token only. *)
Lemma finish_session_value h h' w w' :
  _short_session_token h = _short_session_token h' ->
  value (finish_session false h w) = value (finish_session false h' w').
Proof.
  intros E. unfold finish_session. unfold_run. cbn. rewrite E. run_all.
Qed.

(** The role branch, when it returns, leaves a session made of credentials. *)
Lemma assume_role_session_ok h w :
  value (assume_role_session h w) = Ok tt ->
  is_credential_session (_session (self_after (assume_role_session h w))) = true.
Proof.
  rewrite assume_role_session_run. intros Hv.
  apply bind_ok_inv in Hv as (tc & h1 & w1 & e1 & _ & -> & Hv).
  rewrite after_long_check_run in *.
  apply bind_ok_inv in Hv as ([] & h2 & w2 & e2 & _ & -> & Hv).
  apply bind_ok_inv in Hv as ([] & h3 & w3 & e3 & _ & -> & Hv).
  apply bind_ok_inv in Hv as (tc' & h4 & w4 & e4 & _ & -> & Hv).
  repeat match goal with
         | |- context [self_after (prepend ?e ?r)] =>
             destruct (prepend_fields e r) as (_ & -> & _)
         end.
  apply finish_session_shape, Hv.
Qed.

End Branches.

(** ** Properties of [_get_session] *)

Section GetSession.
Context `{DateTimeLib}.
Implicit Types (h : Handler) (w : World) (c : Config).

(** C7. A cached long token whose [source_profile] is not the one of the
    resolved profile is dropped together with the short token, wherever its
    expiry [t] lies: the check of the long token leaves no token, and the
    whole call runs as it does on a handler without cached tokens. *)
Theorem source_profile_switch_drops_both_tokens h w c csp sp t :
  get_scoped_config (profile_map w) {| ls_profile := _profile h |} = Ok c ->
  needs_assume_role c = true ->
  c !! "source_profile" = Some csp ->
  token_expire (_long_session_token h) = Ok t ->
  getitem (_long_session_token h) "source_profile" = Ok sp ->
  ne_str sp csp = true ->
  let checked := check_long_session_token (utcnow w + timedelta_seconds 10) false
                   (looked_up c h) w in
  is_ok (value checked) = true /\
  _long_session_token (self_after checked) = PNone /\
  _short_session_token (self_after checked) = PNone /\
  _get_session h w = _get_session (clear_tokens h) w.
Proof.
  intros Hc Hn Hcsp Ht Hsp Hne checked. subst checked.
  destruct (looked_up_fields c h) as (_ & Lc & _ & _ & _ & Ll & _).
  assert (Hrun : check_long_session_token (utcnow w + timedelta_seconds 10) false
                   (looked_up c h) w
                 = mkRun (Ok (if t <=? utcnow w + timedelta_seconds 10 then true else false))
                         (clear_tokens (looked_up c h)) w []).
  { apply (check_long_switch _ _ _ _ c csp sp t); rewrite ?Ll; assumption. }
  rewrite Hrun. cbn. repeat split.
  rewrite (_get_session_role_branch _ _ _ Hc Hn).
  rewrite (_get_session_role_branch (clear_tokens h) w c) by assumption.
  rewrite looked_up_clear_tokens, !assume_role_session_run.
  rewrite (bind_ok _ _ _ _ _ _ _ _ Hrun).
  rewrite (bind_ok _ _ _ _ _ _ _ _
             (check_long_absent _ false (clear_tokens (looked_up c h)) w eq_refl)).
  f_equal. apply after_long_check_forgets_flag. reflexivity.
Qed.

(** C6. With a valid long token that carries its credentials, and a short
    token whose [profile] is not the profile of the handler, the call keeps the
    long token, sends exactly one assume-role request (made of the long
    token's credentials), prompts for no MFA code and requests no session
    token; the old short token is gone: what is left is the token made of the
    response, or none if the token service refused. *)
Theorem profile_switch_drops_short_token_only
    h w c csp role_arn key secret token ts p :
  get_scoped_config (profile_map w) {| ls_profile := _profile h |} = Ok c ->
  needs_assume_role c = true ->
  c !! "source_profile" = Some csp ->
  c !! "role_arn" = Some role_arn ->
  valid_long_token (utcnow w + timedelta_seconds 10) csp (_long_session_token h) = true ->
  getitem (_long_session_token h) "aws_access_key_id" = Ok key ->
  getitem (_long_session_token h) "aws_secret_access_key" = Ok secret ->
  getitem (_long_session_token h) "aws_session_token" = Ok token ->
  token_expire (_short_session_token h) = Ok ts ->
  getitem (_short_session_token h) "profile" = Ok p ->
  ne_optstr p (_profile h) = true ->
  let run := _get_session h w in
  let req := assume_role_request h key secret token role_arn in
  _long_session_token (self_after run) = _long_session_token h /\
  count is_assume_role_call (emitted run) = 1%nat /\
  count is_mfa_prompt (emitted run) = 0%nat /\
  count is_get_session_token_call (emitted run) = 0%nat /\
  head (emitted run) = Some (AssumeRoleCall req) /\
  _short_session_token (self_after run)
    = match sts_assume_role w req with
      | Ok resp => short_token_of (looked_up c h) resp
      | Raise _ => PNone
      end.
Proof.
  intros Hc Hn Hcsp Harn Hvl Hk Hs Ht Hts Hp Hne run req. subst run req.
  destruct (looked_up_fields c h) as (Lp & Lc & _ & _ & _ & Ll & _ & Ls & Ld & _).
  set (h1 := looked_up c h) in *.
  set (now := utcnow w + timedelta_seconds 10) in *.
  rewrite (_get_session_role_branch _ _ _ Hc Hn), assume_role_session_run.
  fold h1 now.
  rewrite (bind_ok _ _ _ _ _ _ _ _ (check_long_valid now false h1 w c csp Lc Hcsp
             ltac:(rewrite Ll; exact Hvl))), prepend_nil.
  rewrite after_long_check_run.
  assert (Hsw : check_short_session_token now h1 w
                = mkRun (Ok tt) (set_short_session_token PNone h1) w []).
  { apply (check_short_switch now h1 w ts p); rewrite ?Ls, ?Lp; assumption. }
  rewrite (bind_ok _ _ _ _ _ _ _ _ Hsw), prepend_nil.
  set (h2 := set_short_session_token PNone h1) in *.
  assert (Hlt : truthy (_long_session_token h2) = true).
  { cbn. rewrite Ll. apply (getitem_truthy _ _ _ Hk). }
  rewrite (bind_ok _ _ _ _ _ _ _ _ (new_long_present h2 w Hlt)), prepend_nil.
  rewrite bind_run.
  rewrite (new_short_absent false h2 w c key secret token role_arn);
    try (cbn; rewrite ?Ll; assumption); try reflexivity.
  replace (assume_role_request h2 key secret token role_arn)
    with (assume_role_request h key secret token role_arn)
    by (unfold assume_role_request; cbn; rewrite Ld; reflexivity).
  destruct (sts_assume_role w _) as [resp|e]; [|cbn; repeat split; exact Ll].
  pose proof (finish_session_shape true
                (set_short_session_token (short_token_of h2 resp) h2) w) as Hf.
  destruct (finish_session true _ w) as [v h3 w3 evs3]. cbn in Hf. cbn.
  destruct Hf as (Hself & _ & Hoff & Hraise & Hok).
  assert (Hh3 : _long_session_token h3 = _long_session_token h /\
                _short_session_token h3 = short_token_of h1 resp).
  { destruct Hself as [-> | [s ->]]; cbn; rewrite Ll; split; reflexivity. }
  destruct Hh3 as [-> ->].
  assert (Hev : evs3 = [] \/ exists cf d, evs3 = [CacheWrite cf d]).
  { destruct v as [[]|e].
    - destruct (_disk_cache_disable h1) eqn:Hd.
      + left. apply Hoff. right. reflexivity.
      + right. destruct (Hok eq_refl eq_refl eq_refl) as (cf & rd & _ & -> & _).
        eauto.
    - left. apply (Hraise e eq_refl). }
  destruct Hev as [-> | (cf & d & ->)]; repeat split; reflexivity.
Qed.

(** A call that finds both tokens valid does nothing but set the session. *)
Lemma get_session_with_valid_tokens h w c csp :
  get_scoped_config (profile_map w) {| ls_profile := _profile h |} = Ok c ->
  needs_assume_role c = true ->
  c !! "source_profile" = Some csp ->
  valid_long_token (utcnow w + timedelta_seconds 10) csp (_long_session_token h) = true ->
  valid_short_token (utcnow w + timedelta_seconds 10) (_profile h)
                    (_short_session_token h) = true ->
  let run := _get_session h w in
  emitted run = [] /\ world_after run = w /\
  (self_after run = looked_up c h \/
   exists s, self_after run = set_session s (looked_up c h)) /\
  value run = value (finish_session false (looked_up c h) w).
Proof.
  intros Hc Hn Hcsp Hvl Hvs run. subst run.
  destruct (looked_up_fields c h) as (Lp & Lc & _ & _ & _ & Ll & _ & Ls & _).
  set (h1 := looked_up c h) in *.
  set (now := utcnow w + timedelta_seconds 10) in *.
  rewrite (_get_session_role_branch _ _ _ Hc Hn), assume_role_session_run.
  fold h1 now.
  rewrite (bind_ok _ _ _ _ _ _ _ _ (check_long_valid now false h1 w c csp Lc Hcsp
             ltac:(rewrite Ll; exact Hvl))), prepend_nil.
  rewrite after_long_check_run.
  rewrite (bind_ok _ _ _ _ _ _ _ _ (check_short_valid now h1 w
             ltac:(rewrite Ls, Lp; exact Hvs))), prepend_nil.
  assert (Hlt : truthy (_long_session_token h1) = true).
  { rewrite Ll. unfold valid_long_token in Hvl.
    destruct (token_expire (_long_session_token h)) eqn:Et; [|discriminate].
    apply (token_expire_truthy _ _ Et). }
  assert (Hst : truthy (_short_session_token h1) = true).
  { rewrite Ls. unfold valid_short_token in Hvs.
    destruct (token_expire (_short_session_token h)) eqn:Et; [|discriminate].
    apply (token_expire_truthy _ _ Et). }
  rewrite (bind_ok _ _ _ _ _ _ _ _ (new_long_present h1 w Hlt)), prepend_nil.
  rewrite (bind_ok _ _ _ _ _ _ _ _ (new_short_present false h1 w Hst)), prepend_nil.
  destruct (finish_session_shape false h1 w) as (Hself & _ & Hoff & _).
  destruct (Hoff (or_introl eq_refl)) as [-> ->]. repeat split. exact Hself.
Qed.

(** C5. From a state with a valid long and a valid short token, two calls in
    a row (the clock and the selectors untouched in between) cause no event at
    all: no prompt, no request to the token service, no cache write.  The
    second call leaves the world as the first call found it, keeps both tokens
    and ends as the first one did. *)
Theorem get_session_idempotent_on_valid_tokens h w c csp :
  get_scoped_config (profile_map w) {| ls_profile := _profile h |} = Ok c ->
  needs_assume_role c = true ->
  c !! "source_profile" = Some csp ->
  valid_long_token (utcnow w + timedelta_seconds 10) csp (_long_session_token h) = true ->
  valid_short_token (utcnow w + timedelta_seconds 10) (_profile h)
                    (_short_session_token h) = true ->
  let first := _get_session h w in
  let second := _get_session (self_after first) (world_after first) in
  emitted first = [] /\ emitted second = [] /\
  count is_token_call (emitted second) = 0%nat /\
  count is_cache_write (emitted second) = 0%nat /\
  world_after second = w /\
  _long_session_token (self_after second) = _long_session_token h /\
  _short_session_token (self_after second) = _short_session_token h /\
  value second = value first.
Proof.
  intros Hc Hn Hcsp Hvl Hvs first second. subst first second.
  destruct (get_session_with_valid_tokens h w c csp Hc Hn Hcsp Hvl Hvs)
    as (Hev & Hw & Hself & Hval).
  destruct (looked_up_fields c h) as (Lp & _ & _ & _ & _ & Ll & _ & Ls & _).
  set (h' := self_after (_get_session h w)) in *.
  assert (Hsame : _profile h' = _profile h /\
                  _long_session_token h' = _long_session_token h /\
                  _short_session_token h' = _short_session_token h).
  { destruct Hself as [-> | [s ->]]; cbn; auto. }
  destruct Hsame as (Hp' & Hl' & Hs').
  rewrite Hw.
  destruct (get_session_with_valid_tokens h' w c csp) as (Hev' & Hw' & Hself' & Hval');
    rewrite ?Hp', ?Hl', ?Hs'; try assumption.
  destruct (looked_up_fields c h') as (_ & _ & _ & _ & _ & Ll' & _ & Ls' & _).
  rewrite Hev, Hev', Hw', Hval, Hval'. repeat split.
  - destruct Hself' as [-> | [s ->]]; cbn; congruence.
  - destruct Hself' as [-> | [s ->]]; cbn; congruence.
  - apply finish_session_value. congruence.
Qed.

End GetSession.

(** ** The cache write *)

Section CacheWrite.
Context `{DateTimeLib}.
Implicit Types (h : Handler) (w : World) (c : Config).

(** The role branch, when it returns, has gone through its five blocks. *)
Lemma assume_role_session_ok_inv h w :
  value (assume_role_session h w) = Ok tt ->
  let now := utcnow w + timedelta_seconds 10 in
  exists tc h2 w2 e1 h3 w3 e2 h4 w4 e3 tc' h5 w5 e4,
    check_long_session_token now false h w = mkRun (Ok tc) h2 w2 e1 /\
    check_short_session_token now h2 w2 = mkRun (Ok tt) h3 w3 e2 /\
    new_long_session_token h3 w3 = mkRun (Ok tt) h4 w4 e3 /\
    new_short_session_token tc h4 w4 = mkRun (Ok tc') h5 w5 e4 /\
    value (finish_session tc' h5 w5) = Ok tt /\
    assume_role_session h w
    = prepend e1 (prepend e2 (prepend e3 (prepend e4 (finish_session tc' h5 w5)))).
Proof.
  rewrite assume_role_session_run. intros Hv now. subst now.
  apply bind_ok_inv in Hv as (tc & h2 & w2 & e1 & E1 & -> & Hv).
  rewrite after_long_check_run in *.
  apply bind_ok_inv in Hv as ([] & h3 & w3 & e2 & E2 & -> & Hv).
  apply bind_ok_inv in Hv as ([] & h4 & w4 & e3 & E3 & -> & Hv).
  apply bind_ok_inv in Hv as (tc' & h5 & w5 & e4 & E4 & -> & Hv).
  exists tc, h2, w2, e1, h3, w3, e2, h4, w4, e3, tc', h5, w5, e4.
  repeat split; assumption.
Qed.

(** The flag [token_changed] at line 207 says whether the role was assumed,
    and a new long token never comes without a new short token, provided the
    call did not start with a short token and no long token. *)
Lemma role_branch_refresh_order h w :
  tokens_paired h = true ->
  forall tc h2 w2 e1 h3 w3 e2 h4 w4 e3 tc' h5 w5 e4,
    check_long_session_token (utcnow w + timedelta_seconds 10) false h w
      = mkRun (Ok tc) h2 w2 e1 ->
    check_short_session_token (utcnow w + timedelta_seconds 10) h2 w2
      = mkRun (Ok tt) h3 w3 e2 ->
    new_long_session_token h3 w3 = mkRun (Ok tt) h4 w4 e3 ->
    new_short_session_token tc h4 w4 = mkRun (Ok tc') h5 w5 e4 ->
    w2 = w /\ w3 = w /\ fs w4 = fs w /\ w5 = w4 /\ e1 = [] /\ e2 = [] /\
    _disk_cache_disable h5 = _disk_cache_disable h /\
    _cache_file h5 = _cache_file h /\
    ((tc' = false /\ e3 = [] /\ e4 = []) \/
     (tc' = true /\
      (e3 = [] \/ exists req, e3 = [MfaPrompt "MFA_Token: "; GetSessionTokenCall req]) /\
      exists req, e4 = [AssumeRoleCall req])).
Proof.
  intros Hp tc h2 w2 e1 h3 w3 e2 h4 w4 e3 tc' h5 w5 e4 E1 E2 E3 E4.
  unfold tokens_paired in Hp.
  pose proof (check_long_shape (utcnow w + timedelta_seconds 10) false h w) as S1.
  rewrite E1 in S1. cbn in S1. destruct S1 as (-> & -> & S1).
  pose proof (check_short_shape (utcnow w + timedelta_seconds 10) h2 w) as S2.
  rewrite E2 in S2. cbn in S2. destruct S2 as (-> & -> & S2).
  pose proof (new_long_shape h3 w) as S3.
  rewrite E3 in S3. cbn in S3. destruct S3 as (Hfs & Hs3 & _ & _ & S3 & _).
  pose proof (new_short_shape tc h4 w4) as S4.
  rewrite E4 in S4. cbn in S4. destruct S4 as (-> & _ & _ & _ & S4p & S4a & _).
  (* the tokens after the two checks *)
  assert (Hchk : (tc = false /\ _long_session_token h3 = _long_session_token h /\
                  (_short_session_token h3 = _short_session_token h \/
                   _short_session_token h3 = PNone)) \/
                 (_long_session_token h3 = PNone /\ _short_session_token h3 = PNone)).
  { destruct S1 as [[-> [Hv | [e Hv]]] | (_ & -> & _)]; try discriminate.
    - left. injection Hv as <-.
      destruct S2 as [-> | [-> _]]; cbn; auto.
    - right. destruct S2 as [-> | [-> _]]; cbn; auto. }
  assert (Hfr3 : _disk_cache_disable h3 = _disk_cache_disable h /\
                 _cache_file h3 = _cache_file h).
  { destruct S1 as [[-> _] | (_ & -> & _)];
      destruct S2 as [-> | [-> _]]; cbn; auto. }
  assert (Hfr4 : _disk_cache_disable h4 = _disk_cache_disable h /\
                 _cache_file h4 = _cache_file h /\
                 (truthy (_long_session_token h3) = true -> e3 = []) /\
                 (truthy (_long_session_token h3) = false ->
                  exists req, e3 = [MfaPrompt "MFA_Token: "; GetSessionTokenCall req])).
  { destruct (truthy (_long_session_token h3)) eqn:Hl3.
    - rewrite (new_long_present h3 w Hl3) in E3. injection E3 as <- <- <-.
      destruct Hfr3; repeat split; auto. discriminate.
    - destruct (S3 eq_refl eq_refl) as (req & cred & tok & -> & -> & _).
      cbn. destruct Hfr3; repeat split; eauto. discriminate. }
  destruct Hfr4 as (Hd4 & Hc4 & Hl3t & Hl3f).
  destruct (truthy (_short_session_token h4)) eqn:Hs4.
  - (* the short token survived: nothing was refreshed *)
    specialize (S4p eq_refl). injection S4p as -> -> ->.
    repeat split; try assumption. left.
    rewrite Hs3 in Hs4.
    destruct Hchk as [(-> & Hl & Hs) | (_ & Hs)]; [|rewrite Hs in Hs4; discriminate].
    repeat split. apply Hl3t. rewrite Hl.
    destruct Hs as [Hs | Hs]; rewrite Hs in Hs4; [|discriminate].
    rewrite Hs4 in Hp. exact Hp.
  - destruct (S4a tc' eq_refl eq_refl) as (req & resp & -> & -> & _ & ->). cbn.
    repeat split; try assumption. right. repeat split; eauto.
    destruct (truthy (_long_session_token h3)); eauto.
Qed.

(** C2, amended.  On the role branch, with the disk cache enabled and from a
    state that holds no short token without a long token, a call that returns
    writes the cache file exactly if it called the token service: either it
    causes no event and leaves the files alone, or it makes its calls to the
    token service and then, once, overwrites the cache file with both tokens
    as the handler holds them at the end. *)
Theorem cache_written_iff_token_issued_when_enabled h w c :
  get_scoped_config (profile_map w) {| ls_profile := _profile h |} = Ok c ->
  needs_assume_role c = true ->
  _disk_cache_disable h = false ->
  tokens_paired h = true ->
  value (_get_session h w) = Ok tt ->
  let run := _get_session h w in
  let dumped := cache_tokens_of (self_after run) in
  written_iff_issued run /\
  ((emitted run = [] /\ fs (world_after run) = fs w) \/
   (exists calls cf rd,
      emitted run = (calls ++ [CacheWrite cf dumped])%list /\
      (0 < count is_token_call calls)%nat /\
      count is_cache_write calls = 0%nat /\
      _cache_file h = Some cf /\
      fs (world_after run) = <[cf := File rd true (Json dumped)]> (fs w))).
Proof.
  intros Hc Hn Hd Hp Hv run dumped. subst run dumped. revert Hv.
  rewrite (_get_session_role_branch _ _ _ Hc Hn).
  destruct (looked_up_fields c h) as (_ & _ & _ & _ & Ld & Ll & _ & Ls & _ & Lf).
  set (h1 := looked_up c h) in *. intros Hv.
  assert (Hp1 : tokens_paired h1 = true).
  { unfold tokens_paired. rewrite Ll, Ls. exact Hp. }
  destruct (assume_role_session_ok_inv h1 w Hv)
    as (tc & h2 & w2 & e1 & h3 & w3 & e2 & h4 & w4 & e3 & tc' & h5 & w5 & e4
        & E1 & E2 & E3 & E4 & Hfin & ->).
  destruct (role_branch_refresh_order h1 w Hp1 _ _ _ _ _ _ _ _ _ _ _ _ _ _ E1 E2 E3 E4)
    as (-> & -> & Hfs & -> & -> & -> & Hd5 & Hf5 & Hcase).
  rewrite Ld in Hd5. rewrite Lf in Hf5.
  pose proof (finish_session_shape tc' h5 w4) as S5.
  destruct (finish_session tc' h5 w4) as [v h6 w6 e5]. cbn in S5, Hfin. subst v.
  destruct S5 as (Hself & _ & Hoff & _ & Hon). cbn.
  assert (Hdump : cache_tokens_of h6 = cache_tokens_of h5).
  { destruct Hself as [-> | [s ->]]; reflexivity. }
  destruct Hcase as [(-> & -> & ->) | (-> & He3 & (req & ->))].
  - destruct (Hoff (or_introl eq_refl)) as [-> ->]. cbn.
    split; [reflexivity|]. left. split; [reflexivity | exact Hfs].
  - destruct (Hon eq_refl ltac:(congruence) eq_refl) as (cf & rd & Hcf & -> & Hw6).
    rewrite Hdump, Hw6, Hfs.
    destruct He3 as [-> | [greq ->]]; cbn.
    + split; [reflexivity|]. right.
      exists [AssumeRoleCall req], cf, rd. repeat split; try reflexivity.
      * compute. lia.
      * congruence.
    + split; [reflexivity|]. right.
      exists [MfaPrompt "MFA_Token: "; GetSessionTokenCall greq; AssumeRoleCall req], cf, rd.
      repeat split; try reflexivity.
      * compute. lia.
      * congruence.
Qed.

(** With the disk cache disabled no call writes anything. *)
Lemma no_cache_write_when_disabled h w c :
  get_scoped_config (profile_map w) {| ls_profile := _profile h |} = Ok c ->
  _disk_cache_disable h = true ->
  value (_get_session h w) = Ok tt ->
  count is_cache_write (emitted (_get_session h w)) = 0%nat /\
  fs (world_after (_get_session h w)) = fs w.
Proof.
  intros Hc Hd. destruct (needs_assume_role c) eqn:Hn.
  2:{ rewrite (_get_session_default_branch _ _ _ Hc Hn). cbn. auto. }
  rewrite (_get_session_role_branch _ _ _ Hc Hn).
  destruct (looked_up_fields c h) as (_ & _ & _ & _ & Ld & _).
  set (h1 := looked_up c h) in *. intros Hv.
  destruct (assume_role_session_ok_inv h1 w Hv)
    as (tc & h2 & w2 & e1 & h3 & w3 & e2 & h4 & w4 & e3 & tc' & h5 & w5 & e4
        & E1 & E2 & E3 & E4 & Hfin & ->).
  pose proof (check_long_shape (utcnow w + timedelta_seconds 10) false h1 w) as S1.
  rewrite E1 in S1. cbn in S1. destruct S1 as (-> & -> & S1).
  pose proof (check_short_shape (utcnow w + timedelta_seconds 10) h2 w) as S2.
  rewrite E2 in S2. cbn in S2. destruct S2 as (-> & -> & S2).
  pose proof (new_long_shape h3 w) as S3.
  rewrite E3 in S3. cbn in S3. destruct S3 as (Hfs & _ & _ & Hw3 & S3 & _).
  pose proof (new_short_shape tc h4 w4) as S4.
  rewrite E4 in S4. cbn in S4. destruct S4 as (-> & _ & _ & Hw4 & S4p & S4a & _).
  assert (Hd5 : _disk_cache_disable h5 = true).
  { assert (Hd3 : _disk_cache_disable h3 = true).
    { destruct S1 as [[-> _] | (_ & -> & _)];
        destruct S2 as [-> | [-> _]]; cbn; congruence. }
    assert (Hd4 : _disk_cache_disable h4 = true).
    { destruct (truthy (_long_session_token h3)) eqn:Hl3.
      - rewrite (new_long_present h3 w Hl3) in E3. injection E3 as <- <- <-. exact Hd3.
      - destruct (S3 eq_refl eq_refl) as (req & cred & tok & _ & -> & _). exact Hd3. }
    destruct (truthy (_short_session_token h4)) eqn:Hs4.
    - specialize (S4p eq_refl). injection S4p as -> -> ->. exact Hd4.
    - destruct (S4a tc' eq_refl eq_refl) as (req & resp & _ & _ & _ & ->). exact Hd4. }
  pose proof (finish_session_shape tc' h5 w4) as S5.
  destruct (finish_session tc' h5 w4) as [v h6 w6 e5]. cbn in S5.
  destruct S5 as (_ & _ & Hoff & _).
  destruct (Hoff (or_intror Hd5)) as [-> ->]. cbn.
  split; [|exact Hfs].
  unfold count in *. rewrite !filter_app, !length_app in *. cbn. lia.
Qed.

End CacheWrite.

(** ** Short tokens come with long tokens *)

Section Pairing.
Context `{DateTimeLib}.
Implicit Types (h : Handler) (w : World) (c : Config).

(** X25.  Under the pairing of the tokens a new long token is always followed
    by a new short token: a call that returns after requesting a session token
    has assumed the role once. *)
Lemma long_refresh_brings_short_refresh h w c :
  get_scoped_config (profile_map w) {| ls_profile := _profile h |} = Ok c ->
  tokens_paired h = true ->
  value (_get_session h w) = Ok tt ->
  (0 < count is_get_session_token_call (emitted (_get_session h w)))%nat ->
  count is_assume_role_call (emitted (_get_session h w)) = 1%nat.
Proof.
  intros Hc Hp. destruct (needs_assume_role c) eqn:Hn.
  2:{ rewrite (_get_session_default_branch _ _ _ Hc Hn). cbn. lia. }
  rewrite (_get_session_role_branch _ _ _ Hc Hn).
  destruct (looked_up_fields c h) as (_ & _ & _ & _ & _ & Ll & _ & Ls & _).
  set (h1 := looked_up c h) in *. intros Hv.
  assert (Hp1 : tokens_paired h1 = true).
  { unfold tokens_paired. rewrite Ll, Ls. exact Hp. }
  destruct (assume_role_session_ok_inv h1 w Hv)
    as (tc & h2 & w2 & e1 & h3 & w3 & e2 & h4 & w4 & e3 & tc' & h5 & w5 & e4
        & E1 & E2 & E3 & E4 & Hfin & ->).
  destruct (role_branch_refresh_order h1 w Hp1 _ _ _ _ _ _ _ _ _ _ _ _ _ _ E1 E2 E3 E4)
    as (-> & -> & Hfs & -> & -> & -> & _ & _ & Hcase).
  pose proof (finish_session_shape tc' h5 w4) as S5.
  destruct (finish_session tc' h5 w4) as [v h6 w6 e5]. cbn in S5, Hfin. subst v.
  destruct S5 as (_ & _ & Hoff & _ & Hon). cbn.
  assert (He5 : e5 = [] \/ exists cf d, e5 = [CacheWrite cf d]).
  { destruct tc'; [|left; apply Hoff; auto].
    destruct (_disk_cache_disable h5) eqn:Hd; [left; apply Hoff; auto|].
    right. destruct (Hon eq_refl eq_refl eq_refl) as (cf & rd & _ & -> & _). eauto. }
  destruct Hcase as [(-> & -> & ->) | (-> & He3 & (req & ->))].
  - destruct He5 as [-> | (cf & d & ->)]; compute; lia.
  - destruct He3 as [-> | [greq ->]];
      destruct He5 as [-> | (cf & d & ->)]; compute; lia.
Qed.

(** X24.  Every call keeps the pairing, whether it returns or raises. *)
Lemma get_session_keeps_tokens_paired h w :
  tokens_paired h = true ->
  tokens_paired (self_after (_get_session h w)) = true.
Proof.
  intros Hp.
  destruct (get_scoped_config (profile_map w) {| ls_profile := _profile h |})
    as [c|e] eqn:Hc.
  2:{ rewrite (_get_session_unknown_profile _ _ _ Hc). exact Hp. }
  destruct (looked_up_fields c h) as (_ & _ & _ & _ & _ & Ll & _ & Ls & _).
  destruct (needs_assume_role c) eqn:Hn.
  2:{ rewrite (_get_session_default_branch _ _ _ Hc Hn). cbn.
      unfold tokens_paired in *. cbn. rewrite Ll, Ls. exact Hp. }
  rewrite (_get_session_role_branch _ _ _ Hc Hn), assume_role_session_run.
  set (h1 := looked_up c h) in *.
  set (now := utcnow w + timedelta_seconds 10).
  assert (Hp1 : tokens_paired h1 = true).
  { unfold tokens_paired. rewrite Ll, Ls. exact Hp. }
  clearbody h1. clear Hp Ll Ls Hc h.
  rewrite bind_run.
  pose proof (check_long_shape now false h1 w) as S1.
  destruct (check_long_session_token now false h1 w) as [[tc|e] h2 w2 e1]; cbn in S1;
    destruct S1 as (-> & -> & S1).
  2:{ destruct S1 as [[-> _] | (_ & _ & [b Hb])]; [exact Hp1 | discriminate]. }
  assert (Hp2 : tokens_paired h2 = true).
  { destruct S1 as [[-> _] | (_ & -> & _)]; [exact Hp1 | reflexivity]. }
  clear S1 Hp1 h1. rewrite prepend_nil, after_long_check_run, bind_run.
  pose proof (check_short_shape now h2 w) as S2.
  destruct (check_short_session_token now h2 w) as [[[]|e] h3 w3 e2]; cbn in S2;
    destruct S2 as (-> & -> & S2).
  2:{ destruct S2 as [-> | [_ Hb]]; [exact Hp2 | discriminate]. }
  assert (Hp3 : tokens_paired h3 = true).
  { destruct S2 as [-> | [-> _]]; [exact Hp2 | reflexivity]. }
  clear S2 Hp2 h2. rewrite prepend_nil, bind_run.
  pose proof (new_long_shape h3 w) as S3.
  destruct (truthy (_long_session_token h3)) eqn:Hl3.
  - rewrite (new_long_present h3 w Hl3), prepend_nil, bind_run. clear S3.
    pose proof (new_short_shape tc h3 w) as S4.
    destruct (new_short_session_token tc h3 w) as [[tc'|e] h5 w5 e4]; cbn in S4;
      destruct S4 as (-> & _ & _ & _ & S4p & S4a & S4r).
    2:{ cbn. rewrite (S4r e eq_refl). exact Hp3. }
    assert (Hp5 : tokens_paired h5 = true).
    { destruct (truthy (_short_session_token h3)) eqn:Hs3.
      - specialize (S4p eq_refl). injection S4p as _ -> _. exact Hp3.
      - destruct (S4a tc' eq_refl eq_refl) as (req & resp & _ & _ & _ & ->).
        unfold tokens_paired. cbn. exact Hl3. }
    destruct (prepend_fields e4 (finish_session tc' h5 w)) as (_ & -> & _).
    destruct (finish_session_shape tc' h5 w) as ([-> | [s ->]] & _); exact Hp5.
  - destruct (new_long_session_token h3 w) as [[[]|e] h4 w4 e3]; cbn in S3;
      destruct S3 as (_ & Hs3 & _ & _ & S3 & S3r).
    2:{ rewrite (S3r e eq_refl). exact Hp3. }
    destruct (S3 eq_refl eq_refl) as (req & cred & tok & _ & -> & _ & Htok).
    destruct (prepend_fields e3
                (bind (new_short_session_token tc)
                      (fun tc' => finish_session tc')
                      (set_long_session_token tok h3) w4)) as (_ & -> & _).
    rewrite bind_run.
    pose proof (new_short_shape tc (set_long_session_token tok h3) w4) as S4.
    destruct (new_short_session_token tc (set_long_session_token tok h3) w4)
      as [[tc'|e] h5 w5 e4]; cbn in S4;
      destruct S4 as (-> & _ & _ & _ & S4p & S4a & S4r).
    2:{ cbn. rewrite (S4r e eq_refl). unfold tokens_paired. cbn. rewrite Htok.
        apply implb_true_r. }
    assert (Hp5 : tokens_paired h5 = true).
    { destruct (truthy (_short_session_token h3)) eqn:Hs3'.
      - specialize (S4p eq_refl). injection S4p as _ -> _.
        unfold tokens_paired. cbn. rewrite Htok. apply implb_true_r.
      - destruct (S4a tc' eq_refl eq_refl) as (rq & resp & _ & _ & _ & ->).
        unfold tokens_paired. cbn. exact Htok. }
    destruct (prepend_fields e4 (finish_session tc' h5 w4)) as (_ & -> & _).
    destruct (finish_session_shape tc' h5 w4) as ([-> | [s ->]] & _); exact Hp5.
Qed.

End Pairing.

(** ** The constructor and the cache file *)

Section Constructor.
Implicit Types (h : Handler) (w : World) (c : Config) (a : InitArgs).

Lemma append_neq (s t : string) : t <> EmptyString -> (s ++ t)%string <> s.
Proof.
  intros Ht. induction s as [|ch s IH]; cbn.
  - exact Ht.
  - intros E. injection E as E. exact (IH E).
Qed.

Lemma append_nonempty (s t : string) : t <> EmptyString -> (s ++ t)%string <> EmptyString.
Proof. intros Ht. destruct s; cbn; [exact Ht | discriminate]. Qed.

(** Lines 28-39 and the lookup. *)
Lemma __init___run a w c :
  get_scoped_config (profile_map w) {| ls_profile := profile a |} = Ok c ->
  __init__ a blank w =
  when (negb (disable_file_cache a)) (select_cache_file a ;;; preload_cache_tokens)
       (attributes_of a c) w.
Proof.
  intros Hc. unfold __init__.
  rewrite !bind_assign.
  erewrite bind_ok; [|apply (_config_lookup_ok _ w c); exact Hc].
  rewrite prepend_nil, !bind_assign, bind_self.
  unfold looked_up, attributes_of. cbn.
  destruct (_ && _); reflexivity.
Qed.

(** Lines 42-60 return exactly when [selected_cache_file] says so; they touch
    no file, and nothing of the handler but [_cache_file]. *)
Lemma select_cache_file_run a h w cf :
  selected_cache_file a w = Some cf ->
  exists w',
    select_cache_file a h w = mkRun (Ok tt) (set_cache_file (Some cf) h) w' [] /\
    fs w' !! cf = fs w !! cf /\ cf <> EmptyString /\
    profile_map w' = profile_map w /\ home w' = home w.
Proof.
  unfold selected_cache_file, select_cache_file, default_cache_path.
  assert (Hdef : match fs w !! (home w ++ "/.aws/app/cache")%string with
                 | Some (File _ _ _) => None
                 | _ => Some ((home w ++ "/.aws/app/cache") ++ "/AwsSessionHandler.json")%string
                 end = Some cf ->
                 exists w',
                   default_cache_file h w = mkRun (Ok tt) (set_cache_file (Some cf) h) w' [] /\
                   fs w' !! cf = fs w !! cf /\ cf <> EmptyString /\
                   profile_map w' = profile_map w /\ home w' = home w).
  { intros Hsel. unfold default_cache_file, os_makedirs.
    rewrite bind_the_world, bind_run, bind_the_world.
    destruct (fs w !! (home w ++ "/.aws/app/cache")%string) as [[wr|rd wr d]|] eqn:Ed;
      try discriminate; injection Hsel as <-.
    - exists w. unfold ret, assign. cbn. repeat split.
      apply append_nonempty. discriminate.
    - eexists. unfold change_world, assign. cbn. split; [reflexivity|].
      repeat split.
      + apply lookup_insert_ne. intros E. symmetry in E. revert E.
        apply append_neq. discriminate.
      + apply append_nonempty. discriminate. }
  destruct (cache_file a) as [f|]; [|exact Hdef].
  destruct (truthy (PStr f)) eqn:Hf; [|exact Hdef].
  intros Hsel. unfold explicit_cache_file. rewrite bind_the_world.
  destruct (os_path_exists w (dirname f)); [|discriminate].
  destruct (os_access_W_OK w (dirname f)); [|discriminate].
  cbn in Hsel |- *.
  destruct (os_path_exists w f && negb (os_access_W_OK w f)); [discriminate|].
  injection Hsel as <-. exists w. repeat split.
  intros ->. discriminate.
Qed.

(** The construction, with the disk cache enabled, is the preload run on the
    fresh attributes. *)
Lemma construction_run a w c cf :
  disable_file_cache a = false ->
  get_scoped_config (profile_map w) {| ls_profile := profile a |} = Ok c ->
  selected_cache_file a w = Some cf ->
  exists w',
    AwsSessionHandler a w
    = preload_cache_tokens (set_cache_file (Some cf) (attributes_of a c)) w' /\
    fs w' !! cf = fs w !! cf /\ cf <> EmptyString.
Proof.
  intros Hd Hc Hsel. unfold AwsSessionHandler.
  rewrite (__init___run a w c Hc), Hd. cbn [negb when].
  destruct (select_cache_file_run a (attributes_of a c) w cf Hsel)
    as (w' & Hrun & Hfs & Hne & _).
  exists w'. rewrite (bind_ok _ _ _ _ _ _ _ _ Hrun), prepend_nil. auto.
Qed.

(** Lines 63-71 on a cache file that is missing or may not be written. *)
Lemma preload_skipped h w cf :
  _cache_file h = Some cf ->
  os_path_exists w cf && os_access_W_OK w cf = false ->
  preload_cache_tokens h w = mkRun (Ok tt) h w [].
Proof.
  intros Hcf Hno. unfold preload_cache_tokens.
  rewrite bind_self, bind_the_world, Hcf, Hno. reflexivity.
Qed.

(** Lines 63-71 on a cache file that holds a JSON object. *)
Lemma preload_json_object h w cf d :
  _cache_file h = Some cf -> cf <> EmptyString ->
  fs w !! cf = Some (File true true (Json (PDict d))) ->
  _long_session_token h = PNone -> _short_session_token h = PNone ->
  let r := preload_cache_tokens h w in
  value r = Ok tt /\ emitted r = [] /\ world_after r = w /\
  _long_session_token (self_after r) = cached_token d "long_session_token" /\
  _short_session_token (self_after r) = cached_token d "short_session_token".
Proof.
  intros Hcf Hne Hfile Hl Hs.
  unfold preload_cache_tokens, cached_token, json_load_file, os_path_exists,
    os_access_W_OK, contains, getitem.
  unfold_run.
  repeat (first [ rewrite Hcf | rewrite Hfile
                | rewrite (bool_decide_eq_false_2 _ Hne)
                | rewrite bool_decide_eq_true_2 by eauto ]; cbn).
  destruct (items_get d "long_session_token") as [l|] eqn:El;
    destruct (items_get d "short_session_token") as [s|] eqn:Es; cbn;
    rewrite ?El, ?Es, ?Hl, ?Hs; cbn; repeat split.
Qed.




(** C8. What [_write_cache_file] has written, a handler constructed over the
    same cache file reads back: if the write returned, the process may read
    its cache file, and the new handler (disk cache enabled, profile
    resolvable, the same cache file selected) is constructed in the world the
    write left, then the construction returns and the new handler holds the
    very tokens that the old one held when it wrote. *)
Theorem cache_round_trip h w a c cf :
  _disk_cache_disable h = false ->
  _cache_file h = Some cf ->
  value (_write_cache_file h w) = Ok tt ->
  (forall rd wr d, fs w !! cf = Some (File rd wr d) -> rd = true) ->
  let w' := world_after (_write_cache_file h w) in
  disable_file_cache a = false ->
  get_scoped_config (profile_map w') {| ls_profile := profile a |} = Ok c ->
  selected_cache_file a w' = Some cf ->
  let made := AwsSessionHandler a w' in
  value made = Ok tt /\
  _long_session_token (self_after made) = _long_session_token h /\
  _short_session_token (self_after made) = _short_session_token h.
Proof.
  intros Hd Hcf Hv Hrd w' Ha Hc Hsel made. subst made w'.
  destruct (_write_cache_file_shape h w) as (_ & _ & Hw).
  destruct (Hw Hv Hd) as (cf' & rd & Hcf' & _ & Hfs & Hwas).
  assert (cf' = cf) as -> by congruence.
  assert (rd = true) as ->.
  { destruct Hwas as [[_ ->] | [d Hfile]]; [reflexivity|].
    apply (Hrd rd true d Hfile). }
  set (w' := world_after (_write_cache_file h w)) in *.
  destruct (construction_run a w' c cf Ha Hc Hsel) as (w'' & -> & Hfs'' & Hne).
  edestruct (preload_json_object (set_cache_file (Some cf) (attributes_of a c)) w'' cf)
    as (Hv' & _ & _ & Hl & Hs); try reflexivity; try assumption.
  { rewrite Hfs'', Hfs. apply lookup_insert_eq. }
  repeat split; assumption.
Qed.

End Constructor.

(** ** Specifications that compose *)

Section Satisfies.
Variable R : Spec.
Hypothesis R_refl : forall h w, R h w [] h w.
Hypothesis R_trans : forall h w e1 h1 w1 e2 h2 w2,
  R h w e1 h1 w1 -> R h1 w1 e2 h2 w2 -> R h w (e1 ++ e2)%list h2 w2.

Lemma satisfies_ret {A} (a : A) : satisfies R (ret a).
Proof. intros h w. apply R_refl. Qed.

Lemma satisfies_raise {A} (e : exn) : satisfies R (@raise A e).
Proof. intros h w. apply R_refl. Qed.

Lemma satisfies_self : satisfies R self.
Proof. intros h w. apply R_refl. Qed.

Lemma satisfies_the_world : satisfies R the_world.
Proof. intros h w. apply R_refl. Qed.

Lemma satisfies_lift {A} (r : result A) : satisfies R (lift r).
Proof. intros h w. apply R_refl. Qed.

Lemma satisfies_bind {A B} (c : M A) (k : A -> M B) :
  satisfies R c -> (forall a, satisfies R (k a)) -> satisfies R (bind c k).
Proof.
  intros Hc Hk h w. rewrite bind_run. specialize (Hc h w).
  destruct (c h w) as [[a|e] h1 w1 e1]; cbn in *; [|exact Hc].
  specialize (Hk a h1 w1).
  destruct (k a h1 w1) as [v h2 w2 e2]; cbn in *.
  eapply R_trans; eassumption.
Qed.

Lemma satisfies_when (b : bool) (c : M unit) :
  satisfies R c -> satisfies R (when b c).
Proof. intros Hc. destruct b; [exact Hc | apply satisfies_ret]. Qed.

End Satisfies.

(** ** The frame of a call *)

Section Frame.
Context `{DateTimeLib}.
Implicit Types (h : Handler) (w : World) (c : Config).

Lemma count_app kind (e1 e2 : list event) :
  count kind (e1 ++ e2)%list = (count kind e1 + count kind e2)%nat.
Proof. unfold count. rewrite filter_app, length_app. reflexivity. Qed.

Lemma frame_refl h w : frame h w [] h w.
Proof. constructor; auto. Qed.

Lemma frame_trans h w e1 h1 w1 e2 h2 w2 :
  frame h w e1 h1 w1 -> frame h1 w1 e2 h2 w2 -> frame h w (e1 ++ e2)%list h2 w2.
Proof.
  intros [] []. constructor; try congruence.
  - intros Hr. rewrite frame_region1; [auto|]. rewrite frame_region0; auto.
  - rewrite count_app, frame_stdin1, frame_stdin0, drop_drop. reflexivity.
  - intros p Hp. rewrite frame_fs1, frame_fs0; congruence.
  - intros Hd. destruct (frame_disabled0 Hd) as [Hf0 Hc0].
    destruct frame_disabled1 as [Hf1 Hc1]; [congruence|].
    rewrite count_app, Hc0, Hc1, Hf1, Hf0. auto.
Qed.

(** An assignment to the tokens, the session or the looked-up config is
    within the frame. *)
Lemma frame_assign (f : Handler -> Handler) :
  (forall h, _profile (f h) = _profile h /\ _region (f h) = _region h /\
             _disk_cache_disable (f h) = _disk_cache_disable h /\
             _long_session_duration (f h) = _long_session_duration h /\
             _short_session_duration (f h) = _short_session_duration h /\
             _cache_file (f h) = _cache_file h) ->
  satisfies frame (assign f).
Proof.
  intros Hf h w. destruct (Hf h) as (? & ? & ? & ? & ? & ?).
  cbn. constructor; auto.
Qed.

Lemma frame__config_lookup : satisfies frame _config_lookup.
Proof.
  intros h w. unfold_run. cbn. run_all; frame_leaf.
  all: try (apply andb_prop in Heqb as [_ Hb]; apply negb_true_iff in Hb; congruence).
Qed.

Lemma frame_config : satisfies frame config.
Proof. intros h w. unfold_run. cbn. run_all; frame_leaf. Qed.

Lemma frame_check_long now tc : satisfies frame (check_long_session_token now tc).
Proof. intros h w. unfold_run. cbn. run_all; frame_leaf. Qed.

Lemma frame_check_short now : satisfies frame (check_short_session_token now).
Proof. intros h w. unfold_run. cbn. run_all; frame_leaf. Qed.

Lemma frame_new_long : satisfies frame new_long_session_token.
Proof.
  intros h w. unfold_run. cbn. run_all; frame_leaf.
  all: try (match goal with E : stdin _ = _ |- _ => rewrite E end; reflexivity).
Qed.

Lemma frame_new_short tc : satisfies frame (new_short_session_token tc).
Proof. intros h w. unfold_run. cbn. run_all; frame_leaf. Qed.

Lemma frame_session_from_short : satisfies frame session_from_short_token.
Proof. intros h w. unfold_run. cbn. run_all; frame_leaf. Qed.

Lemma frame__write_cache_file : satisfies frame _write_cache_file.
Proof.
  intros h w. unfold_run. cbn. run_all; frame_leaf.
  all: try (apply lookup_insert_ne; congruence).
  all: try (apply negb_true_iff in Heqb; congruence).
Qed.

End Frame.

Section FrameOfCalls.
Context `{DateTimeLib}.
Implicit Types (h : Handler) (w : World) (c : Config).

Lemma frame_assume_role_session : satisfies frame assume_role_session.
Proof.
  unfold assume_role_session.
  repeat first
    [ apply frame_check_long | apply frame_check_short | apply frame_new_long
    | apply frame_new_short | apply frame_session_from_short
    | apply frame__write_cache_file
    | apply (satisfies_when frame frame_refl)
    | apply (satisfies_the_world frame frame_refl)
    | apply (satisfies_bind frame frame_trans); [|intros ?]
    | progress cbv zeta ].
Qed.

Lemma frame__get_session : satisfies frame _get_session.
Proof.
  unfold _get_session.
  apply (satisfies_bind frame frame_trans); [apply frame__config_lookup|].
  intros _.
  apply (satisfies_bind frame frame_trans); [apply frame_config|].
  intros c. destruct (needs_assume_role c); [apply frame_assume_role_session|].
  apply (satisfies_bind frame frame_trans);
    [apply (satisfies_self frame frame_refl)|].
  intros h. apply frame_assign. intros h'. cbn. auto 10.
Qed.

(** X1.  No call of [_get_session], whether it returns or raises, changes
    the profile, the durations, the cache switch or the cache file of the
    handler; and a region that is set stays as it is, whatever region the
    profile has in the configuration. *)
Theorem get_session_keeps_settings h w :
  _profile (self_after (_get_session h w)) = _profile h /\
  _long_session_duration (self_after (_get_session h w)) = _long_session_duration h /\
  _short_session_duration (self_after (_get_session h w)) = _short_session_duration h /\
  _disk_cache_disable (self_after (_get_session h w)) = _disk_cache_disable h /\
  _cache_file (self_after (_get_session h w)) = _cache_file h /\
  (if truthy (of_optstr (_region h))
   then _region (self_after (_get_session h w)) = _region h
   else True).
Proof.
  destruct (frame__get_session h w). repeat split; try assumption.
  destruct (truthy (of_optstr (_region h))); auto.
Qed.

(** X2.  Of the world, [_get_session] changes nothing but standard input and
    the cache file, on every path: the configuration, the home directory,
    the clock and the token service stay; every file other than the cache file
    of the handler stays; and standard input loses exactly one line per MFA
    prompt. *)
Theorem get_session_touches_stdin_and_cache_file_only h w :
  profile_map (world_after (_get_session h w)) = profile_map w /\
  home (world_after (_get_session h w)) = home w /\
  utcnow (world_after (_get_session h w)) = utcnow w /\
  sts_get_session_token (world_after (_get_session h w)) = sts_get_session_token w /\
  sts_assume_role (world_after (_get_session h w)) = sts_assume_role w /\
  stdin (world_after (_get_session h w))
    = drop (count is_mfa_prompt (emitted (_get_session h w))) (stdin w) /\
  (forall p, _cache_file h <> Some p ->
             fs (world_after (_get_session h w)) !! p = fs w !! p).
Proof. destruct (frame__get_session h w). repeat split; assumption. Qed.

(** X3.  With the disk cache disabled no call writes a file, whether it
    returns or raises. *)
Theorem get_session_writes_nothing_when_disabled h w :
  _disk_cache_disable h = true ->
  fs (world_after (_get_session h w)) = fs w /\
  count is_cache_write (emitted (_get_session h w)) = 0%nat.
Proof. intros Hd. destruct (frame__get_session h w). auto. Qed.

End FrameOfCalls.

(** ** The order of the events *)

Section EventOrder.
Context `{DateTimeLib}.
Implicit Types (h : Handler) (w : World) (c : Config).

Lemma _config_lookup_events h w : emitted (_config_lookup h w) = [].
Proof. unfold_run. cbn. run_all. Qed.

(** Lines 158-174 cause nothing, a prompt, or a prompt and a request, and
    leave the short token alone. *)
Lemma new_long_events h w :
  let r := new_long_session_token h w in
  _short_session_token (self_after r) = _short_session_token h /\
  _cache_file (self_after r) = _cache_file h /\
  (emitted r = [] \/
   (emitted r = [MfaPrompt "MFA_Token: "] /\ is_ok (value r) = false) \/
   exists req, emitted r = [MfaPrompt "MFA_Token: "; GetSessionTokenCall req]).
Proof. unfold_run. cbn. run_all; repeat split; eauto. Qed.

(** Lines 176-196 cause nothing or one request; they cause one if they
    return without having found a short token. *)
Lemma new_short_events tc h w :
  let r := new_short_session_token tc h w in
  _cache_file (self_after r) = _cache_file h /\
  (emitted r = [] \/ exists req, emitted r = [AssumeRoleCall req]) /\
  (forall b, value r = Ok b -> truthy (_short_session_token h) = false ->
             exists req, emitted r = [AssumeRoleCall req]) /\
  (forall b, value r = Ok b -> truthy (_short_session_token h) = true ->
             b = tc /\ emitted r = []).
Proof. unfold_run. cbn. run_all; repeat split; intros; finish. Qed.

(** Lines 198-208 write at most once, and only with [token_changed] set. *)
Lemma finish_session_events tc h w :
  let r := finish_session tc h w in
  emitted r = [] \/
  (tc = true /\ exists cf, _cache_file h = Some cf /\
                           emitted r = [CacheWrite cf (cache_tokens_of (self_after r))]).
Proof.
  unfold finish_session. unfold_run. cbn. run_all; eauto.
  all: right; split; [reflexivity|]; eexists; split; reflexivity.
Qed.

(** The events of the role branch. *)
Lemma assume_role_session_event_order h w :
  exists prompt request role write,
    emitted (assume_role_session h w) = (prompt ++ request ++ role ++ write)%list /\
    (prompt = [] \/ prompt = [MfaPrompt "MFA_Token: "]) /\
    (request = [] \/ exists req, request = [GetSessionTokenCall req] /\ prompt <> []) /\
    (role = [] \/ exists req, role = [AssumeRoleCall req]) /\
    (write = [] \/
     exists cf, _cache_file h = Some cf /\ role <> [] /\
                write = [CacheWrite cf (cache_tokens_of
                                          (self_after (assume_role_session h w)))]).
Proof.
  rewrite assume_role_session_run, bind_run.
  set (now := utcnow w + timedelta_seconds 10).
  pose proof (check_long_shape now false h w) as S1.
  destruct (check_long_session_token now false h w) as [[tc|e] h2 w2 e1]; cbn in S1;
    destruct S1 as (-> & -> & S1).
  2:{ exists [], [], [], []. cbn. auto 10. }
  assert (Hf2 : _cache_file h2 = _cache_file h).
  { destruct S1 as [[-> _] | (_ & -> & _)]; reflexivity. }
  assert (Htc : tc = true -> truthy (_short_session_token h2) = false).
  { intros ->. destruct S1 as [[_ [Hv | [e Hv]]] | (_ & -> & _)];
      [discriminate | discriminate | reflexivity]. }
  clear S1. rewrite prepend_nil, after_long_check_run, bind_run.
  pose proof (check_short_shape now h2 w) as S2.
  destruct (check_short_session_token now h2 w) as [[[]|e] h3 w3 e2]; cbn in S2;
    destruct S2 as (-> & -> & S2).
  2:{ exists [], [], [], []. cbn. auto 10. }
  assert (Hf3 : _cache_file h3 = _cache_file h).
  { destruct S2 as [-> | [-> _]]; exact Hf2. }
  assert (Htc3 : tc = true -> truthy (_short_session_token h3) = false).
  { intros Ht. destruct S2 as [-> | [-> _]]; [auto | reflexivity]. }
  clear S2 Hf2 Htc. rewrite prepend_nil, bind_run.
  pose proof (new_long_events h3 w) as (Hs4 & Hf4 & He3).
  destruct (new_long_session_token h3 w) as [v4 h4 w4 e3]; cbn in Hs4, Hf4, He3.
  assert (Hlong : exists prompt request,
             e3 = (prompt ++ request)%list /\
             (prompt = [] \/ prompt = [MfaPrompt "MFA_Token: "]) /\
             (request = [] \/
              exists req, request = [GetSessionTokenCall req] /\ prompt <> [])).
  { destruct He3 as [-> | [[-> _] | [req ->]]].
    - exists [], []. auto.
    - exists [MfaPrompt "MFA_Token: "], []. auto.
    - exists [MfaPrompt "MFA_Token: "], [GetSessionTokenCall req].
      repeat split; eauto. }
  destruct Hlong as (prompt & request & -> & Hprompt & Hrequest). clear He3.
  destruct v4 as [[]|e].
  2:{ exists prompt, request, [], []. cbn. rewrite ?app_nil_r. auto 10. }
  rewrite bind_run.
  pose proof (new_short_events tc h4 w4) as (Hf5 & He4 & He4f & He4t).
  destruct (new_short_session_token tc h4 w4) as [[tc'|e] h5 w5 e4];
    cbn in Hf5, He4, He4f, He4t.
  2:{ exists prompt, request, e4, []. cbn. rewrite ?app_nil_r, <- ?app_assoc.
      repeat split; auto. }
  pose proof (finish_session_events tc' h5 w5) as He5.
  destruct (finish_session tc' h5 w5) as [v6 h6 w6 e5]; cbn in He5. cbn.
  exists prompt, request, e4, e5. rewrite <- ?app_assoc.
  repeat split; auto.
  destruct He5 as [-> | (-> & cf & Hcf & ->)]; [auto|].
  right. exists cf. split; [congruence|]. split; [|reflexivity].
  destruct (truthy (_short_session_token h4)) eqn:Hs.
  - destruct (He4t true eq_refl eq_refl) as [<- _].
    rewrite Hs4, Htc3 in Hs by reflexivity. discriminate.
  - destruct (He4f true eq_refl eq_refl) as [req ->]. discriminate.
Qed.

(** X4.  Every call, on every path, causes at most one MFA prompt, then at
    most one request for a session token (never without the prompt), then at
    most one request to assume the role, then at most one write of the cache
    file; the write only follows an assume-role request of the same call, goes
    to the cache file of the handler and dumps the two tokens as the handler
    holds them after the call. *)
Theorem get_session_event_order h w :
  exists prompt request role write,
    emitted (_get_session h w) = (prompt ++ request ++ role ++ write)%list /\
    (prompt = [] \/ prompt = [MfaPrompt "MFA_Token: "]) /\
    (request = [] \/ exists req, request = [GetSessionTokenCall req] /\ prompt <> []) /\
    (role = [] \/ exists req, role = [AssumeRoleCall req]) /\
    (write = [] \/
     exists cf, _cache_file h = Some cf /\ role <> [] /\
                write = [CacheWrite cf (cache_tokens_of (self_after (_get_session h w)))]).
Proof.
  destruct (get_scoped_config (profile_map w) {| ls_profile := _profile h |})
    as [c|e] eqn:Hc.
  2:{ rewrite (_get_session_unknown_profile _ _ _ Hc).
      exists [], [], [], []. cbn. auto 10. }
  destruct (needs_assume_role c) eqn:Hn.
  2:{ rewrite (_get_session_default_branch _ _ _ Hc Hn).
      exists [], [], [], []. cbn. auto 10. }
  rewrite (_get_session_role_branch _ _ _ Hc Hn).
  destruct (assume_role_session_event_order (looked_up c h) w)
    as (p & r & a & wr & E & Hp & Hr & Ha & Hw).
  exists p, r, a, wr. repeat split; auto.
  destruct Hw as [-> | (cf & Hcf & Hne & ->)]; [auto|].
  right. exists cf. repeat split; auto.
  destruct (looked_up_fields c h) as (_ & _ & _ & _ & _ & _ & _ & _ & _ & <-).
  exact Hcf.
Qed.

End EventOrder.

(** ** A call without cached tokens *)

Section FreshCall.
Context `{DateTimeLib}.
Implicit Types (h : Handler) (w : World) (c : Config).

(** Lines 158-174 when there is no long token, path by path. *)
Lemma new_long_absent h w c csp serial :
  truthy (_long_session_token h) = false ->
  _config h = Some c ->
  c !! "source_profile" = Some csp ->
  c !! "mfa_serial" = Some serial ->
  new_long_session_token h w =
  match profile_map w !! csp with
  | None => mkRun (Raise (ProfileNotFound csp)) h w []
  | Some _ =>
      match stdin w with
      | [] => mkRun (Raise EOFError) h w [MfaPrompt "MFA_Token: "]
      | code :: rest =>
          let req := get_session_token_request h csp serial code in
          match sts_get_session_token w req with
          | Raise e => mkRun (Raise e) h (set_stdin rest w)
                             [MfaPrompt "MFA_Token: "; GetSessionTokenCall req]
          | Ok cred => mkRun (Ok tt)
                             (set_long_session_token (long_token_of h csp cred) h)
                             (set_stdin rest w)
                             [MfaPrompt "MFA_Token: "; GetSessionTokenCall req]
          end
      end
  end.
Proof.
  intros El Hc Hsp Hserial. unfold get_session_token_request, long_token_of.
  unfold_run. cbn. rewrite El. cbn. rewrite Hc. cbn. rewrite Hsp, ?Hserial. cbn.
  run_all.
Qed.

(** The role branch from a handler without tokens, up to the refresh of the
    long token. *)
Lemma fresh_call_run h w c :
  get_scoped_config (profile_map w) {| ls_profile := _profile h |} = Ok c ->
  needs_assume_role c = true ->
  no_tokens h = true ->
  _get_session h w =
  bind new_long_session_token
       (fun _ => tc <- new_short_session_token false ;; finish_session tc)
       (looked_up c h) w.
Proof.
  intros Hc Hn Hno. apply andb_prop in Hno as [Hl Hs].
  apply negb_true_iff in Hl, Hs.
  destruct (looked_up_fields c h) as (_ & _ & _ & _ & _ & Ll & _ & Ls & _).
  rewrite (_get_session_role_branch _ _ _ Hc Hn), assume_role_session_run.
  rewrite (bind_ok _ _ _ _ _ _ _ _
             (check_long_absent _ false (looked_up c h) w ltac:(rewrite Ll; exact Hl))).
  rewrite prepend_nil, after_long_check_run.
  rewrite (bind_ok _ _ _ _ _ _ _ _
             (check_short_absent _ (looked_up c h) w ltac:(rewrite Ls; exact Hs))).
  rewrite prepend_nil. reflexivity.
Qed.

Lemma prepend_prepend {A} e1 e2 (r : Run A) :
  prepend e1 (prepend e2 r) = prepend (e1 ++ e2) r.
Proof. destruct r. cbn. rewrite app_assoc. reflexivity. Qed.

Lemma _write_cache_file_stdin h w :
  stdin (world_after (_write_cache_file h w)) = stdin w.
Proof. unfold_run. cbn. run_all. Qed.

(** Lines 198-204 on a short token that carries its credentials. *)
Lemma session_from_short_token_run h w key secret token :
  getitem (_short_session_token h) "aws_access_key_id" = Ok key ->
  getitem (_short_session_token h) "aws_secret_access_key" = Ok secret ->
  getitem (_short_session_token h) "aws_session_token" = Ok token ->
  session_from_short_token h w =
  mkRun (Ok tt)
        (set_session (Some (SessionFromCredentials (_region h) key secret token)) h) w [].
Proof.
  intros E1 E2 E3. unfold_run. cbn. rewrite E1. cbn. rewrite E2. cbn. rewrite E3.
  reflexivity.
Qed.

(** X5.  A handler without tokens whose long token cannot be obtained: the
    error reaches the caller, no role is assumed, nothing is written and the
    handler still holds no token.  If the source profile is unknown the call
    stops before the prompt; if no MFA code can be read it stops after the
    prompt, before any request; if the token service refuses the request, the
    code that was typed is used up. *)
Theorem failed_long_refresh_leaves_no_token h w c csp serial :
  get_scoped_config (profile_map w) {| ls_profile := _profile h |} = Ok c ->
  needs_assume_role c = true ->
  c !! "source_profile" = Some csp ->
  c !! "mfa_serial" = Some serial ->
  no_tokens h = true ->
  (profile_map w !! csp = None ->
   _get_session h w = mkRun (Raise (ProfileNotFound csp)) (looked_up c h) w []) /\
  (is_Some (profile_map w !! csp) -> stdin w = [] ->
   _get_session h w
   = mkRun (Raise EOFError) (looked_up c h) w [MfaPrompt "MFA_Token: "]) /\
  (forall code rest e,
     is_Some (profile_map w !! csp) -> stdin w = code :: rest ->
     sts_get_session_token w
       (get_session_token_request (looked_up c h) csp serial code) = Raise e ->
     _get_session h w
     = mkRun (Raise e) (looked_up c h) (set_stdin rest w)
             [MfaPrompt "MFA_Token: ";
              GetSessionTokenCall
                (get_session_token_request (looked_up c h) csp serial code)]) /\
  no_tokens (looked_up c h) = true.
Proof.
  intros Hc Hn Hcsp Hserial Hno.
  rewrite (fresh_call_run _ _ _ Hc Hn Hno), bind_run.
  destruct (looked_up_fields c h) as (_ & Lc & _ & _ & _ & Ll & _ & Ls & _).
  assert (Hno1 : no_tokens (looked_up c h) = true).
  { unfold no_tokens. rewrite Ll, Ls. exact Hno. }
  apply andb_prop in Hno as [Hl _]. apply negb_true_iff in Hl.
  rewrite (new_long_absent (looked_up c h) w c csp serial)
    by (rewrite ?Ll; assumption).
  repeat split; try exact Hno1.
  - intros ->. reflexivity.
  - intros [x ->] ->. reflexivity.
  - intros code rest e [x ->] -> He. cbv zeta. rewrite He. reflexivity.
Qed.

(** X6.  A handler without tokens gets its long token, but the token service
    refuses to assume the role: the error reaches the caller after the prompt
    and the two requests; the new long token stays in the handler, no short
    token is set, and nothing is written, so the long token is not in the
    cache file. *)
Theorem failed_role_assumption_keeps_long_token_unwritten
    h w c csp serial role_arn code rest cred e :
  get_scoped_config (profile_map w) {| ls_profile := _profile h |} = Ok c ->
  needs_assume_role c = true ->
  c !! "source_profile" = Some csp ->
  c !! "mfa_serial" = Some serial ->
  c !! "role_arn" = Some role_arn ->
  no_tokens h = true ->
  is_Some (profile_map w !! csp) ->
  stdin w = code :: rest ->
  sts_get_session_token w (get_session_token_request (looked_up c h) csp serial code)
    = Ok cred ->
  sts_assume_role w (assume_role_request_of (looked_up c h) cred role_arn) = Raise e ->
  _get_session h w
  = mkRun (Raise e)
          (set_long_session_token (long_token_of (looked_up c h) csp cred) (looked_up c h))
          (set_stdin rest w)
          [MfaPrompt "MFA_Token: ";
           GetSessionTokenCall (get_session_token_request (looked_up c h) csp serial code);
           AssumeRoleCall (assume_role_request_of (looked_up c h) cred role_arn)].
Proof.
  intros Hc Hn Hcsp Hserial Harn Hno [x Hx] Hin Hgst Har.
  rewrite (fresh_call_run _ _ _ Hc Hn Hno), bind_run.
  destruct (looked_up_fields c h) as (_ & Lc & _ & _ & _ & Ll & _ & Ls & _).
  apply andb_prop in Hno as [Hl Hs]. apply negb_true_iff in Hl, Hs.
  rewrite (new_long_absent (looked_up c h) w c csp serial)
    by (rewrite ?Ll; assumption).
  rewrite Hx, Hin. cbv zeta. rewrite Hgst. cbn [prepend].
  rewrite bind_run.
  rewrite (new_short_absent false _ _ c (PStr (AccessKeyId cred))
             (PStr (SecretAccessKey cred)) (PStr (SessionToken cred)) role_arn);
    try reflexivity; try assumption; [|cbn; rewrite Ls; exact Hs].
  unfold assume_role_request_of in Har. cbn in Har |- *.
  change (assume_role_request
            (set_long_session_token (long_token_of (looked_up c h) csp cred) (looked_up c h)))
    with (assume_role_request (looked_up c h)).
  rewrite Har. reflexivity.
Qed.

(** A handler without tokens whose two requests are granted: the call up to
    the write of the cache file. *)
Lemma first_call_run h w c csp serial role_arn code rest cred resp :
  get_scoped_config (profile_map w) {| ls_profile := _profile h |} = Ok c ->
  needs_assume_role c = true ->
  c !! "source_profile" = Some csp ->
  c !! "mfa_serial" = Some serial ->
  c !! "role_arn" = Some role_arn ->
  no_tokens h = true ->
  is_Some (profile_map w !! csp) ->
  stdin w = code :: rest ->
  sts_get_session_token w (get_session_token_request (looked_up c h) csp serial code)
    = Ok cred ->
  sts_assume_role w (assume_role_request_of (looked_up c h) cred role_arn) = Ok resp ->
  _get_session h w
  = prepend
      [MfaPrompt "MFA_Token: ";
       GetSessionTokenCall (get_session_token_request (looked_up c h) csp serial code);
       AssumeRoleCall (assume_role_request_of (looked_up c h) cred role_arn)]
      (_write_cache_file
         (set_session (Some (session_of (looked_up c h) resp))
            (set_short_session_token (short_token_of (looked_up c h) resp)
               (set_long_session_token (long_token_of (looked_up c h) csp cred)
                  (looked_up c h))))
         (set_stdin rest w)).
Proof.
  intros Hc Hn Hcsp Hserial Harn Hno [x Hx] Hin Hgst Har.
  rewrite (fresh_call_run _ _ _ Hc Hn Hno), bind_run.
  destruct (looked_up_fields c h) as (_ & Lc & _ & _ & _ & Ll & _ & Ls & _).
  apply andb_prop in Hno as [Hl Hs]. apply negb_true_iff in Hl, Hs.
  rewrite (new_long_absent (looked_up c h) w c csp serial)
    by (rewrite ?Ll; assumption).
  rewrite Hx, Hin. cbv zeta. rewrite Hgst. cbn [prepend].
  rewrite bind_run.
  rewrite (new_short_absent false _ _ c (PStr (AccessKeyId cred))
             (PStr (SecretAccessKey cred)) (PStr (SessionToken cred)) role_arn);
    try reflexivity; try assumption; [|cbn; rewrite Ls; exact Hs].
  unfold assume_role_request_of in Har.
  change (assume_role_request
            (set_long_session_token (long_token_of (looked_up c h) csp cred) (looked_up c h)))
    with (assume_role_request (looked_up c h)).
  change (sts_assume_role (set_stdin rest w)) with (sts_assume_role w).
  rewrite Har. cbv beta iota. unfold finish_session. rewrite bind_run.
  erewrite session_from_short_token_run by reflexivity.
  cbv beta iota. unfold when.
  rewrite prepend_nil, !prepend_prepend. reflexivity.
Qed.

(** X7.  A handler without tokens whose two requests are granted: the call
    prompts once, asks for a session token as the source profile, with the
    MFA serial of the profile, the code that was typed and the long duration
    of the handler, then assumes the role of the profile with the credentials
    it just got, under the session name [SessionHandlerAssumeRole] and with
    the short duration.  It stores both tokens, tagged with the source profile
    and with the profile and region of the handler, and makes the session out
    of the short credentials, all of which stays even if the write of the
    cache file fails.  The three events are followed by the write of both
    tokens if the disk cache is enabled and the write returns, and by nothing
    otherwise. *)
Theorem first_call_gets_both_tokens
    h w c csp serial role_arn code rest cred resp :
  get_scoped_config (profile_map w) {| ls_profile := _profile h |} = Ok c ->
  needs_assume_role c = true ->
  c !! "source_profile" = Some csp ->
  c !! "mfa_serial" = Some serial ->
  c !! "role_arn" = Some role_arn ->
  no_tokens h = true ->
  is_Some (profile_map w !! csp) ->
  stdin w = code :: rest ->
  sts_get_session_token w (get_session_token_request (looked_up c h) csp serial code)
    = Ok cred ->
  sts_assume_role w (assume_role_request_of (looked_up c h) cred role_arn) = Ok resp ->
  let run := _get_session h w in
  let issued :=
    [MfaPrompt "MFA_Token: ";
     GetSessionTokenCall (get_session_token_request (looked_up c h) csp serial code);
     AssumeRoleCall (assume_role_request_of (looked_up c h) cred role_arn)] in
  _long_session_token (self_after run) = long_token_of (looked_up c h) csp cred /\
  _short_session_token (self_after run) = short_token_of (looked_up c h) resp /\
  _session (self_after run) = Some (session_of (looked_up c h) resp) /\
  stdin (world_after run) = rest /\
  (value run = Ok tt -> _disk_cache_disable h = false ->
   exists cf, _cache_file h = Some cf /\
     emitted run = (issued ++ [CacheWrite cf (cache_tokens_of (self_after run))])%list) /\
  ((exists e, value run = Raise e) \/ _disk_cache_disable h = true ->
   emitted run = issued /\ fs (world_after run) = fs w).
Proof.
  intros Hc Hn Hcsp Hserial Harn Hno Hx Hin Hgst Har run issued. subst run issued.
  rewrite (first_call_run h w c csp serial role_arn code rest cred resp) by assumption.
  destruct (looked_up_fields c h) as (_ & _ & _ & _ & Ld & _ & _ & _ & _ & Lf).
  set (h4 := set_session _ _).
  assert (Hd4 : _disk_cache_disable h4 = _disk_cache_disable h) by exact Ld.
  assert (Hf4 : _cache_file h4 = _cache_file h) by exact Lf.
  assert (Hl4 : _long_session_token h4 = long_token_of (looked_up c h) csp cred)
    by reflexivity.
  assert (Hs4 : _short_session_token h4 = short_token_of (looked_up c h) resp)
    by reflexivity.
  assert (Hss4 : _session h4 = Some (session_of (looked_up c h) resp)) by reflexivity.
  clearbody h4.
  pose proof (_write_cache_file_shape h4 (set_stdin rest w)) as S.
  pose proof (_write_cache_file_disabled h4 (set_stdin rest w)) as D.
  pose proof (_write_cache_file_stdin h4 (set_stdin rest w)) as St.
  destruct (_write_cache_file h4 (set_stdin rest w)) as [v h5 w5 e5].
  cbn in S, St |- *. destruct S as (-> & Hraise & Hok).
  rewrite Hd4 in D, Hok.
  split; [exact Hl4|]. split; [exact Hs4|]. split; [exact Hss4|].
  split; [exact St|]. split.
  - intros -> Hd. destruct (Hok eq_refl Hd) as (cf & rd & Hcf & -> & _).
    exists cf. split; [congruence | reflexivity].
  - intros [[e ->] | Hd].
    + destruct (Hraise e eq_refl) as [-> ->]. split; reflexivity.
    + specialize (D Hd). injection D as _ -> ->. split; reflexivity.
Qed.

End FreshCall.

(** ** The role-assumption machinery *)

Section Machinery.
Context `{DateTimeLib}.
Implicit Types (h : Handler) (w : World) (c : Config).

(** Lines 136-147 on a long token that is not valid: if they return, no long
    token is left, and the tokens are as they were or both dropped. *)
Lemma check_long_invalid now tc h w c csp b :
  _config h = Some c -> c !! "source_profile" = Some csp ->
  valid_long_token now csp (_long_session_token h) = false ->
  value (check_long_session_token now tc h w) = Ok b ->
  truthy (_long_session_token (self_after (check_long_session_token now tc h w))) = false /\
  (self_after (check_long_session_token now tc h w) = h \/
   self_after (check_long_session_token now tc h w) = clear_tokens h).
Proof.
  intros Hc Hsp Hnv. unfold valid_long_token in Hnv. unfold_run. cbn.
  destruct (truthy (_long_session_token h)) eqn:Ht; cbn; [|auto].
  destruct (token_expire (_long_session_token h)) as [t|e] eqn:Et; cbn; [|discriminate].
  destruct (Z.leb_spec t now) as [Hle|Hlt]; cbn; [auto|].
  destruct (getitem (_long_session_token h) "source_profile") as [sp|e] eqn:Es; cbn;
    [|discriminate].
  rewrite Hc. cbn. rewrite Hsp. cbn.
  destruct (ne_str sp csp) eqn:Hne; cbn; [auto|].
  apply Z.ltb_lt in Hlt. rewrite Hlt in Hnv. discriminate.
Qed.

(** Lines 149-156 on a short token that is not valid: if they return, no
    short token is left. *)
Lemma check_short_invalid now h w :
  valid_short_token now (_profile h) (_short_session_token h) = false ->
  value (check_short_session_token now h w) = Ok tt ->
  truthy (_short_session_token (self_after (check_short_session_token now h w))) = false.
Proof.
  intros Hnv. unfold valid_short_token in Hnv. unfold_run. cbn.
  destruct (truthy (_short_session_token h)) eqn:Ht; cbn; [|auto].
  destruct (token_expire (_short_session_token h)) as [t|e] eqn:Et; cbn; [|discriminate].
  destruct (Z.leb_spec t now) as [Hle|Hlt]; cbn; [auto|].
  destruct (getitem (_short_session_token h) "profile") as [p|e] eqn:Ep; cbn;
    [|discriminate].
  destruct (ne_optstr p (_profile h)) eqn:Hne; cbn; [auto|].
  apply Z.ltb_lt in Hlt. rewrite Hlt in Hnv. discriminate.
Qed.

(** A token that is not there is not valid. *)
Lemma valid_short_token_truthy now p tok :
  valid_short_token now p tok = true -> truthy tok = true.
Proof.
  unfold valid_short_token.
  destruct (token_expire tok) as [t|e] eqn:Et; [|discriminate].
  intros _. apply (token_expire_truthy _ _ Et).
Qed.

Lemma valid_long_token_truthy now sp tok :
  valid_long_token now sp tok = true -> truthy tok = true.
Proof.
  unfold valid_long_token.
  destruct (token_expire tok) as [t|e] eqn:Et; [|discriminate].
  intros _. apply (token_expire_truthy _ _ Et).
Qed.

Lemma emitted_prepend {A} evs (r : Run A) :
  emitted (prepend evs r) = (evs ++ emitted r)%list.
Proof. destruct r. reflexivity. Qed.

(** With a valid long token the role branch neither prompts nor requests a
    session token, on any path. *)
Lemma valid_long_token_no_prompt h w c csp :
  _config h = Some c -> c !! "source_profile" = Some csp ->
  valid_long_token (utcnow w + timedelta_seconds 10) csp (_long_session_token h) = true ->
  count is_mfa_prompt (emitted (assume_role_session h w)) = 0%nat /\
  count is_get_session_token_call (emitted (assume_role_session h w)) = 0%nat.
Proof.
  intros Hc Hsp Hvl. set (now := utcnow w + timedelta_seconds 10) in *.
  rewrite assume_role_session_run. fold now.
  rewrite (bind_ok _ _ _ _ _ _ _ _ (check_long_valid now false h w c csp Hc Hsp Hvl)),
    prepend_nil, after_long_check_run, bind_run.
  pose proof (check_short_shape now h w) as S2.
  destruct (check_short_session_token now h w) as [[[]|e] h3 w3 e2]; cbn in S2;
    destruct S2 as (-> & -> & S2); [|split; reflexivity].
  assert (Hl3 : truthy (_long_session_token h3) = true).
  { pose proof (valid_long_token_truthy _ _ _ Hvl) as Ht.
    destruct S2 as [-> | [-> _]]; exact Ht. }
  rewrite prepend_nil, (bind_ok _ _ _ _ _ _ _ _ (new_long_present h3 w Hl3)),
    prepend_nil, bind_run.
  pose proof (new_short_shape false h3 w) as S4.
  destruct (new_short_session_token false h3 w) as [[tc'|e] h5 w5 e4]; cbn in S4;
    destruct S4 as (_ & Hp4 & Hg4 & _); [|split; assumption].
  pose proof (finish_session_events tc' h5 w5) as S5. cbv zeta in S5.
  rewrite !emitted_prepend, !count_app. unfold count in *. cbn [emitted].
  rewrite Hp4, Hg4.
  destruct S5 as [-> | (_ & cf & _ & ->)]; split; reflexivity.
Qed.

(** Without one, a role branch that returns has prompted once and requested
    one session token. *)
Lemma invalid_long_token_prompts h w c csp :
  _config h = Some c -> c !! "source_profile" = Some csp ->
  valid_long_token (utcnow w + timedelta_seconds 10) csp (_long_session_token h) = false ->
  value (assume_role_session h w) = Ok tt ->
  count is_mfa_prompt (emitted (assume_role_session h w)) = 1%nat /\
  count is_get_session_token_call (emitted (assume_role_session h w)) = 1%nat.
Proof.
  intros Hc Hsp Hnv Hv.
  destruct (assume_role_session_ok_inv h w Hv)
    as (tc & h2 & w2 & e1 & h3 & w3 & e2 & h4 & w4 & e3 & tc' & h5 & w5 & e4
        & E1 & E2 & E3 & E4 & Hfin & ->).
  set (now := utcnow w + timedelta_seconds 10) in *.
  pose proof (check_long_invalid now false h w c csp tc Hc Hsp Hnv) as I1.
  pose proof (check_long_shape now false h w) as S1.
  rewrite E1 in I1, S1. cbn in I1, S1.
  destruct (I1 eq_refl) as [Hl2 _]. destruct S1 as (-> & -> & _). clear I1.
  pose proof (check_short_shape now h2 w) as S2.
  rewrite E2 in S2. cbn in S2. destruct S2 as (-> & -> & S2).
  assert (Hl3 : truthy (_long_session_token h3) = false).
  { destruct S2 as [-> | [-> _]]; exact Hl2. }
  pose proof (new_long_shape h3 w) as S3.
  rewrite E3 in S3. cbn in S3. destruct S3 as (_ & _ & _ & _ & S3 & _).
  destruct (S3 eq_refl Hl3) as (req & cred & tok & -> & _).
  pose proof (new_short_shape tc h4 w4) as S4.
  rewrite E4 in S4. cbn in S4. destruct S4 as (_ & Hp4 & Hg4 & _).
  pose proof (finish_session_events tc' h5 w5) as S5. cbv zeta in S5.
  rewrite !emitted_prepend, !count_app. unfold count in *. cbn [emitted].
  rewrite Hp4, Hg4.
  destruct S5 as [-> | (_ & cf & _ & ->)]; split; reflexivity.
Qed.

(** Without a valid short token, a role branch that returns has assumed the
    role once, and has then written the cache file once unless the disk cache
    is disabled. *)
Lemma invalid_short_token_assumes_role h w :
  valid_short_token (utcnow w + timedelta_seconds 10) (_profile h)
                    (_short_session_token h) = false ->
  value (assume_role_session h w) = Ok tt ->
  count is_assume_role_call (emitted (assume_role_session h w)) = 1%nat /\
  count is_cache_write (emitted (assume_role_session h w))
  = (if _disk_cache_disable h then 0%nat else 1%nat).
Proof.
  intros Hnv Hv.
  destruct (assume_role_session_ok_inv h w Hv)
    as (tc & h2 & w2 & e1 & h3 & w3 & e2 & h4 & w4 & e3 & tc' & h5 & w5 & e4
        & E1 & E2 & E3 & E4 & Hfin & ->).
  set (now := utcnow w + timedelta_seconds 10) in *.
  pose proof (check_long_shape now false h w) as S1.
  pose proof (frame_check_long now false h w) as F1.
  rewrite E1 in S1, F1. cbn in S1, F1. destruct S1 as (-> & -> & S1).
  assert (Hnv2 : valid_short_token now (_profile h2) (_short_session_token h2) = false).
  { destruct S1 as [[-> _] | (_ & -> & _)]; [exact Hnv | reflexivity]. }
  pose proof (check_short_invalid now h2 w Hnv2) as I2.
  pose proof (check_short_shape now h2 w) as S2.
  pose proof (frame_check_short now h2 w) as F2.
  rewrite E2 in I2, S2, F2. cbn in I2, S2, F2.
  specialize (I2 eq_refl). destruct S2 as (-> & -> & _).
  pose proof (new_long_shape h3 w) as S3.
  pose proof (frame_new_long h3 w) as F3.
  rewrite E3 in S3, F3. cbn in S3, F3. destruct S3 as (_ & Hs4 & Ha3 & Hc3 & _).
  rewrite <- Hs4 in I2.
  pose proof (new_short_shape tc h4 w4) as S4.
  pose proof (frame_new_short tc h4 w4) as F4.
  rewrite E4 in S4, F4. cbn in S4, F4. destruct S4 as (-> & _ & _ & _ & _ & S4 & _).
  destruct (S4 tc' eq_refl I2) as (req & resp & -> & -> & _ & _).
  assert (Hd5 : _disk_cache_disable h5 = _disk_cache_disable h).
  { destruct F1, F2, F3, F4. congruence. }
  pose proof (finish_session_shape true h5 w4) as S5. cbv zeta in S5.
  destruct S5 as (_ & _ & Hoff & _ & Hon).
  rewrite !emitted_prepend, !count_app. unfold count in *. cbn [emitted].
  rewrite Ha3, Hc3, <- Hd5.
  destruct (_disk_cache_disable h5) eqn:Hd.
  - destruct (Hoff (or_intror eq_refl)) as [-> _]. split; reflexivity.
  - destruct (Hon eq_refl eq_refl Hfin) as (cf & rd & _ & -> & _). split; reflexivity.
Qed.

(** C4. Let the profile of the handler resolve to the section [c].  The call
    causes an event (a prompt, a request to the token service, a cache write)
    only if [c] has [role_arn], [mfa_serial] and [source_profile]; when it
    returns, the session is made of assumed-role credentials exactly if [c]
    has the three; and if one is missing the call returns with a session on
    the default credential chain, without any event and with the world and
    both tokens untouched.  If [c] has the three, the machinery runs: with a
    valid long token there is no prompt and no request for a session token,
    and with a valid short token as well there is no event; a call that
    returns has prompted once and requested one session token if the long
    token was not valid, and has assumed the role once, and then written the
    cache file unless the disk cache is disabled, if the short token was not
    valid; and on a handler without tokens, with an MFA code on standard
    input and a token service that grants both requests, the call is the
    prompt, the request for a session token, the request to assume the role
    and the write of the cache file. *)
Theorem role_assumption_iff_config_complete h w c :
  get_scoped_config (profile_map w) {| ls_profile := _profile h |} = Ok c ->
  let run := _get_session h w in
  let complete := is_Some (c !! "role_arn") /\ is_Some (c !! "mfa_serial") /\
                  is_Some (c !! "source_profile") in
  (complete -> run = assume_role_session (looked_up c h) w) /\
  (emitted run <> [] -> complete) /\
  (value run = Ok tt ->
   (is_credential_session (_session (self_after run)) = true <-> complete)) /\
  (~ complete ->
   value run = Ok tt /\ emitted run = [] /\ world_after run = w /\
   _session (self_after run)
     = Some (SessionFromBotocore (Some {| ls_profile := _profile h |})) /\
   _long_session_token (self_after run) = _long_session_token h /\
   _short_session_token (self_after run) = _short_session_token h) /\
  (complete ->
   forall csp, c !! "source_profile" = Some csp ->
   let now := utcnow w + timedelta_seconds 10 in
   (valid_long_token now csp (_long_session_token h) = true ->
    count is_mfa_prompt (emitted run) = 0%nat /\
    count is_get_session_token_call (emitted run) = 0%nat /\
    (valid_short_token now (_profile h) (_short_session_token h) = true ->
     emitted run = [])) /\
   (value run = Ok tt ->
    valid_long_token now csp (_long_session_token h) = false ->
    count is_mfa_prompt (emitted run) = 1%nat /\
    count is_get_session_token_call (emitted run) = 1%nat) /\
   (value run = Ok tt ->
    valid_short_token now (_profile h) (_short_session_token h) = false ->
    count is_assume_role_call (emitted run) = 1%nat /\
    count is_cache_write (emitted run)
    = (if _disk_cache_disable h then 0%nat else 1%nat)) /\
   (no_tokens h = true ->
    forall serial role_arn code rest cred resp,
      c !! "mfa_serial" = Some serial ->
      c !! "role_arn" = Some role_arn ->
      is_Some (profile_map w !! csp) ->
      stdin w = code :: rest ->
      sts_get_session_token w
        (get_session_token_request (looked_up c h) csp serial code) = Ok cred ->
      sts_assume_role w (assume_role_request_of (looked_up c h) cred role_arn)
        = Ok resp ->
      run = prepend
              [MfaPrompt "MFA_Token: ";
               GetSessionTokenCall
                 (get_session_token_request (looked_up c h) csp serial code);
               AssumeRoleCall (assume_role_request_of (looked_up c h) cred role_arn)]
              (_write_cache_file
                 (set_session (Some (session_of (looked_up c h) resp))
                    (set_short_session_token (short_token_of (looked_up c h) resp)
                       (set_long_session_token
                          (long_token_of (looked_up c h) csp cred) (looked_up c h))))
                 (set_stdin rest w)))).
Proof.
  intros Hc run complete. subst run complete.
  rewrite <- needs_assume_role_spec.
  destruct (looked_up_fields c h)
    as (Lp & Lc & _ & _ & Ld & Hl & _ & Hs & _).
  destruct (needs_assume_role c) eqn:Hn.
  - pose proof (first_call_run h w c) as Hfirst.
    pose proof (get_session_with_valid_tokens h w c) as Hvalid.
    rewrite (_get_session_role_branch _ _ _ Hc Hn) in *.
    split; [done|]. split; [done|]. split.
    { intros Hv. split; [done|]. intros _. apply assume_role_session_ok, Hv. }
    split; [intros Hcontra; exfalso; apply Hcontra; reflexivity|].
    intros _ csp Hcsp now. subst now.
    rewrite <- Hl, <- Hs, <- Lp, <- Ld.
    split; [|split; [|split]].
    + intros Hvl.
      destruct (valid_long_token_no_prompt (looked_up c h) w c csp Lc Hcsp Hvl)
        as [Hp Hg].
      split; [exact Hp|]. split; [exact Hg|].
      intros Hvs. rewrite Hl in Hvl. rewrite Lp, Hs in Hvs.
      apply (Hvalid csp Hc Hn Hcsp Hvl Hvs).
    + intros Hv Hnv.
      apply (invalid_long_token_prompts (looked_up c h) w c csp Lc Hcsp Hnv Hv).
    + intros Hv Hnv.
      apply (invalid_short_token_assumes_role (looked_up c h) w Hnv Hv).
    + intros Hno serial role_arn code rest cred resp
        Hserial Harn Hx Hin Hgst Har.
      apply (Hfirst csp serial role_arn code rest cred resp); assumption.
  - rewrite (_get_session_default_branch _ _ _ Hc Hn). cbn.
    repeat split; try done.
Qed.

End Machinery.

(** ** Tokens that expire, and tokens that cannot be read *)

Section TokenChecks.
Context `{DateTimeLib}.
Implicit Types (h : Handler) (w : World) (c : Config).

(** A long token that has ten seconds or less to live is dropped with the
    short token, and [token_changed] is set. *)
Lemma check_long_expired now tc h w t :
  token_expire (_long_session_token h) = Ok t -> t <= now ->
  check_long_session_token now tc h w = mkRun (Ok true) (clear_tokens h) w [].
Proof.
  intros Et Hle. unfold_run. cbn. rewrite (token_expire_truthy _ _ Et), Et. cbn.
  destruct (Z.leb_spec t now); [reflexivity | lia].
Qed.

Lemma check_short_expired now h w t :
  token_expire (_short_session_token h) = Ok t -> t <= now ->
  check_short_session_token now h w
  = mkRun (Ok tt) (set_short_session_token PNone h) w [].
Proof.
  intros Et Hle. unfold_run. cbn. rewrite (token_expire_truthy _ _ Et), Et. cbn.
  destruct (Z.leb_spec t now); [reflexivity | lia].
Qed.

(** A long token whose expiry cannot be read stops the check. *)
Lemma check_long_unreadable now tc h w e :
  truthy (_long_session_token h) = true ->
  token_expire (_long_session_token h) = Raise e ->
  check_long_session_token now tc h w = mkRun (Raise e) h w [].
Proof. intros Ht Et. unfold_run. cbn. rewrite Ht, Et. reflexivity. Qed.

(** Looking the profile up twice is looking it up once. *)
Lemma looked_up_region c h h' :
  _region h' = _region (looked_up c h) ->
  _region (looked_up c h') = _region h'.
Proof.
  unfold looked_up. intros E.
  destruct (bool_decide (is_Some (c !! "region"))) eqn:Hin; cbn in *; [|reflexivity].
  destruct (truthy (of_optstr (_region h'))) eqn:Ht'; cbn; [reflexivity|].
  destruct (truthy (of_optstr (_region h))) eqn:Ht; cbn in E.
  - rewrite E, Ht in Ht'. discriminate.
  - symmetry. exact E.
Qed.

(** X8.  A long token that expires within the next ten seconds, the bound
    included, counts as expired: the call runs as it does on a handler without
    tokens, whatever the short token is. *)
Theorem expired_long_token_drops_both_tokens h w c t :
  get_scoped_config (profile_map w) {| ls_profile := _profile h |} = Ok c ->
  needs_assume_role c = true ->
  token_expire (_long_session_token h) = Ok t ->
  t <= utcnow w + timedelta_seconds 10 ->
  _get_session h w = _get_session (clear_tokens h) w.
Proof.
  intros Hc Hn Ht Hle.
  destruct (looked_up_fields c h) as (_ & _ & _ & _ & _ & Ll & _).
  rewrite (_get_session_role_branch _ _ _ Hc Hn).
  rewrite (_get_session_role_branch (clear_tokens h) w c) by assumption.
  rewrite looked_up_clear_tokens, !assume_role_session_run.
  rewrite (bind_ok _ _ _ _ _ _ _ _
             (check_long_expired _ false (looked_up c h) w t
                ltac:(rewrite Ll; exact Ht) Hle)).
  rewrite (bind_ok _ _ _ _ _ _ _ _
             (check_long_absent _ false (clear_tokens (looked_up c h)) w eq_refl)).
  f_equal. apply after_long_check_forgets_flag. reflexivity.
Qed.

(** X9.  With a valid long token that carries its credentials, a short token
    that expires within the next ten seconds is replaced: the call sends one
    assume-role request made of the long token's credentials, without a
    prompt; if the token service refuses, the error reaches the caller and
    the handler is left without a short token; otherwise the new short token
    and its session are stored and the call ends with the write of the cache
    file. *)
Theorem expired_short_token_is_replaced h w c csp role_arn key secret token ts :
  get_scoped_config (profile_map w) {| ls_profile := _profile h |} = Ok c ->
  needs_assume_role c = true ->
  c !! "source_profile" = Some csp ->
  c !! "role_arn" = Some role_arn ->
  valid_long_token (utcnow w + timedelta_seconds 10) csp (_long_session_token h) = true ->
  getitem (_long_session_token h) "aws_access_key_id" = Ok key ->
  getitem (_long_session_token h) "aws_secret_access_key" = Ok secret ->
  getitem (_long_session_token h) "aws_session_token" = Ok token ->
  token_expire (_short_session_token h) = Ok ts ->
  ts <= utcnow w + timedelta_seconds 10 ->
  let req := assume_role_request h key secret token role_arn in
  _get_session h w
  = match sts_assume_role w req with
    | Raise e =>
        mkRun (Raise e) (set_short_session_token PNone (looked_up c h)) w
              [AssumeRoleCall req]
    | Ok resp =>
        prepend [AssumeRoleCall req]
          (_write_cache_file
             (set_session (Some (session_of (looked_up c h) resp))
                (set_short_session_token (short_token_of (looked_up c h) resp)
                   (looked_up c h)))
             w)
    end.
Proof.
  intros Hc Hn Hcsp Harn Hvl Hk Hs Ht Hts Hle req. subst req.
  destruct (looked_up_fields c h) as (Lp & Lc & _ & _ & _ & Ll & _ & Ls & Ld & _).
  set (h1 := looked_up c h) in *.
  set (now := utcnow w + timedelta_seconds 10) in *.
  rewrite (_get_session_role_branch _ _ _ Hc Hn), assume_role_session_run.
  fold h1 now.
  rewrite (bind_ok _ _ _ _ _ _ _ _ (check_long_valid now false h1 w c csp Lc Hcsp
             ltac:(rewrite Ll; exact Hvl))), prepend_nil.
  rewrite after_long_check_run.
  rewrite (bind_ok _ _ _ _ _ _ _ _
             (check_short_expired now h1 w ts ltac:(rewrite Ls; exact Hts) Hle)),
    prepend_nil.
  set (h2 := set_short_session_token PNone h1) in *.
  assert (Hlt : truthy (_long_session_token h2) = true).
  { cbn. rewrite Ll. apply (getitem_truthy _ _ _ Hk). }
  rewrite (bind_ok _ _ _ _ _ _ _ _ (new_long_present h2 w Hlt)), prepend_nil.
  rewrite bind_run.
  rewrite (new_short_absent false h2 w c key secret token role_arn);
    try (cbn; rewrite ?Ll; assumption); try reflexivity.
  replace (assume_role_request h2 key secret token role_arn)
    with (assume_role_request h key secret token role_arn)
    by (unfold assume_role_request; cbn; rewrite Ld; reflexivity).
  destruct (sts_assume_role w _) as [resp|e]; [|reflexivity].
  unfold finish_session. rewrite bind_run.
  erewrite session_from_short_token_run by reflexivity.
  cbv beta iota. unfold when. rewrite prepend_nil. reflexivity.
Qed.

(** X10.  A cached long token whose expiry cannot be read (no [expire] field,
    an [expire] that is not a string or does not parse, or a token that is not
    an object at all) makes the call raise before anything happens.  The token
    stays in the handler, so every later call on a profile that assumes a role
    raises the same error, again without any event. *)
Theorem unreadable_long_token_fails_every_call h w c e :
  get_scoped_config (profile_map w) {| ls_profile := _profile h |} = Ok c ->
  needs_assume_role c = true ->
  truthy (_long_session_token h) = true ->
  token_expire (_long_session_token h) = Raise e ->
  let run := _get_session h w in
  run = mkRun (Raise e) (looked_up c h) w [] /\
  forall w' c',
    get_scoped_config (profile_map w') {| ls_profile := _profile h |} = Ok c' ->
    needs_assume_role c' = true ->
    let again := _get_session (self_after run) w' in
    value again = Raise e /\ emitted again = [] /\ world_after again = w' /\
    _long_session_token (self_after again) = _long_session_token h.
Proof.
  intros Hc Hn Ht Et run.
  assert (Hrun : forall h0 w0 c0,
             get_scoped_config (profile_map w0) {| ls_profile := _profile h0 |} = Ok c0 ->
             needs_assume_role c0 = true ->
             _long_session_token h0 = _long_session_token h ->
             _get_session h0 w0 = mkRun (Raise e) (looked_up c0 h0) w0 []).
  { intros h0 w0 c0 Hc0 Hn0 El.
    destruct (looked_up_fields c0 h0) as (_ & _ & _ & _ & _ & Ll & _).
    rewrite (_get_session_role_branch _ _ _ Hc0 Hn0), assume_role_session_run.
    apply bind_raise, check_long_unreadable; rewrite Ll, El; assumption. }
  subst run. rewrite (Hrun h w c Hc Hn eq_refl). split; [reflexivity|].
  intros w' c' Hc' Hn' again. subst again. cbn [self_after].
  destruct (looked_up_fields c h) as (Lp & _ & _ & _ & _ & Ll & _).
  rewrite (Hrun (looked_up c h) w' c') by (rewrite ?Lp; assumption).
  cbn. destruct (looked_up_fields c' (looked_up c h)) as (_ & _ & _ & _ & _ & -> & _).
  auto.
Qed.

(** Lines 198-208, when they return, have made the session out of the three
    credential fields of the short token. *)
Lemma finish_session_ok tc h w :
  value (finish_session tc h w) = Ok tt ->
  exists key secret token,
    getitem (_short_session_token h) "aws_access_key_id" = Ok key /\
    getitem (_short_session_token h) "aws_secret_access_key" = Ok secret /\
    getitem (_short_session_token h) "aws_session_token" = Ok token /\
    self_after (finish_session tc h w)
    = set_session (Some (SessionFromCredentials (_region h) key secret token)) h.
Proof.
  unfold finish_session. rewrite bind_run.
  destruct (getitem (_short_session_token h) "aws_access_key_id") as [key|e1] eqn:E1.
  2:{ unfold_run. cbn. rewrite E1. discriminate. }
  destruct (getitem (_short_session_token h) "aws_secret_access_key") as [secret|e2] eqn:E2.
  2:{ unfold_run. cbn. rewrite E1. cbn. rewrite E2. discriminate. }
  destruct (getitem (_short_session_token h) "aws_session_token") as [token|e3] eqn:E3.
  2:{ unfold_run. cbn. rewrite E1. cbn. rewrite E2. cbn. rewrite E3. discriminate. }
  rewrite (session_from_short_token_run h w key secret token E1 E2 E3).
  cbv beta iota. rewrite prepend_nil. intros _.
  exists key, secret, token. repeat split.
  destruct tc; [|reflexivity]. apply _write_cache_file_shape.
Qed.

(** X11.  Whenever a call on a profile that assumes a role returns, the
    session of the handler is made of the three credential fields of the short
    token that the handler holds then, and of its region. *)
Theorem session_is_made_of_the_short_token h w c :
  get_scoped_config (profile_map w) {| ls_profile := _profile h |} = Ok c ->
  needs_assume_role c = true ->
  value (_get_session h w) = Ok tt ->
  let h' := self_after (_get_session h w) in
  exists key secret token,
    getitem (_short_session_token h') "aws_access_key_id" = Ok key /\
    getitem (_short_session_token h') "aws_secret_access_key" = Ok secret /\
    getitem (_short_session_token h') "aws_session_token" = Ok token /\
    _session h' = Some (SessionFromCredentials (_region h') key secret token).
Proof.
  intros Hc Hn. rewrite (_get_session_role_branch _ _ _ Hc Hn).
  rewrite assume_role_session_run. intros Hv h'. subst h'.
  apply bind_ok_inv in Hv as (tc & h1 & w1 & e1 & _ & -> & Hv).
  rewrite after_long_check_run in *.
  apply bind_ok_inv in Hv as ([] & h2 & w2 & e2 & _ & -> & Hv).
  apply bind_ok_inv in Hv as ([] & h3 & w3 & e3 & _ & -> & Hv).
  apply bind_ok_inv in Hv as (tc' & h4 & w4 & e4 & _ & -> & Hv).
  repeat match goal with
         | |- context [self_after (prepend ?e ?r)] =>
             destruct (prepend_fields e r) as (_ & -> & _)
         end.
  destruct (finish_session_ok tc' h4 w4 Hv) as (key & secret & token & E1 & E2 & E3 & ->).
  exists key, secret, token. cbn. auto.
Qed.

(** A call that finds both tokens valid is lines 198-204. *)
Lemma valid_tokens_run h w c csp :
  get_scoped_config (profile_map w) {| ls_profile := _profile h |} = Ok c ->
  needs_assume_role c = true ->
  c !! "source_profile" = Some csp ->
  valid_long_token (utcnow w + timedelta_seconds 10) csp (_long_session_token h) = true ->
  valid_short_token (utcnow w + timedelta_seconds 10) (_profile h)
                    (_short_session_token h) = true ->
  _get_session h w = finish_session false (looked_up c h) w.
Proof.
  intros Hc Hn Hcsp Hvl Hvs.
  destruct (looked_up_fields c h) as (Lp & Lc & _ & _ & _ & Ll & _ & Ls & _).
  set (h1 := looked_up c h) in *.
  set (now := utcnow w + timedelta_seconds 10) in *.
  rewrite (_get_session_role_branch _ _ _ Hc Hn), assume_role_session_run.
  fold h1 now.
  rewrite (bind_ok _ _ _ _ _ _ _ _ (check_long_valid now false h1 w c csp Lc Hcsp
             ltac:(rewrite Ll; exact Hvl))), prepend_nil.
  rewrite after_long_check_run.
  rewrite (bind_ok _ _ _ _ _ _ _ _ (check_short_valid now h1 w
             ltac:(rewrite Ls, Lp; exact Hvs))), prepend_nil.
  assert (Hlt : truthy (_long_session_token h1) = true).
  { rewrite Ll. unfold valid_long_token in Hvl.
    destruct (token_expire (_long_session_token h)) eqn:Et; [|discriminate].
    apply (token_expire_truthy _ _ Et). }
  assert (Hst : truthy (_short_session_token h1) = true).
  { rewrite Ls. unfold valid_short_token in Hvs.
    destruct (token_expire (_short_session_token h)) eqn:Et; [|discriminate].
    apply (token_expire_truthy _ _ Et). }
  rewrite (bind_ok _ _ _ _ _ _ _ _ (new_long_present h1 w Hlt)), prepend_nil.
  rewrite (bind_ok _ _ _ _ _ _ _ _ (new_short_present false h1 w Hst)), prepend_nil.
  reflexivity.
Qed.

(** The tokens as lines 167-174 and 189-196 store them pass the checks of
    lines 136-156 until ten seconds before they expire, if the datetime
    library reads back what it prints. *)
Lemma issued_long_token_valid h now csp cred :
  strptime (join_rsplit_colon (isoformat (Expiration cred))) "%Y-%m-%dT%H:%M:%S%z"
    = Some (Expiration cred) ->
  now < Expiration cred ->
  valid_long_token now csp (long_token_of h csp cred) = true.
Proof.
  intros Hrt Hlt.
  assert (E1 : getitem (long_token_of h csp cred) "expire"
               = Ok (PStr (isoformat (Expiration cred)))) by reflexivity.
  assert (E2 : getitem (long_token_of h csp cred) "source_profile" = Ok (PStr csp))
    by reflexivity.
  unfold valid_long_token, token_expire. rewrite E1, Hrt, E2.
  apply andb_true_intro. split; [apply Z.ltb_lt, Hlt|].
  unfold ne_str, is_PStr. rewrite bool_decide_eq_true_2; reflexivity.
Qed.

Lemma issued_short_token_valid h h' now resp :
  strptime (join_rsplit_colon (isoformat (Expiration resp))) "%Y-%m-%dT%H:%M:%S%z"
    = Some (Expiration resp) ->
  now < Expiration resp ->
  _profile h' = _profile h ->
  valid_short_token now (_profile h') (short_token_of h resp) = true.
Proof.
  intros Hrt Hlt ->.
  assert (E1 : getitem (short_token_of h resp) "expire"
               = Ok (PStr (isoformat (Expiration resp)))) by reflexivity.
  assert (E2 : getitem (short_token_of h resp) "profile" = Ok (of_optstr (_profile h)))
    by reflexivity.
  unfold valid_short_token, token_expire. rewrite E1, Hrt, E2.
  apply andb_true_intro. split; [apply Z.ltb_lt, Hlt|].
  destruct (_profile h) as [p|]; cbn; [|reflexivity].
  unfold ne_str, is_PStr. rewrite bool_decide_eq_true_2; reflexivity.
Qed.

(** X12.  After a first call that got both tokens, the next call, made while
    both tokens have more than ten seconds to live, asks for nothing: no
    prompt, no request, no write.  It returns with the same session and the
    same tokens, even if the first call failed to write the cache file, which
    is therefore not written by the second call either.  The datetime library
    is taken to read back the expiry dates that it printed. *)
Theorem second_call_asks_for_nothing
    h w c csp serial role_arn code rest cred resp :
  get_scoped_config (profile_map w) {| ls_profile := _profile h |} = Ok c ->
  needs_assume_role c = true ->
  c !! "source_profile" = Some csp ->
  c !! "mfa_serial" = Some serial ->
  c !! "role_arn" = Some role_arn ->
  no_tokens h = true ->
  is_Some (profile_map w !! csp) ->
  stdin w = code :: rest ->
  sts_get_session_token w (get_session_token_request (looked_up c h) csp serial code)
    = Ok cred ->
  sts_assume_role w (assume_role_request_of (looked_up c h) cred role_arn) = Ok resp ->
  strptime (join_rsplit_colon (isoformat (Expiration cred))) "%Y-%m-%dT%H:%M:%S%z"
    = Some (Expiration cred) ->
  strptime (join_rsplit_colon (isoformat (Expiration resp))) "%Y-%m-%dT%H:%M:%S%z"
    = Some (Expiration resp) ->
  utcnow w + timedelta_seconds 10 < Expiration cred ->
  utcnow w + timedelta_seconds 10 < Expiration resp ->
  let first := _get_session h w in
  let second := _get_session (self_after first) (world_after first) in
  value second = Ok tt /\ emitted second = [] /\
  world_after second = world_after first /\
  _session (self_after second) = _session (self_after first) /\
  _long_session_token (self_after second) = _long_session_token (self_after first) /\
  _short_session_token (self_after second) = _short_session_token (self_after first).
Proof.
  intros Hc Hn Hcsp Hserial Harn Hno Hx Hin Hgst Har Hrl Hrs Hll Hls first second.
  subst second.
  destruct (frame__get_session h w) as [Fp _ _ _ _ _ Fpm _ Fnow _ _ _ _ _].
  fold first in Fp, Fpm, Fnow.
  assert (Hfirst : self_after first
                   = set_session (Some (session_of (looked_up c h) resp))
                       (set_short_session_token (short_token_of (looked_up c h) resp)
                          (set_long_session_token (long_token_of (looked_up c h) csp cred)
                             (looked_up c h)))).
  { subst first.
    rewrite (first_call_run h w c csp serial role_arn code rest cred resp)
      by assumption.
    destruct (prepend_fields
                [MfaPrompt "MFA_Token: ";
                 GetSessionTokenCall
                   (get_session_token_request (looked_up c h) csp serial code);
                 AssumeRoleCall (assume_role_request_of (looked_up c h) cred role_arn)]
                (_write_cache_file
                   (set_session (Some (session_of (looked_up c h) resp))
                      (set_short_session_token (short_token_of (looked_up c h) resp)
                         (set_long_session_token
                            (long_token_of (looked_up c h) csp cred) (looked_up c h))))
                   (set_stdin rest w))) as (_ & -> & _).
    apply _write_cache_file_shape. }
  set (h' := self_after first) in *. set (w' := world_after first) in *.
  clearbody h' w' first.
  assert (El : _long_session_token h' = long_token_of (looked_up c h) csp cred)
    by (rewrite Hfirst; reflexivity).
  assert (Es : _short_session_token h' = short_token_of (looked_up c h) resp)
    by (rewrite Hfirst; reflexivity).
  assert (Er : _region h' = _region (looked_up c h)) by (rewrite Hfirst; reflexivity).
  assert (Ess : _session h' = Some (session_of (looked_up c h) resp))
    by (rewrite Hfirst; reflexivity).
  clear Hfirst.
  rewrite (valid_tokens_run h' w' c csp).
  - destruct (looked_up_fields c h') as (_ & _ & _ & _ & _ & Ll & _ & Ls & _).
    pose proof (looked_up_region c h h' Er) as Lr.
    unfold finish_session. rewrite bind_run.
    rewrite (session_from_short_token_run (looked_up c h') w'
               (PStr (AccessKeyId resp)) (PStr (SecretAccessKey resp))
               (PStr (SessionToken resp)))
      by (rewrite Ls, Es; reflexivity).
    cbn. rewrite Ll, Ls, Lr, Ess, Er. repeat split.
  - rewrite Fpm, Fp. exact Hc.
  - exact Hn.
  - exact Hcsp.
  - rewrite Fnow, El. apply issued_long_token_valid; assumption.
  - rewrite Fnow, Es. apply issued_short_token_valid; try assumption.
    rewrite Fp. destruct (looked_up_fields c h) as (-> & _). reflexivity.
Qed.

End TokenChecks.

(** ** The entry points *)

Section EntryPoints.
Context `{DateTimeLib}.
Context `{Boto3Lib}.
Implicit Types (h : Handler) (w : World) (c : Config).

(** A call that returns has set the session. *)
Lemma _get_session_sets_session h w :
  value (_get_session h w) = Ok tt ->
  is_Some (_session (self_after (_get_session h w))).
Proof.
  destruct (get_scoped_config (profile_map w) {| ls_profile := _profile h |})
    as [c|e] eqn:Hc.
  2:{ rewrite (_get_session_unknown_profile _ _ _ Hc). discriminate. }
  destruct (needs_assume_role c) eqn:Hn.
  - rewrite (_get_session_role_branch _ _ _ Hc Hn). intros Hv.
    pose proof (assume_role_session_ok _ _ Hv) as Hs.
    destruct (_session _); [eauto | discriminate].
  - rewrite (_get_session_default_branch _ _ _ Hc Hn). cbn. eauto.
Qed.

(** X13.  [get_session] does to the handler and to the world what
    [_get_session] does, raises what it raises, and when it returns, returns
    the session that the handler then holds, which is never [None]. *)
Theorem get_session_returns_the_stored_session h w :
  let inner := _get_session h w in
  let run := get_session h w in
  self_after run = self_after inner /\
  world_after run = world_after inner /\
  emitted run = emitted inner /\
  (forall e, value inner = Raise e -> value run = Raise e) /\
  (value inner = Ok tt ->
   exists s, value run = Ok (Some s) /\ _session (self_after run) = Some s).
Proof.
  intros inner run. subst inner run. unfold get_session. rewrite bind_run.
  pose proof (_get_session_sets_session h w) as Hs.
  destruct (_get_session h w) as [[[]|e] h1 w1 e1]; cbn in *.
  - rewrite app_nil_r. repeat split; [discriminate|].
    intros _. destruct (Hs eq_refl) as [s ->]. eauto.
  - repeat split; [intros e0 [= ->]; reflexivity | discriminate].
Qed.

(** Lines 96 and 110: the factory leaves the handler and the world alone
    and causes no call to the token service. *)
Lemma session_client_run s args kwargs h w :
  session_client (Some s) args kwargs h w
  = mkRun match client_refused w s args kwargs with
          | Some e => Raise e
          | None => Ok (ClientOf s args kwargs)
          end h w [].
Proof.
  unfold session_client. rewrite bind_the_world.
  destruct (client_refused w s args kwargs); reflexivity.
Qed.

Lemma session_resource_run s args kwargs h w :
  session_resource (Some s) args kwargs h w
  = mkRun match resource_refused w s args kwargs with
          | Some e => Raise e
          | None => Ok (ResourceOf s args kwargs)
          end h w [].
Proof.
  unfold session_resource. rewrite bind_the_world.
  destruct (resource_refused w s args kwargs); reflexivity.
Qed.

(** X14.  With a profile or a region set, [client] does to the handler and to
    the world what [_get_session] does and raises what it raises.  When
    [_get_session] returns, [client] hands the positional and the keyword
    arguments to the client factory of the session that the handler then
    holds: it returns the client that the factory makes of them, or raises
    what the factory raises, the handler and the world staying as
    [_get_session] left them. *)
Theorem client_is_get_session_then_factory args kwargs h w :
  selectors_unset h = false ->
  let inner := _get_session h w in
  let run := client args kwargs h w in
  self_after run = self_after inner /\
  world_after run = world_after inner /\
  emitted run = emitted inner /\
  (forall e, value inner = Raise e -> value run = Raise e) /\
  (value inner = Ok tt ->
   exists s, _session (self_after inner) = Some s /\
             value run = match client_refused (world_after inner) s args kwargs with
                         | Some e => Raise e
                         | None => Ok (ClientOf s args kwargs)
                         end).
Proof.
  intros Hg inner run. subst inner run. unfold client, selectors_unset in *.
  rewrite bind_self, Hg, bind_run.
  pose proof (_get_session_sets_session h w) as Hs.
  destruct (_get_session h w) as [[[]|e] h1 w1 e1]; cbn [value self_after] in *.
  - destruct (Hs eq_refl) as [s Es]. rewrite bind_self, Es, session_client_run.
    cbn. rewrite app_nil_r. repeat split; [discriminate | eauto].
  - cbn. repeat split; [intros e0 [= ->]; reflexivity | discriminate].
Qed.

(** X15.  The same for [resource], with the resource factory of the
    session. *)
Theorem resource_is_get_session_then_factory args kwargs h w :
  selectors_unset h = false ->
  let inner := _get_session h w in
  let run := resource args kwargs h w in
  self_after run = self_after inner /\
  world_after run = world_after inner /\
  emitted run = emitted inner /\
  (forall e, value inner = Raise e -> value run = Raise e) /\
  (value inner = Ok tt ->
   exists s, _session (self_after inner) = Some s /\
             value run = match resource_refused (world_after inner) s args kwargs with
                         | Some e => Raise e
                         | None => Ok (ResourceOf s args kwargs)
                         end).
Proof.
  intros Hg inner run. subst inner run. unfold resource, selectors_unset in *.
  rewrite bind_self, Hg, bind_run.
  pose proof (_get_session_sets_session h w) as Hs.
  destruct (_get_session h w) as [[[]|e] h1 w1 e1]; cbn [value self_after] in *.
  - destruct (Hs eq_refl) as [s Es]. rewrite bind_self, Es, session_resource_run.
    cbn. rewrite app_nil_r. repeat split; [discriminate | eauto].
  - cbn. repeat split; [intros e0 [= ->]; reflexivity | discriminate].
Qed.

(** X16.  Once the handler has a region, switching the profile with [set]
    and asking for a session leaves the region as it is, whatever region the
    new profile has in the configuration; the profile is the new one if it is
    truthy and the old one otherwise, on every path. *)
Theorem profile_switch_keeps_region p h w :
  truthy (of_optstr (_region h)) = true ->
  let run := (set p None ;;; _get_session) h w in
  _region (self_after run) = _region h /\
  _profile (self_after run) = (if truthy (of_optstr p) then p else _profile h).
Proof.
  intros Hr run. subst run.
  assert (Hset : set p None h w
                 = mkRun (Ok tt) (if truthy (of_optstr p) then set_profile p h else h) w []).
  { unfold set. unfold_run. cbn. destruct (truthy (of_optstr p)); reflexivity. }
  rewrite (bind_ok _ _ _ _ _ _ _ _ Hset), prepend_nil.
  destruct (frame__get_session (if truthy (of_optstr p) then set_profile p h else h) w)
    as [Fp Fr _ _ _ _ _ _ _ _ _ _ _ _].
  rewrite Fp. destruct (truthy (of_optstr p)); cbn in *; auto.
Qed.

(** X17.  A profile that the configuration does not have stops the
    constructor and [_get_session] alike with [ProfileNotFound], before
    anything happens: no event, the world untouched (the cache directory is
    not created), and in [_get_session] both tokens and the session as they
    were. *)
Theorem unknown_profile_stops_before_any_effect p w :
  profile_map w !! p = None ->
  (forall a, profile a = Some p ->
     let made := AwsSessionHandler a w in
     value made = Raise (ProfileNotFound p) /\ emitted made = [] /\
     world_after made = w) /\
  (forall h, _profile h = Some p ->
     let run := _get_session h w in
     value run = Raise (ProfileNotFound p) /\ emitted run = [] /\
     world_after run = w /\
     _long_session_token (self_after run) = _long_session_token h /\
     _short_session_token (self_after run) = _short_session_token h /\
     _session (self_after run) = _session h).
Proof.
  intros Hp. split.
  - intros a Ha made. subst made. unfold AwsSessionHandler, __init__.
    rewrite !bind_assign.
    erewrite bind_raise; [repeat split|].
    rewrite _config_lookup_raise with (e := ProfileNotFound p); [reflexivity|].
    cbn. unfold get_scoped_config. cbn. rewrite Ha, Hp. reflexivity.
  - intros h Hh run. subst run.
    rewrite (_get_session_unknown_profile h w (ProfileNotFound p)).
    + cbn. repeat split.
    + unfold get_scoped_config. cbn. rewrite Hh, Hp. reflexivity.
Qed.

End EntryPoints.

(** ** The constructor *)

Section Construction.
Implicit Types (h : Handler) (w : World) (c : Config) (a : InitArgs).

Lemma init_frame_same h h' w : init_frame h w [] h' w.
Proof. constructor; auto. Qed.

Lemma init_frame_refl h w : init_frame h w [] h w.
Proof. apply init_frame_same. Qed.

Lemma init_frame_trans h w e1 h1 w1 e2 h2 w2 :
  init_frame h w e1 h1 w1 -> init_frame h1 w1 e2 h2 w2 ->
  init_frame h w (e1 ++ e2)%list h2 w2.
Proof.
  intros [] []. constructor; try congruence.
  - subst. reflexivity.
  - unfold default_cache_dir in *. rewrite init_home0 in *.
    destruct init_fs0 as [E0 | [N0 E0]], init_fs1 as [E1 | [N1 E1]].
    + left. congruence.
    + right. rewrite E0 in *. auto.
    + right. split; [assumption | congruence].
    + rewrite E0, lookup_insert_eq in N1. discriminate.
Qed.

Lemma init_frame_assign (f : Handler -> Handler) : satisfies init_frame (assign f).
Proof. intros h w. apply init_frame_same. Qed.

Lemma init_frame__config_lookup : satisfies init_frame _config_lookup.
Proof. intros h w. unfold_run. cbn. run_all; apply init_frame_same. Qed.

Lemma init_frame_explicit_cache_file cf : satisfies init_frame (explicit_cache_file cf).
Proof.
  intros h w. unfold explicit_cache_file. rewrite bind_the_world.
  repeat match goal with |- context [if ?b then _ else _] => destruct b end;
    apply init_frame_same.
Qed.

Lemma init_frame_default_cache_file : satisfies init_frame default_cache_file.
Proof.
  intros h w. unfold default_cache_file, os_makedirs. unfold_run. cbn.
  run_all; try apply init_frame_same.
  constructor; auto.
Qed.

Lemma init_frame_select_cache_file a : satisfies init_frame (select_cache_file a).
Proof.
  unfold select_cache_file.
  destruct (cache_file a) as [cf|]; [destruct (truthy (PStr cf))|];
    auto using init_frame_explicit_cache_file, init_frame_default_cache_file.
Qed.

Lemma init_frame_preload_cache_tokens : satisfies init_frame preload_cache_tokens.
Proof.
  intros h w. unfold preload_cache_tokens, json_load_file. unfold_run. cbn.
  run_all; apply init_frame_same.
Qed.

Lemma init_frame___init__ a : satisfies init_frame (__init__ a).
Proof.
  unfold __init__.
  repeat first
    [ apply init_frame_assign | apply init_frame__config_lookup
    | apply init_frame_select_cache_file | apply init_frame_preload_cache_tokens
    | apply (satisfies_when init_frame init_frame_refl)
    | apply (satisfies_self init_frame init_frame_refl)
    | apply (satisfies_bind init_frame init_frame_trans); [|intros ?] ].
Qed.

(** The constructor on a profile that does not resolve. *)
Lemma __init___raise a w e :
  get_scoped_config (profile_map w) {| ls_profile := profile a |} = Raise e ->
  __init__ a blank w =
  mkRun (Raise e)
        (set_lookup_session (Some {| ls_profile := profile a |})
           (set_lookup_session None
              (set_config None (set_region (region a) (set_profile (profile a) blank)))))
        w [].
Proof.
  intros Hc. unfold __init__. rewrite !bind_assign.
  apply bind_raise, _config_lookup_raise, Hc.
Qed.

(** [os.path.dirname] of a name without a slash is the empty string. *)
Lemma drop_until_slash_none (l : list ascii) :
  (forall ch, In ch l -> ch <> "/"%char) -> drop_until_slash l = [].
Proof.
  induction l as [|ch l IH]; intros Hl; [reflexivity|]. cbn.
  destruct (decide (ch = "/"%char)) as [E|_].
  - exfalso. apply (Hl ch); [left; reflexivity | exact E].
  - apply IH. intros ch' Hin. apply Hl. right. exact Hin.
Qed.

Lemma dirname_bare (p : string) :
  (forall ch, In ch (list_ascii_of_string p) -> ch <> "/"%char) ->
  dirname p = EmptyString.
Proof.
  intros Hp. unfold dirname. rewrite drop_until_slash_none; [reflexivity|].
  intros ch Hin. apply Hp. apply in_rev. exact Hin.
Qed.

(** X18.  Whatever its arguments and whether it returns or raises, the
    constructor prompts for nothing, sends no request and writes no cache
    file; it leaves the configuration, the clock, standard input and the token
    service as they are; and of the files it changes nothing, except that it
    may create the cache directory under the home directory when nothing is
    there. *)
Theorem construction_creates_at_most_the_cache_directory a w :
  let made := AwsSessionHandler a w in
  emitted made = [] /\
  stdin (world_after made) = stdin w /\
  profile_map (world_after made) = profile_map w /\
  home (world_after made) = home w /\
  utcnow (world_after made) = utcnow w /\
  sts_get_session_token (world_after made) = sts_get_session_token w /\
  sts_assume_role (world_after made) = sts_assume_role w /\
  (fs (world_after made) = fs w \/
   (fs w !! default_cache_dir w = None /\
    fs (world_after made) = <[default_cache_dir w := Dir true]> (fs w))).
Proof.
  intros made. subst made. unfold AwsSessionHandler.
  destruct (init_frame___init__ a blank w). repeat split; assumption.
Qed.

(** X19.  With [disable_file_cache] the constructor touches nothing: the
    world is as it was, the handler has no cache file and no token, and if the
    profile resolves the construction returns with the attributes of lines
    28-39. *)
Theorem construction_without_disk_cache a w :
  disable_file_cache a = true ->
  let made := AwsSessionHandler a w in
  world_after made = w /\ emitted made = [] /\
  _cache_file (self_after made) = None /\
  _long_session_token (self_after made) = PNone /\
  _short_session_token (self_after made) = PNone /\
  (forall c, get_scoped_config (profile_map w) {| ls_profile := profile a |} = Ok c ->
             made = mkRun (Ok tt) (attributes_of a c) w []).
Proof.
  intros Hd made. subst made. unfold AwsSessionHandler.
  destruct (get_scoped_config (profile_map w) {| ls_profile := profile a |})
    as [c|e] eqn:Hc.
  - rewrite (__init___run a w c Hc), Hd. cbn. repeat split.
    intros c' [= <-]. reflexivity.
  - rewrite (__init___raise a w e Hc). cbn. repeat split. discriminate.
Qed.

(** X20.  With the disk cache enabled and a profile that resolves, a cache
    location that does not pass lines 42-60 makes the constructor raise with
    the world untouched: an [Exception] of the handler for an explicit
    [cache_file], the error of [os.makedirs] for the default location. *)
Theorem rejected_cache_location_fails_construction a w c :
  disable_file_cache a = false ->
  get_scoped_config (profile_map w) {| ls_profile := profile a |} = Ok c ->
  selected_cache_file a w = None ->
  exists e,
    AwsSessionHandler a w = mkRun (Raise e) (attributes_of a c) w [] /\
    match cache_file a with
    | Some cf => if truthy (PStr cf) then exists msg, e = Exception msg
                 else e = OSError (default_cache_dir w)
    | None => e = OSError (default_cache_dir w)
    end.
Proof.
  intros Hd Hc Hsel. unfold AwsSessionHandler.
  rewrite (__init___run a w c Hc), Hd. cbn [negb when]. rewrite bind_run.
  unfold selected_cache_file, select_cache_file in *.
  assert (Hdef : match fs w !! (home w ++ "/.aws/app/cache")%string with
                 | Some (File _ _ _) => None
                 | _ => Some (default_cache_path w)
                 end = None ->
                 default_cache_file (attributes_of a c) w
                 = mkRun (Raise (OSError (default_cache_dir w))) (attributes_of a c) w []).
  { intros E. unfold default_cache_file, os_makedirs, default_cache_dir.
    unfold_run. cbn.
    destruct (fs w !! (home w ++ "/.aws/app/cache")%string) as [[wr|rd wr d]|];
      try discriminate. reflexivity. }
  destruct (cache_file a) as [cf|].
  2:{ rewrite (Hdef Hsel). eauto. }
  destruct (truthy (PStr cf)).
  2:{ rewrite (Hdef Hsel). eauto. }
  clear Hdef. unfold explicit_cache_file. rewrite bind_the_world.
  destruct (os_path_exists w (dirname cf)); cbn in *; [|eauto].
  destruct (os_access_W_OK w (dirname cf)); cbn in *; [|eauto].
  destruct (os_path_exists w cf && negb (os_access_W_OK w cf)); cbn in *;
    [eauto | discriminate].
Qed.

(** X21.  A [cache_file] that is a bare file name, without a directory part,
    is always rejected: [os.path.dirname] gives the empty string, which
    [os.path.exists] does not find. *)
Theorem bare_file_name_is_rejected a w c cf :
  disable_file_cache a = false ->
  get_scoped_config (profile_map w) {| ls_profile := profile a |} = Ok c ->
  cache_file a = Some cf -> cf <> EmptyString ->
  (forall ch, In ch (list_ascii_of_string cf) -> ch <> "/"%char) ->
  AwsSessionHandler a w
  = mkRun (Raise (Exception "Directory dos not exists: ")) (attributes_of a c) w [].
Proof.
  intros Hd Hc Hcf Hne Hbare. unfold AwsSessionHandler.
  rewrite (__init___run a w c Hc), Hd. cbn [negb when]. rewrite bind_run.
  unfold select_cache_file. rewrite Hcf.
  assert (Ht : truthy (PStr cf) = true).
  { cbn. rewrite bool_decide_eq_false_2; auto. }
  rewrite Ht. unfold explicit_cache_file. rewrite bind_the_world.
  rewrite (dirname_bare cf Hbare). reflexivity.
Qed.

(** X22.  With the disk cache enabled, no [cache_file] given, the directories
    above the cache directory in place ([.aws/app] under the home directory
    may be written) and nothing at the default location, the constructor
    creates the cache directory, points the handler at
    [AwsSessionHandler.json] in it, and returns without tokens. *)
Theorem default_cache_directory_is_created a w c :
  disable_file_cache a = false ->
  get_scoped_config (profile_map w) {| ls_profile := profile a |} = Ok c ->
  cache_file a = None \/ cache_file a = Some EmptyString ->
  cache_parent_ready w = true ->
  fs w !! default_cache_dir w = None ->
  fs w !! default_cache_path w = None ->
  AwsSessionHandler a w
  = mkRun (Ok tt)
          (set_cache_file (Some (default_cache_path w)) (attributes_of a c))
          (set_fs (<[default_cache_dir w := Dir true]> (fs w)) w) [].
Proof.
  intros Hd Hc Hcf _ Hdir Hfile. unfold AwsSessionHandler.
  rewrite (__init___run a w c Hc), Hd. cbn [negb when].
  assert (Hsel : select_cache_file a (attributes_of a c) w
                 = mkRun (Ok tt)
                     (set_cache_file (Some (default_cache_path w)) (attributes_of a c))
                     (set_fs (<[default_cache_dir w := Dir true]> (fs w)) w) []).
  { unfold select_cache_file.
    assert (Hdef : default_cache_file (attributes_of a c) w
                   = mkRun (Ok tt)
                       (set_cache_file (Some (default_cache_path w)) (attributes_of a c))
                       (set_fs (<[default_cache_dir w := Dir true]> (fs w)) w) []).
    { unfold default_cache_file, os_makedirs, default_cache_dir in *.
      unfold_run. cbn. rewrite Hdir. reflexivity. }
    destruct Hcf as [-> | ->]; exact Hdef. }
  rewrite (bind_ok _ _ _ _ _ _ _ _ Hsel), prepend_nil.
  apply (preload_skipped _ _ (default_cache_path w)); [reflexivity|].
  unfold os_path_exists. cbn.
  rewrite lookup_insert_ne, Hfile.
  - rewrite (bool_decide_eq_false_2 (is_Some None)) by apply is_Some_None.
    rewrite andb_false_r. reflexivity.
  - unfold default_cache_dir, default_cache_path. intros E. symmetry in E. revert E.
    apply append_neq. discriminate.
Qed.

End Construction.

(** ** The expiry string *)

Section ExpiryString.

Lemma list_ascii_of_string_app (a b : string) :
  list_ascii_of_string (a ++ b) = (list_ascii_of_string a ++ list_ascii_of_string b)%list.
Proof. induction a as [|ch a IH]; simpl; [reflexivity | rewrite IH; reflexivity]. Qed.

Lemma string_of_list_ascii_app (l1 l2 : list ascii) :
  string_of_list_ascii (l1 ++ l2)%list
  = (string_of_list_ascii l1 ++ string_of_list_ascii l2)%string.
Proof. induction l1 as [|ch l1 IH]; simpl; [reflexivity | rewrite IH; reflexivity]. Qed.

Lemma drop_first_colon_none (l : list ascii) :
  (forall ch, In ch l -> ch <> ":"%char) -> drop_first_colon l = l.
Proof.
  induction l as [|ch l IH]; intros Hl; [reflexivity|]. cbn.
  destruct (decide (ch = ":"%char)) as [E|_].
  - exfalso. apply (Hl ch); [left; reflexivity | exact E].
  - f_equal. apply IH. intros ch' Hin. apply Hl. right. exact Hin.
Qed.

Lemma drop_first_colon_app (l1 l2 : list ascii) :
  (forall ch, In ch l1 -> ch <> ":"%char) ->
  drop_first_colon (l1 ++ ":"%char :: l2) = (l1 ++ l2)%list.
Proof.
  induction l1 as [|ch l1 IH]; intros Hl; cbn.
  - destruct (decide (":"%char = ":"%char)); [reflexivity | congruence].
  - destruct (decide (ch = ":"%char)) as [E|_].
    + exfalso. apply (Hl ch); [left; reflexivity | exact E].
    + f_equal. apply IH. intros ch' Hin. apply Hl. right. exact Hin.
Qed.

(** X23.  What lines 137 and 150 do to the [expire] string before parsing it:
    the last colon is removed and nothing else, so that the offset [+00:00]
    that [isoformat] prints becomes the [+0000] that [%z] reads; a string
    without a colon is left as it is. *)
Theorem join_rsplit_colon_drops_the_last_colon (a b : string) :
  (forall ch, In ch (list_ascii_of_string b) -> ch <> ":"%char) ->
  join_rsplit_colon (a ++ ":" ++ b) = (a ++ b)%string /\
  join_rsplit_colon b = b.
Proof.
  intros Hb. unfold join_rsplit_colon. split.
  - rewrite list_ascii_of_string_app.
    change (list_ascii_of_string (":" ++ b))
      with (":"%char :: list_ascii_of_string b).
    rewrite rev_app_distr. cbn [rev]. rewrite <- app_assoc. cbn [app].
    rewrite drop_first_colon_app by (intros ch Hin; apply Hb, in_rev, Hin).
    rewrite rev_app_distr, !rev_involutive, string_of_list_ascii_app.
    rewrite !string_of_list_ascii_of_string. reflexivity.
  - rewrite drop_first_colon_none by (intros ch Hin; apply Hb, in_rev, Hin).
    rewrite rev_involutive. apply string_of_list_ascii_of_string.
Qed.

End ExpiryString.

(** ** The properties at work on the concrete machine *)

Import Scenario.
#[local] Existing Instance Iso8601.lib.
#[local] Existing Instance Boto3.lib.

(** The first scenario of the specification: no cache yet.  One prompt, one
    request for a session token, one assumed role, one cache write, and the
    short token is of profile [dev]. *)
Example scenario_first_call :
  value (_get_session (handler (args_of "dev") no_cache) no_cache) = Ok tt /\
  count is_mfa_prompt (emitted (_get_session (handler (args_of "dev") no_cache) no_cache))
    = 1%nat /\
  count is_get_session_token_call
        (emitted (_get_session (handler (args_of "dev") no_cache) no_cache)) = 1%nat /\
  count is_assume_role_call
        (emitted (_get_session (handler (args_of "dev") no_cache) no_cache)) = 1%nat /\
  count is_cache_write
        (emitted (_get_session (handler (args_of "dev") no_cache) no_cache)) = 1%nat /\
  getitem (_short_session_token
             (self_after (_get_session (handler (args_of "dev") no_cache) no_cache)))
          "profile" = Ok (PStr "dev").
Proof. repeat split; vm_compute; reflexivity. Qed.

(** The second scenario: both tokens cached and valid.  Nothing happens. *)
Example scenario_cached_call :
  value (_get_session (handler (args_of "dev") (cached both_tokens)) (cached both_tokens))
    = Ok tt /\
  emitted (_get_session (handler (args_of "dev") (cached both_tokens)) (cached both_tokens))
    = [].
Proof. repeat split; vm_compute; reflexivity. Qed.

(** C4, a witness.  Profile [dev] has the three keys: the first call of its
    handler returns after one prompt, one request for a session token, one
    assumed role and one write of the cache file.  Profile [plain] lacks
    them: the default credential chain, no event. *)
Lemma role_assumption_iff_config_complete_witness :
  (get_scoped_config (profile_map no_cache)
     {| ls_profile := _profile (handler (args_of "dev") no_cache) |}
   = Ok (role_config "arn:aws:iam::123:role/X") /\
   value (_get_session (handler (args_of "dev") no_cache) no_cache) = Ok tt /\
   count is_mfa_prompt
         (emitted (_get_session (handler (args_of "dev") no_cache) no_cache)) = 1%nat /\
   count is_get_session_token_call
         (emitted (_get_session (handler (args_of "dev") no_cache) no_cache)) = 1%nat /\
   count is_assume_role_call
         (emitted (_get_session (handler (args_of "dev") no_cache) no_cache)) = 1%nat /\
   count is_cache_write
         (emitted (_get_session (handler (args_of "dev") no_cache) no_cache))
   = (if _disk_cache_disable (handler (args_of "dev") no_cache)
      then 0%nat else 1%nat)) /\
  (get_scoped_config (profile_map no_cache)
     {| ls_profile := _profile (handler (args_of "plain") no_cache) |}
   = Ok plain_config /\
   value (_get_session (handler (args_of "plain") no_cache) no_cache) = Ok tt /\
   emitted (_get_session (handler (args_of "plain") no_cache) no_cache) = []).
Proof.
  split.
  - split; [vm_compute; reflexivity|].
    pose proof (role_assumption_iff_config_complete
                  (handler (args_of "dev") no_cache) no_cache
                  (role_config "arn:aws:iam::123:role/X")) as T.
    by_computation T. destruct T as (_ & _ & _ & _ & T).
    assert (Hcomplete :
              is_Some (role_config "arn:aws:iam::123:role/X" !! "role_arn") /\
              is_Some (role_config "arn:aws:iam::123:role/X" !! "mfa_serial") /\
              is_Some (role_config "arn:aws:iam::123:role/X" !! "source_profile")).
    { split; [|split]; eexists; vm_compute; reflexivity. }
    specialize (T Hcomplete "base"). by_computation T.
    destruct T as (_ & Tl & Ts & _).
    assert (Hv : value (_get_session (handler (args_of "dev") no_cache) no_cache)
                 = Ok tt) by (vm_compute; reflexivity).
    specialize (Tl Hv). specialize (Ts Hv). by_computation Tl. by_computation Ts.
    destruct Tl as [Hp Hg]. destruct Ts as [Ha Hw].
    exact (conj Hv (conj Hp (conj Hg (conj Ha Hw)))).
  - split; [vm_compute; reflexivity|].
    pose proof (role_assumption_iff_config_complete
                  (handler (args_of "plain") no_cache) no_cache plain_config) as T.
    by_computation T. destruct T as (_ & _ & _ & T & _).
    destruct T as (Hv & He & _).
    + intros (Hrole & _). vm_compute in Hrole. destruct Hrole as [x Hx]. discriminate.
    + exact (conj Hv He).
Defined.

(** C7, a witness.  A long token of source profile [other] that expires in
    2099 is dropped although it is far from expired. *)
Lemma source_profile_switch_drops_both_tokens_witness :
  token_expire (_long_session_token (handler (args_of "dev") (cached foreign_long_token)))
    = Ok (4102444799 * 1000000) /\
  utcnow (cached foreign_long_token) + timedelta_seconds 10 < 4102444799 * 1000000 /\
  _get_session (handler (args_of "dev") (cached foreign_long_token))
               (cached foreign_long_token)
  = _get_session (clear_tokens (handler (args_of "dev") (cached foreign_long_token)))
                 (cached foreign_long_token).
Proof.
  split; [vm_compute; reflexivity|]. split; [vm_compute; reflexivity|].
  pose proof (source_profile_switch_drops_both_tokens
                (handler (args_of "dev") (cached foreign_long_token))
                (cached foreign_long_token)
                (role_config "arn:aws:iam::123:role/X")
                "base" (PStr "other") (4102444799 * 1000000)) as T.
  by_computation T. destruct T as (_ & _ & _ & T). exact T.
Defined.

(** C6, a witness.  The cached short token is of profile [dev]; the handler
    is on [prod]. *)
Lemma profile_switch_drops_short_token_only_witness :
  _short_session_token (handler (args_of "prod") (cached both_tokens)) = short_20m /\
  _long_session_token
    (self_after (_get_session (handler (args_of "prod") (cached both_tokens))
                              (cached both_tokens)))
  = _long_session_token (handler (args_of "prod") (cached both_tokens)) /\
  count is_assume_role_call
        (emitted (_get_session (handler (args_of "prod") (cached both_tokens))
                               (cached both_tokens))) = 1%nat /\
  count is_mfa_prompt
        (emitted (_get_session (handler (args_of "prod") (cached both_tokens))
                               (cached both_tokens))) = 0%nat.
Proof.
  split; [vm_compute; reflexivity|].
  pose proof (profile_switch_drops_short_token_only
           (handler (args_of "prod") (cached both_tokens)) (cached both_tokens)
           (role_config "arn:aws:iam::123:role/Y") "base" "arn:aws:iam::123:role/Y"
           (PStr "ASIAOLDLONG") (PStr "old-long-secret") (PStr "old-long-session")
           (1893457200 * 1000000) (PStr "dev")) as T.
  by_computation T. destruct T as (Hl & Ha & Hm & _).
  exact (conj Hl (conj Ha Hm)).
Defined.

(** C5, a witness.  Both cached tokens are valid at midnight. *)
Lemma get_session_idempotent_on_valid_tokens_witness :
  valid_long_token (midnight + timedelta_seconds 10) "base"
    (_long_session_token (handler (args_of "dev") (cached both_tokens))) = true /\
  valid_short_token (midnight + timedelta_seconds 10) (Some "dev")
    (_short_session_token (handler (args_of "dev") (cached both_tokens))) = true /\
  emitted (_get_session (handler (args_of "dev") (cached both_tokens))
                        (cached both_tokens)) = [] /\
  emitted (_get_session
             (self_after (_get_session (handler (args_of "dev") (cached both_tokens))
                                       (cached both_tokens)))
             (world_after (_get_session (handler (args_of "dev") (cached both_tokens))
                                        (cached both_tokens)))) = [].
Proof.
  split; [vm_compute; reflexivity|]. split; [vm_compute; reflexivity|].
  pose proof (get_session_idempotent_on_valid_tokens
           (handler (args_of "dev") (cached both_tokens)) (cached both_tokens)
           (role_config "arn:aws:iam::123:role/X") "base") as T.
  by_computation T. destruct T as (H1 & H2 & _). exact (conj H1 H2).
Defined.

(** C2, a witness of the amended property.  The first call on a machine
    without a cache file refreshes both tokens and writes them. *)
Lemma cache_written_iff_token_issued_when_enabled_witness :
  value (_get_session (handler (args_of "dev") no_cache) no_cache) = Ok tt /\
  tokens_paired (handler (args_of "dev") no_cache) = true /\
  written_iff_issued (_get_session (handler (args_of "dev") no_cache) no_cache).
Proof.
  split; [vm_compute; reflexivity|]. split; [vm_compute; reflexivity|].
  pose proof (cache_written_iff_token_issued_when_enabled
           (handler (args_of "dev") no_cache) no_cache
           (role_config "arn:aws:iam::123:role/X")) as T.
  by_computation T. exact (proj1 T).
Defined.

(** C2, a counterexample.  With the disk cache disabled the first call gets
    both tokens from the token service and returns, and writes nothing. *)
Lemma written_iff_issued_fails_without_disk_cache :
  value (_get_session (handler (args_without_disk_cache "dev") no_cache) no_cache)
    = Ok tt /\
  count is_token_call
        (emitted (_get_session (handler (args_without_disk_cache "dev") no_cache)
                               no_cache)) = 2%nat /\
  ~ written_iff_issued
      (_get_session (handler (args_without_disk_cache "dev") no_cache) no_cache).
Proof.
  split; [vm_compute; reflexivity|]. split; [vm_compute; reflexivity|].
  unfold written_iff_issued. vm_compute. discriminate.
Qed.



(** C8, a witness.  The handler that made its first call on a machine
    without a cache file writes its tokens; a second handler reads them
    back. *)
Lemma cache_round_trip_witness :
  value (_write_cache_file (after_first_call no_cache) (world_after_first_call no_cache))
    = Ok tt /\
  truthy (_long_session_token (after_first_call no_cache)) = true /\
  _long_session_token
    (self_after
       (AwsSessionHandler (args_of "dev")
          (world_after (_write_cache_file (after_first_call no_cache)
                                          (world_after_first_call no_cache)))))
  = _long_session_token (after_first_call no_cache) /\
  _short_session_token
    (self_after
       (AwsSessionHandler (args_of "dev")
          (world_after (_write_cache_file (after_first_call no_cache)
                                          (world_after_first_call no_cache)))))
  = _short_session_token (after_first_call no_cache).
Proof.
  split; [vm_compute; reflexivity|]. split; [vm_compute; reflexivity|].
  pose proof (cache_round_trip (after_first_call no_cache) (world_after_first_call no_cache)
                (args_of "dev") (role_config "arn:aws:iam::123:role/X") cache_path) as T.
  by_computation T.
  assert (Hrd : forall rd wr d,
             fs (world_after_first_call no_cache) !! cache_path = Some (File rd wr d) ->
             rd = true).
  { intros rd wr d Hfile. vm_compute in Hfile. congruence. }
  specialize (T Hrd). by_computation T. exact (proj2 T).
Defined.

(** C1, at its failing input.  The cache file holds a valid short token and
    no long token.  The call prompts for the MFA code and gets a new long
    token, but it assumes no role: the cached short token stays in use, in the
    handler and in the session.  Nothing is written either, so the new long
    token is lost with the process. *)
Theorem long_token_refreshed_short_token_kept :
  _long_session_token (handler (args_of "dev") (cached short_token_only)) = PNone /\
  _short_session_token (handler (args_of "dev") (cached short_token_only)) = short_20m /\
  value (first_call (cached short_token_only)) = Ok tt /\
  count is_mfa_prompt (emitted (first_call (cached short_token_only))) = 1%nat /\
  count is_get_session_token_call (emitted (first_call (cached short_token_only)))
    = 1%nat /\
  count is_assume_role_call (emitted (first_call (cached short_token_only))) = 0%nat /\
  count is_cache_write (emitted (first_call (cached short_token_only))) = 0%nat /\
  truthy (_long_session_token (after_first_call (cached short_token_only))) = true /\
  _short_session_token (after_first_call (cached short_token_only)) = short_20m /\
  _session (after_first_call (cached short_token_only))
    = Some (SessionFromCredentials (Some "eu-west-1") (PStr "ASIAOLDSHORT")
              (PStr "old-short-secret") (PStr "old-short-session")) /\
  fs (world_after_first_call (cached short_token_only)) = fs (cached short_token_only).
Proof. repeat split; vm_compute; reflexivity. Qed.

(** C9, at its failing input.  A handler is made with neither a profile nor
    a region, on a machine without AWS configuration.  [client] raises, but
    [get_session] has no such guard: it returns a session on the default
    credential chain. *)
Theorem get_session_without_selectors_returns :
  value (AwsSessionHandler no_selector_args bare_world) = Ok tt /\
  selectors_unset (self_after (AwsSessionHandler no_selector_args bare_world)) = true /\
  value (get_session (self_after (AwsSessionHandler no_selector_args bare_world))
                     bare_world)
    = Ok (Some (SessionFromBotocore (Some {| ls_profile := None |}))) /\
  is_ok (value (client [PStr "sts"] []
                  (self_after (AwsSessionHandler no_selector_args bare_world))
                  bare_world)) = false.
Proof. repeat split; vm_compute; reflexivity. Qed.

(** ** Further properties at work on the concrete machine *)

Import Incidents.

(** X3, a witness.  The first call of a handler made with
    [disable_file_cache] leaves the files as they are. *)
Lemma get_session_writes_nothing_when_disabled_witness :
  _disk_cache_disable (handler (args_without_disk_cache "dev") no_cache) = true /\
  fs (world_after (_get_session (handler (args_without_disk_cache "dev") no_cache)
                                no_cache)) = fs no_cache.
Proof.
  split; [vm_compute; reflexivity|].
  pose proof (get_session_writes_nothing_when_disabled
                (handler (args_without_disk_cache "dev") no_cache) no_cache) as T.
  by_evaluation T. exact (proj1 T).
Defined.

(** X5, a witness.  Nobody types the MFA code. *)
Lemma failed_long_refresh_leaves_no_token_witness :
  stdin no_input = [] /\
  _get_session (handler (args_of "dev") no_input) no_input
  = mkRun (Raise EOFError)
          (looked_up (role_config "arn:aws:iam::123:role/X")
                     (handler (args_of "dev") no_input))
          no_input [MfaPrompt "MFA_Token: "].
Proof.
  split; [vm_compute; reflexivity|].
  pose proof (failed_long_refresh_leaves_no_token
                (handler (args_of "dev") no_input) no_input
                (role_config "arn:aws:iam::123:role/X")
                "base" "arn:aws:iam::123:mfa/user") as T.
  by_evaluation T. destruct T as (_ & T & _).
  apply T; [eexists; vm_compute; reflexivity | vm_compute; reflexivity].
Defined.

(** X6, a witness.  The role is refused after the session token was
    granted. *)
Lemma failed_role_assumption_keeps_long_token_unwritten_witness :
  no_tokens (handler (args_of "dev") role_refused) = true /\
  value (_get_session (handler (args_of "dev") role_refused) role_refused)
    = Raise (ServiceError "AccessDenied") /\
  count is_cache_write
        (emitted (_get_session (handler (args_of "dev") role_refused) role_refused))
    = 0%nat.
Proof.
  split; [vm_compute; reflexivity|].
  pose proof (failed_role_assumption_keeps_long_token_unwritten
                (handler (args_of "dev") role_refused) role_refused
                (role_config "arn:aws:iam::123:role/X")
                "base" "arn:aws:iam::123:mfa/user" "arn:aws:iam::123:role/X"
                "123456" [] long_credentials (ServiceError "AccessDenied")) as T.
  by_evaluation T. rewrite T. split; reflexivity.
Defined.

(** X7, a witness.  The first call on the machine without a cache file. *)
Lemma first_call_gets_both_tokens_witness :
  no_tokens (handler (args_of "dev") no_cache) = true /\
  _short_session_token (self_after (_get_session (handler (args_of "dev") no_cache)
                                                 no_cache))
  = short_token_of (looked_up (role_config "arn:aws:iam::123:role/X")
                              (handler (args_of "dev") no_cache))
                   short_credentials /\
  stdin (world_after (_get_session (handler (args_of "dev") no_cache) no_cache)) = [].
Proof.
  split; [vm_compute; reflexivity|].
  pose proof (first_call_gets_both_tokens
                (handler (args_of "dev") no_cache) no_cache
                (role_config "arn:aws:iam::123:role/X")
                "base" "arn:aws:iam::123:mfa/user" "arn:aws:iam::123:role/X"
                "123456" [] long_credentials short_credentials) as T.
  by_evaluation T. destruct T as (_ & Hs & _ & Hin & _). exact (conj Hs Hin).
Defined.

(** X8, a witness.  At midnight a long token that expires at 00:00:10 is
    already too old. *)
Lemma expired_long_token_drops_both_tokens_witness :
  token_expire (_long_session_token (handler (args_of "dev") (cached expiring_long)))
    = Ok (midnight + timedelta_seconds 10) /\
  _get_session (handler (args_of "dev") (cached expiring_long)) (cached expiring_long)
  = _get_session (clear_tokens (handler (args_of "dev") (cached expiring_long)))
                 (cached expiring_long).
Proof.
  split; [vm_compute; reflexivity|].
  pose proof (expired_long_token_drops_both_tokens
                (handler (args_of "dev") (cached expiring_long)) (cached expiring_long)
                (role_config "arn:aws:iam::123:role/X")
                (midnight + timedelta_seconds 10)) as T.
  by_evaluation T. exact T.
Defined.

(** X9, a witness.  The long token is good until 06:00, the short token
    expires at 00:00:10: one assumed role, no prompt. *)
Lemma expired_short_token_is_replaced_witness :
  token_expire (_short_session_token (handler (args_of "dev") (cached expiring_short)))
    = Ok (midnight + timedelta_seconds 10) /\
  count is_assume_role_call
        (emitted (_get_session (handler (args_of "dev") (cached expiring_short))
                               (cached expiring_short))) = 1%nat /\
  count is_mfa_prompt
        (emitted (_get_session (handler (args_of "dev") (cached expiring_short))
                               (cached expiring_short))) = 0%nat.
Proof.
  split; [vm_compute; reflexivity|].
  pose proof (expired_short_token_is_replaced
                (handler (args_of "dev") (cached expiring_short)) (cached expiring_short)
                (role_config "arn:aws:iam::123:role/X") "base" "arn:aws:iam::123:role/X"
                (PStr "ASIAOLDLONG") (PStr "old-long-secret") (PStr "old-long-session")
                (midnight + timedelta_seconds 10)) as T.
  by_evaluation T. rewrite T. split; vm_compute; reflexivity.
Defined.

(** X10, a witness.  The cached long token has no [expire] field. *)
Lemma unreadable_long_token_fails_every_call_witness :
  truthy (_long_session_token (handler (args_of "dev") (cached long_without_expire)))
    = true /\
  _get_session (handler (args_of "dev") (cached long_without_expire))
               (cached long_without_expire)
  = mkRun (Raise (KeyError "expire"))
          (looked_up (role_config "arn:aws:iam::123:role/X")
                     (handler (args_of "dev") (cached long_without_expire)))
          (cached long_without_expire) [].
Proof.
  split; [vm_compute; reflexivity|].
  pose proof (unreadable_long_token_fails_every_call
                (handler (args_of "dev") (cached long_without_expire))
                (cached long_without_expire)
                (role_config "arn:aws:iam::123:role/X") (KeyError "expire")) as T.
  by_evaluation T. exact (proj1 T).
Defined.

(** X11, a witness.  The first call on the machine without a cache file
    returns. *)
Lemma session_is_made_of_the_short_token_witness :
  value (_get_session (handler (args_of "dev") no_cache) no_cache) = Ok tt /\
  exists key secret token,
    getitem (_short_session_token
               (self_after (_get_session (handler (args_of "dev") no_cache) no_cache)))
            "aws_access_key_id" = Ok key /\
    getitem (_short_session_token
               (self_after (_get_session (handler (args_of "dev") no_cache) no_cache)))
            "aws_secret_access_key" = Ok secret /\
    getitem (_short_session_token
               (self_after (_get_session (handler (args_of "dev") no_cache) no_cache)))
            "aws_session_token" = Ok token /\
    _session (self_after (_get_session (handler (args_of "dev") no_cache) no_cache))
    = Some (SessionFromCredentials
              (_region (self_after (_get_session (handler (args_of "dev") no_cache)
                                                 no_cache)))
              key secret token).
Proof.
  split; [vm_compute; reflexivity|].
  pose proof (session_is_made_of_the_short_token
                (handler (args_of "dev") no_cache) no_cache
                (role_config "arn:aws:iam::123:role/X")) as T.
  by_evaluation T. exact T.
Defined.

(** X12, a witness.  The tokens of the first call are good for twelve hours
    and for fifteen minutes; the second call is silent. *)
Lemma second_call_asks_for_nothing_witness :
  strptime (join_rsplit_colon (isoformat (Expiration long_credentials)))
           "%Y-%m-%dT%H:%M:%S%z" = Some (Expiration long_credentials) /\
  emitted (_get_session
             (self_after (_get_session (handler (args_of "dev") no_cache) no_cache))
             (world_after (_get_session (handler (args_of "dev") no_cache) no_cache)))
  = [].
Proof.
  split; [vm_compute; reflexivity|].
  pose proof (second_call_asks_for_nothing
                (handler (args_of "dev") no_cache) no_cache
                (role_config "arn:aws:iam::123:role/X")
                "base" "arn:aws:iam::123:mfa/user" "arn:aws:iam::123:role/X"
                "123456" [] long_credentials short_credentials) as T.
  by_evaluation T. destruct T as (_ & T & _). exact T.
Defined.

(** X14, a witness.  The handler on profile [dev] has its selectors; a call
    without a service name is refused by the factory, after the session was
    made. *)
Lemma client_is_get_session_then_factory_witness :
  selectors_unset (handler (args_of "dev") no_cache) = false /\
  emitted (client [] [] (handler (args_of "dev") no_cache) no_cache)
  = emitted (_get_session (handler (args_of "dev") no_cache) no_cache) /\
  value (client [] [] (handler (args_of "dev") no_cache) no_cache) = Raise TypeError.
Proof.
  split; [vm_compute; reflexivity|].
  pose proof (client_is_get_session_then_factory [] []
                (handler (args_of "dev") no_cache) no_cache) as T.
  by_evaluation T. destruct T as (_ & _ & He & _ & T).
  split; [exact He|].
  destruct T as (s & _ & Hv); [vm_compute; reflexivity | exact Hv].
Defined.

(** X15, a witness.  The resource [s3] is granted. *)
Lemma resource_is_get_session_then_factory_witness :
  selectors_unset (handler (args_of "dev") no_cache) = false /\
  emitted (resource [PStr "s3"] [] (handler (args_of "dev") no_cache) no_cache)
  = emitted (_get_session (handler (args_of "dev") no_cache) no_cache) /\
  exists s,
    value (resource [PStr "s3"] [] (handler (args_of "dev") no_cache) no_cache)
    = Ok (ResourceOf s [PStr "s3"] []).
Proof.
  split; [vm_compute; reflexivity|].
  pose proof (resource_is_get_session_then_factory [PStr "s3"] []
                (handler (args_of "dev") no_cache) no_cache) as T.
  by_evaluation T. destruct T as (_ & _ & He & _ & T).
  split; [exact He|].
  destruct T as (s & _ & Hv); [vm_compute; reflexivity | exists s; exact Hv].
Defined.

(** X16, a witness.  The handler on [dev] took its region from the
    configuration; a switch to [prod] keeps it. *)
Lemma profile_switch_keeps_region_witness :
  _region (handler (args_of "dev") no_cache) = Some "eu-west-1" /\
  _region (self_after ((set (Some "prod") None ;;; _get_session)
                         (handler (args_of "dev") no_cache) no_cache))
  = _region (handler (args_of "dev") no_cache).
Proof.
  split; [vm_compute; reflexivity|].
  pose proof (profile_switch_keeps_region (Some "prod")
                (handler (args_of "dev") no_cache) no_cache) as T.
  by_evaluation T. exact (proj1 T).
Defined.

(** X17, a witness.  The configuration has no profile [nowhere]. *)
Lemma unknown_profile_stops_before_any_effect_witness :
  profile_map no_cache !! "nowhere" = None /\
  value (AwsSessionHandler (args_of "nowhere") no_cache)
    = Raise (ProfileNotFound "nowhere") /\
  world_after (AwsSessionHandler (args_of "nowhere") no_cache) = no_cache.
Proof.
  split; [vm_compute; reflexivity|].
  pose proof (unknown_profile_stops_before_any_effect "nowhere" no_cache) as T.
  by_evaluation T. destruct T as [T _].
  destruct (T (args_of "nowhere") eq_refl) as (Hv & _ & Hw). exact (conj Hv Hw).
Defined.

(** X19, a witness. *)
Lemma construction_without_disk_cache_witness :
  disable_file_cache (args_without_disk_cache "dev") = true /\
  world_after (AwsSessionHandler (args_without_disk_cache "dev") no_cache) = no_cache /\
  _cache_file (self_after (AwsSessionHandler (args_without_disk_cache "dev") no_cache))
    = None.
Proof.
  split; [reflexivity|].
  pose proof (construction_without_disk_cache (args_without_disk_cache "dev") no_cache)
    as T.
  by_evaluation T. destruct T as (Hw & _ & Hcf & _). exact (conj Hw Hcf).
Defined.

(** X20, a witness.  The directory of the cache file does not exist. *)
Lemma rejected_cache_location_fails_construction_witness :
  selected_cache_file (args_with_cache_file "dev" "/nowhere/cache.json") no_cache
    = None /\
  exists e,
    AwsSessionHandler (args_with_cache_file "dev" "/nowhere/cache.json") no_cache
    = mkRun (Raise e)
        (attributes_of (args_with_cache_file "dev" "/nowhere/cache.json")
                       (role_config "arn:aws:iam::123:role/X"))
        no_cache [].
Proof.
  split; [vm_compute; reflexivity|].
  pose proof (rejected_cache_location_fails_construction
                (args_with_cache_file "dev" "/nowhere/cache.json") no_cache
                (role_config "arn:aws:iam::123:role/X")) as T.
  by_evaluation T. destruct T as (e & T & _). exists e. exact T.
Defined.

(** X21, a witness.  [cache.json] has no directory part. *)
Lemma bare_file_name_is_rejected_witness :
  dirname "cache.json" = EmptyString /\
  AwsSessionHandler (args_with_cache_file "dev" "cache.json") no_cache
  = mkRun (Raise (Exception "Directory dos not exists: "))
      (attributes_of (args_with_cache_file "dev" "cache.json")
                     (role_config "arn:aws:iam::123:role/X"))
      no_cache [].
Proof.
  split; [vm_compute; reflexivity|].
  apply (bare_file_name_is_rejected
           (args_with_cache_file "dev" "cache.json") no_cache
           (role_config "arn:aws:iam::123:role/X") "cache.json").
  - reflexivity.
  - vm_compute; reflexivity.
  - reflexivity.
  - discriminate.
  - intros ch Hin. cbn in Hin.
    repeat (destruct Hin as [<- | Hin]; [discriminate|]). destruct Hin.
Defined.

(** X22, a witness.  A home directory with [.aws/app] and without
    [.aws/app/cache]. *)
Lemma default_cache_directory_is_created_witness :
  cache_parent_ready fresh_home = true /\
  fs fresh_home !! default_cache_dir fresh_home = None /\
  AwsSessionHandler (args_of "dev") fresh_home
  = mkRun (Ok tt)
      (set_cache_file (Some (default_cache_path fresh_home))
         (attributes_of (args_of "dev") (role_config "arn:aws:iam::123:role/X")))
      (set_fs (<[default_cache_dir fresh_home := Dir true]> (fs fresh_home)) fresh_home)
      [].
Proof.
  split; [vm_compute; reflexivity|]. split; [vm_compute; reflexivity|].
  pose proof (default_cache_directory_is_created
                (args_of "dev") fresh_home (role_config "arn:aws:iam::123:role/X")) as T.
  by_evaluation T. exact T.
Defined.

(** X23, a witness.  The offset of an expiry date. *)
Lemma join_rsplit_colon_drops_the_last_colon_witness :
  join_rsplit_colon ("2030-01-01T00:00:00+00" ++ ":" ++ "00")
  = ("2030-01-01T00:00:00+00" ++ "00")%string.
Proof.
  apply (join_rsplit_colon_drops_the_last_colon "2030-01-01T00:00:00+00" "00").
  intros ch Hin. cbn in Hin.
  repeat (destruct Hin as [<- | Hin]; [discriminate|]). destruct Hin.
Defined.

(** X24, a witness.  The handler made on the machine without a cache file
    holds no token, so its tokens are paired. *)
Lemma get_session_keeps_tokens_paired_witness :
  tokens_paired (handler (args_of "dev") no_cache) = true /\
  tokens_paired (self_after (_get_session (handler (args_of "dev") no_cache) no_cache))
    = true.
Proof.
  split; [vm_compute; reflexivity|].
  pose proof (get_session_keeps_tokens_paired
                (handler (args_of "dev") no_cache) no_cache) as T.
  by_evaluation T. exact T.
Defined.

(** X25, a witness.  The first call requests a session token, and assumes
    the role. *)
Lemma long_refresh_brings_short_refresh_witness :
  count is_get_session_token_call
        (emitted (_get_session (handler (args_of "dev") no_cache) no_cache)) = 1%nat /\
  count is_assume_role_call
        (emitted (_get_session (handler (args_of "dev") no_cache) no_cache)) = 1%nat.
Proof.
  split; [vm_compute; reflexivity|].
  pose proof (long_refresh_brings_short_refresh
                (handler (args_of "dev") no_cache) no_cache
                (role_config "arn:aws:iam::123:role/X")) as T.
  by_evaluation T. exact T.
Defined.

(** X26, a witness.  The handler made with neither a profile nor a region, on
    the machine without AWS configuration. *)
Lemma client_requires_selector_witness :
  selectors_unset (self_after (AwsSessionHandler no_selector_args bare_world)) = true /\
  world_after (client [PStr "sts"] []
                 (self_after (AwsSessionHandler no_selector_args bare_world)) bare_world)
  = bare_world.
Proof.
  split; [vm_compute; reflexivity|].
  pose proof (client_requires_selector [PStr "sts"] []
                (self_after (AwsSessionHandler no_selector_args bare_world))
                bare_world) as T.
  by_evaluation T. rewrite T. reflexivity.
Defined.

(** X27, a witness. *)
Lemma resource_requires_selector_witness :
  selectors_unset (self_after (AwsSessionHandler no_selector_args bare_world)) = true /\
  world_after (resource [PStr "s3"] []
                 (self_after (AwsSessionHandler no_selector_args bare_world)) bare_world)
  = bare_world.
Proof.
  split; [vm_compute; reflexivity|].
  pose proof (resource_requires_selector [PStr "s3"] []
                (self_after (AwsSessionHandler no_selector_args bare_world))
                bare_world) as T.
  by_evaluation T. rewrite T. reflexivity.
Defined.
